(** * Anonymisation of classroom snapshots: [scripts/anonymize-snapshot.py]

    A shallow embedding of the two passes of [anonymize_json] (the identifier
    collector and the tree rewriter) together with the Python primitives they
    rely on, followed by the properties of the pipeline.

    Conventions of the embedding.
    - A Python [str] is a [string]; its characters are read as code points
      below 256.
    - A parsed JSON document is a [json] tree.  Objects keep their entries in
      insertion order, as Python dictionaries do.  Numbers are carried as
      integers: no rule of the program looks at the value of a number.
    - An uncaught Python exception aborts the run; functions that can raise
      return a [result].
    - [random] is an arbitrary stream of draws, threaded explicitly. *)

From Stdlib Require Import List String Ascii ZArith Lia Bool Arith DecimalString Relations.
Import ListNotations.
Local Open Scope list_scope.
Local Open Scope string_scope.

(** ** Exceptions *)

(** The two exceptions that the rules of the script raise on a value of the
    wrong type.  The limits of the interpreter (recursion depth, memory) are
    not part of the model: a result [Ok] means that no rule raises. *)
Inductive pyerr : Type :=
| TypeError
| AttributeError.

Inductive result (A : Type) : Type :=
| Ok (a : A)
| Raise (e : pyerr).

Arguments Ok {A} a.
Arguments Raise {A} e.

Definition bind {A B : Type} (m : result A) (k : A -> result B) : result B :=
  match m with
  | Ok a => k a
  | Raise e => Raise e
  end.

Notation "x <- m ;; k" := (bind m (fun x => k))
  (at level 61, m at next level, right associativity).
Notation "' p <- m ;; k" := (bind m (fun p => k))
  (at level 61, p pattern, m at next level, right associativity).

(** ** Strings *)

Module Str.

(** [pat in s] on two strings. *)
Fixpoint contains (pat s : string) : bool :=
  prefix pat s ||
  match s with
  | EmptyString => false
  | String _ s' => contains pat s'
  end.

(** [s.split(sep)[0]] for a one-character separator. *)
Fixpoint split_head (sep : ascii) (s : string) : string :=
  match s with
  | EmptyString => EmptyString
  | String c s' => if Ascii.eqb c sep then EmptyString else String c (split_head sep s')
  end.

Definition is_digit_char (c : ascii) : bool :=
  let n := nat_of_ascii c in
  ((48 <=? n) && (n <=? 57) || (n =? 178) || (n =? 179) || (n =? 185))%nat.

Fixpoint all_chars (p : ascii -> bool) (s : string) : bool :=
  match s with
  | EmptyString => true
  | String c s' => p c && all_chars p s'
  end.

(** [s.isdigit()]: non-empty, every character a digit (the ASCII digits
    and the three superscript digits below 256). *)
Definition isdigit (s : string) : bool :=
  match s with
  | EmptyString => false
  | _ => all_chars is_digit_char s
  end.

(** The characters ['0'] to ['9']. *)
Definition is_ascii_digit (c : ascii) : bool :=
  let n := nat_of_ascii c in ((48 <=? n) && (n <=? 57))%nat.

(** [s[::-1]] *)
Definition rev (s : string) : string :=
  string_of_list_ascii (List.rev (list_ascii_of_string s)).

(** [s.replace(pat, rep)] for a non-empty [pat]: every non-overlapping
    occurrence, left to right.  [skip] counts the characters of a matched occurrence still to drop. *)
Fixpoint replace_from (pat rep : string) (skip : nat) (s : string) : string :=
  match s with
  | EmptyString => EmptyString
  | String c s' =>
      match skip with
      | S k => replace_from pat rep k s'
      | O =>
          if prefix pat s
          then rep ++ replace_from pat rep (String.length pat - 1) s'
          else String c (replace_from pat rep 0 s')
      end
  end.

Definition replace (pat rep s : string) : string :=
  match pat with
  | EmptyString => s
  | _ => replace_from pat rep 0 s
  end.

Fixpoint mem (x : string) (l : list string) : bool :=
  match l with
  | [] => false
  | y :: l' => String.eqb y x || mem x l'
  end.

(** [str(n)] for a natural number and for an integer. *)
Definition of_nat (n : nat) : string := NilZero.string_of_uint (Nat.to_uint n).
Definition of_Z (n : Z) : string := NilZero.string_of_int (Z.to_int n).

(** *** [repr] of a string, as it appears inside [str] of a list or dict *)

Definition double_quote : ascii := ascii_of_nat 34.

Definition hex_digit (n : nat) : ascii :=
  if (n <? 10)%nat then ascii_of_nat (48 + n) else ascii_of_nat (87 + n).

Definition printable (n : nat) : bool :=
  ((32 <=? n) && (n <? 127) || (161 <=? n) && negb (n =? 173))%nat.

Definition escape_char (quote c : ascii) : string :=
  let n := nat_of_ascii c in
  if Ascii.eqb c quote || Ascii.eqb c "\"%char then String "\"%char (String c EmptyString)
  else if (n =? 9)%nat then "\t"
  else if (n =? 10)%nat then "\n"
  else if (n =? 13)%nat then "\r"
  else if printable n then String c EmptyString
  else String "\"%char (String "x"%char
         (String (hex_digit (n / 16)) (String (hex_digit (n mod 16)) EmptyString))).

Fixpoint has_char (c : ascii) (s : string) : bool :=
  match s with
  | EmptyString => false
  | String c' s' => Ascii.eqb c' c || has_char c s'
  end.

Fixpoint escape (quote : ascii) (s : string) : string :=
  match s with
  | EmptyString => EmptyString
  | String c s' => escape_char quote c ++ escape quote s'
  end.

Definition repr (s : string) : string :=
  let quote := if has_char "'"%char s && negb (has_char double_quote s)
               then double_quote else "'"%char in
  String quote (escape quote s ++ String quote EmptyString).

End Str.

(** ** Dictionaries

    A Python [dict] as the list of its entries in insertion order.  Assigning
    to a key already present keeps its position; a new key goes last. *)

Class EqKey (K : Type) : Type := {
  keqb : K -> K -> bool;
  keqb_spec : forall x y, keqb x y = true <-> x = y
}.

#[export] Instance EqKey_string : EqKey string :=
  {| keqb := String.eqb; keqb_spec := String.eqb_eq |}.

Definition dict (K V : Type) : Type := list (K * V).

Section Dict.
Context {K V : Type} `{EqKey K}.

(** [d.get(k)] *)
Fixpoint dict_get (d : dict K V) (k : K) : option V :=
  match d with
  | [] => None
  | (k', v) :: d' => if keqb k' k then Some v else dict_get d' k
  end.

(** [k in d] *)
Definition dict_mem (d : dict K V) (k : K) : bool :=
  match dict_get d k with
  | Some _ => true
  | None => false
  end.

(** [d[k] = v] *)
Fixpoint dict_set (d : dict K V) (k : K) (v : V) : dict K V :=
  match d with
  | [] => [(k, v)]
  | (k', v') :: d' =>
      if keqb k' k then (k', v) :: d' else (k', v') :: dict_set d' k v
  end.

Definition dict_keys (d : dict K V) : list K := map fst d.

(** [if k not in d: d[k] = v] *)
Definition dict_default (d : dict K V) (k : K) (v : V) : dict K V :=
  if dict_mem d k then d else dict_set d k v.

End Dict.

(** ** JSON documents *)

#[local] Unset Elimination Schemes.
Inductive json : Type :=
| JNull
| JBool (b : bool)
| JNum (n : Z)
| JStr (s : string)
| JArr (items : list json)
| JObj (fields : dict string json).
#[local] Set Elimination Schemes.

(** [v == s] for a string literal [s] *)
Definition is_str (v : json) (s : string) : bool :=
  match v with
  | JStr s' => String.eqb s' s
  | _ => false
  end.

(** [isinstance(v, (dict, list))] *)
Definition is_container (v : json) : bool :=
  match v with
  | JArr _ | JObj _ => true
  | _ => false
  end.

(** [repr(v)] and [str(v)].  [str] of a string is the string itself; inside
    a list or a dict strings appear quoted and escaped. *)
Fixpoint py_repr (v : json) : string :=
  match v with
  | JNull => "None"
  | JBool true => "True"
  | JBool false => "False"
  | JNum n => Str.of_Z n
  | JStr s => Str.repr s
  | JArr items =>
      "[" ++
      (fix elems (l : list json) : string :=
         match l with
         | [] => ""
         | x :: l' =>
             py_repr x ++ match l' with [] => "" | _ => ", " ++ elems l' end
         end) items ++ "]"
  | JObj fields =>
      "{" ++
      (fix elems (l : list (string * json)) : string :=
         match l with
         | [] => ""
         | (k, x) :: l' =>
             Str.repr k ++ ": " ++ py_repr x ++
             match l' with [] => "" | _ => ", " ++ elems l' end
         end) fields ++ "}"
  end.

Definition py_str (v : json) : string :=
  match v with
  | JStr s => s
  | _ => py_repr v
  end.

(** [len(v)] *)
Definition py_len (v : json) : result nat :=
  match v with
  | JStr s => Ok (String.length s)
  | JArr items => Ok (List.length items)
  | JObj fields => Ok (List.length fields)
  | _ => Raise TypeError
  end.

(** [v.split("@")[0]] *)
Definition py_local_part (v : json) : result string :=
  match v with
  | JStr s => Ok (Str.split_head "@" s)
  | _ => Raise AttributeError
  end.

(** Keys of [name_mapping]: whatever hashable value sits under a name field.
    Python identifies [True] with [1] and [False] with [0] as keys; lists and
    dicts are unhashable. *)
Inductive pykey : Type :=
| KNone
| KInt (n : Z)
| KStr (s : string).

Definition pykey_eqb (a b : pykey) : bool :=
  match a, b with
  | KNone, KNone => true
  | KInt n, KInt m => Z.eqb n m
  | KStr s, KStr t => String.eqb s t
  | _, _ => false
  end.

Lemma pykey_eqb_spec (a b : pykey) : pykey_eqb a b = true <-> a = b.
Proof.
  destruct a, b; simpl; split; intros E; try discriminate; try reflexivity.
  - apply Z.eqb_eq in E. now subst.
  - injection E as ->. apply Z.eqb_refl.
  - apply String.eqb_eq in E. now subst.
  - injection E as ->. apply String.eqb_refl.
Qed.

#[export] Instance EqKey_pykey : EqKey pykey :=
  {| keqb := pykey_eqb; keqb_spec := pykey_eqb_spec |}.

Definition py_hash (v : json) : result pykey :=
  match v with
  | JNull => Ok KNone
  | JBool b => Ok (KInt (if b then 1 else 0))
  | JNum n => Ok (KInt n)
  | JStr s => Ok (KStr s)
  | JArr _ | JObj _ => Raise TypeError
  end.

(** ** Constants of the script *)

Definition STUDENT_DOMAIN : string := "@gapps.yrdsb.ca".
Definition TEACHER_EMAIL : string := "stewart.chan@gapps.yrdsb.ca".
Definition TEACHER_NAME : string := "Stewart Chan".
Definition DEV_NAME : string := "Dev CodePet".
Definition DEV_EMAIL : string := "dev.codepet@gmail.com".
Definition DEFAULT_TIMESTAMP : string := "2025-01-15T12:00:00.000Z".

Definition FIRST_NAMES : list string := [
  "Alice"; "Bob"; "Charlie"; "Diana"; "Emma"; "Frank"; "Grace"; "Henry";
  "Isabella"; "Jack"; "Kate"; "Liam"; "Maya"; "Noah"; "Olivia"; "Peter";
  "Quinn"; "Rachel"; "Sam"; "Tara"; "Uma"; "Victor"; "Wendy"; "Xavier";
  "Yara"; "Zoe"; "Aaron"; "Beth"; "Colin"; "Daisy"; "Ethan"; "Fiona";
  "George"; "Hannah"; "Ian"; "Julia"; "Kevin"; "Luna"; "Mike"; "Nina";
  "Oscar"; "Paula"; "Quincy"; "Rosa"; "Steve"; "Tina"; "Ulysses"; "Vera";
  "William"; "Xena"; "Yuki"; "Zachary"; "Amy"; "Blake"; "Chloe"; "David";
  "Eva"; "Felix"; "Gina"; "Hugo"; "Iris"; "Jake"; "Kelly"; "Leo";
  "Mia"; "Nathan"; "Opal"; "Patrick"; "Queenie"; "Ryan"; "Sophia"; "Tom";
  "Una"; "Vince"; "Willow"; "Xander"; "Yasmin"; "Zara"; "Adam"; "Bella"
].

Definition LAST_NAMES : list string := [
  "Anderson"; "Brown"; "Clark"; "Davis"; "Evans"; "Foster"; "Garcia"; "Harris";
  "Irving"; "Johnson"; "King"; "Lopez"; "Miller"; "Nelson"; "O'Brien"; "Parker";
  "Quinn"; "Roberts"; "Smith"; "Taylor"; "Underwood"; "Valdez"; "Williams"; "Xavier";
  "Young"; "Zhang"; "Adams"; "Baker"; "Carter"; "Dixon"; "Edwards"; "Fisher";
  "Green"; "Hill"; "Jackson"; "Kumar"; "Lee"; "Martin"; "Nguyen"; "Owen";
  "Patel"; "Rodriguez"; "Scott"; "Thompson"; "Turner"; "Walker"; "White"; "Wilson";
  "Chen"; "Kim"; "Singh"; "Ali"; "Moore"; "Wright"; "Hall"; "Allen";
  "Torres"; "Ramirez"; "Flores"; "Rivera"; "Campbell"; "Mitchell"; "Gonzalez"; "Perez";
  "Sanchez"; "Bailey"; "Murphy"; "Cooper"; "Richardson"; "Cox"; "Ward"; "Peterson";
  "Bennett"; "Watson"; "Jenkins"; "Perry"; "Powell"; "Long"; "Patterson"; "Hughes"
].

(** ** Randomness

    [random] as a stream of raw draws and a read position. *)

Record rng : Type := { draws : nat -> Z; pos : nat }.

Definition next_draw (g : rng) : Z * rng :=
  (draws g (pos g), {| draws := draws g; pos := S (pos g) |}).

(** ['.join(random.choices('0123456789', k=k))] *)
Fixpoint random_digits (k : nat) (g : rng) : string * rng :=
  match k with
  | O => (EmptyString, g)
  | S k' =>
      let (d, g1) := next_draw g in
      let (s, g2) := random_digits k' g1 in
      (String (ascii_of_nat (48 + Z.to_nat (d mod 10))) s, g2)
  end.

(** [random.randint(lo, hi)] *)
Definition randint (lo hi : Z) (g : rng) : Z * rng :=
  let (d, g1) := next_draw g in ((lo + d mod (hi - lo + 1))%Z, g1).

(** ** Helper functions of the script *)

Definition reverse_student_number (student_number : string) : string :=
  Str.rev student_number.

(** The candidate tried at a given value of [attempts]. *)
Definition candidate_name (index attempts : nat) : string :=
  nth (index mod List.length FIRST_NAMES) FIRST_NAMES "" ++ " " ++
  nth ((index + attempts) mod List.length LAST_NAMES) LAST_NAMES "".

(** The loop [while attempts < 100], with [todo = 100 - attempts]. *)
Fixpoint search_name (todo attempts index : nat) (used_names : list string)
  : option string :=
  match todo with
  | O => None
  | S todo' =>
      let name := candidate_name index attempts in
      if negb (Str.mem name used_names) then Some name
      else search_name todo' (S attempts) index used_names
  end.

(** Returns the name and the updated set of used names.  The fallback after
    100 collisions appends the index to the last candidate tried and does not
    touch the set. *)
Definition generate_fake_name (index : nat) (used_names : list string)
  : string * list string :=
  match search_name 100 0 index used_names with
  | Some name => (name, name :: used_names)
  | None => (candidate_name index 99 ++ Str.of_nat index, used_names)
  end.

(** ** The shared structures of one run *)

Record tables : Type := {
  name_mapping : dict pykey string;
  student_number_mapping : dict string string;
  student_id_mapping : dict string string;
  used_names : list string
}.

(** The state at the start of the collection pass: the teacher's name and the
    placeholder of an earlier anonymisation are mapped already. *)
Definition initial_tables : tables :=
  {| name_mapping :=
       dict_set (dict_set [] (KStr TEACHER_NAME) DEV_NAME) (KStr "Test Teacher") DEV_NAME;
     student_number_mapping := [];
     student_id_mapping := [];
     used_names := [] |}.

(** ** First pass: [collect_identifiers] *)

(** [STUDENT_DOMAIN in email]: substring of a string, element of a list, key
    of a dict. *)
Definition domain_in (email : json) : result bool :=
  match email with
  | JStr s => Ok (Str.contains STUDENT_DOMAIN s)
  | JArr items => Ok (existsb (fun x => is_str x STUDENT_DOMAIN) items)
  | JObj fields => Ok (dict_mem fields STUDENT_DOMAIN)
  | _ => Raise TypeError
  end.

(** The test ["@gapps.yrdsb.ca" in email and email.split("@")[0].isdigit()];
    when it holds, the student number [email.split("@")[0]]. *)
Definition student_number_of (email : json) : result (option string) :=
  b <- domain_in email ;;
  if b then
    local <- py_local_part email ;;
    Ok (if Str.isdigit local then Some local else None)
  else Ok None.

(** [if student_number not in student_number_mapping: ...] *)
Definition record_student_number (student_number : string) (T : tables) : tables :=
  if negb (dict_mem (student_number_mapping T) student_number) then
    {| name_mapping := name_mapping T;
       student_number_mapping :=
         dict_set (student_number_mapping T) student_number
                  (reverse_student_number student_number);
       student_id_mapping := student_id_mapping T;
       used_names := used_names T |}
  else T.

(** [if name not in name_mapping and name != "Stewart Chan": ...] *)
Definition record_name (name : json) (T : tables) : result tables :=
  key <- py_hash name ;;
  if negb (dict_mem (name_mapping T) key) && negb (is_str name TEACHER_NAME) then
    let (fake_name, used) :=
      generate_fake_name (List.length (name_mapping T)) (used_names T) in
    Ok {| name_mapping := dict_set (name_mapping T) key fake_name;
          student_number_mapping := student_number_mapping T;
          student_id_mapping := student_id_mapping T;
          used_names := used |}
  else Ok T.

(** The body shared by the two name-and-email rules. *)
Definition collect_student (name email : json) (T : tables) : result tables :=
  sn <- student_number_of email ;;
  match sn with
  | Some student_number =>
      T1 <- record_name name T ;;
      Ok (record_student_number student_number T1)
  | None => Ok T
  end.

Definition collect_teacher (obj : dict string json) (T : tables) : tables :=
  match dict_get obj "email" with
  | Some email =>
      if is_str email TEACHER_EMAIL then
        {| name_mapping := dict_set (name_mapping T) (KStr TEACHER_NAME) DEV_NAME;
           student_number_mapping := student_number_mapping T;
           student_id_mapping := student_id_mapping T;
           used_names := used_names T |}
      else T
  | None => T
  end.

Definition collect_name_email (name_key email_key : string)
    (obj : dict string json) (T : tables) : result tables :=
  match dict_get obj name_key, dict_get obj email_key with
  | Some name, Some email => collect_student name email T
  | _, _ => Ok T
  end.

Definition collect_email (obj : dict string json) (T : tables) : result tables :=
  match dict_get obj "email" with
  | Some email =>
      sn <- student_number_of email ;;
      match sn with
      | Some student_number => Ok (record_student_number student_number T)
      | None => Ok T
      end
  | None => Ok T
  end.

Definition collect_student_id (obj : dict string json) (T : tables) (g : rng)
  : result (tables * rng) :=
  match dict_get obj "studentId" with
  | Some student_id =>
      key <- py_hash student_id ;;
      match key with
      | KStr s =>
          if negb (dict_mem (student_id_mapping T) s) then
            let (fake_id, g1) := random_digits (String.length s) g in
            Ok ({| name_mapping := name_mapping T;
                   student_number_mapping := student_number_mapping T;
                   student_id_mapping := dict_set (student_id_mapping T) s fake_id;
                   used_names := used_names T |}, g1)
          else Ok (T, g)
      | _ => n <- py_len student_id ;; Ok (T, g)
      end
  | None => Ok (T, g)
  end.

(** The detection rules applied at one map node, in the order of the source. *)
Definition collect_node (obj : dict string json) (T : tables) (g : rng)
  : result (tables * rng) :=
  let T1 := collect_teacher obj T in
  T2 <- collect_name_email "name" "email" obj T1 ;;
  T3 <- collect_name_email "studentName" "studentEmail" obj T2 ;;
  T4 <- collect_email obj T3 ;;
  collect_student_id obj T4 g.

Section CollectLoops.
Variable visit : json -> tables -> rng -> result (tables * rng).

(** [for value in obj.values(): collect_identifiers(value)] *)
Fixpoint collect_values (l : dict string json) (T : tables) (g : rng)
  : result (tables * rng) :=
  match l with
  | [] => Ok (T, g)
  | (_, value) :: l' =>
      '(T1, g1) <- visit value T g ;;
      collect_values l' T1 g1
  end.

(** [for item in obj: collect_identifiers(item)] *)
Fixpoint collect_items (l : list json) (T : tables) (g : rng)
  : result (tables * rng) :=
  match l with
  | [] => Ok (T, g)
  | item :: l' =>
      '(T1, g1) <- visit item T g ;;
      collect_items l' T1 g1
  end.
End CollectLoops.

Fixpoint collect_identifiers (obj : json) (T : tables) (g : rng)
  : result (tables * rng) :=
  match obj with
  | JObj fields =>
      '(T1, g1) <- collect_node fields T g ;;
      collect_values collect_identifiers fields T1 g1
  | JArr items => collect_items collect_identifiers items T g
  | _ => Ok (T, g)
  end.

(** ** Second pass: [replace_identifiers] *)

Definition URL_KEYS : list string :=
  ["alternateLink"; "formUrl"; "responseUrl"; "thumbnailUrl"; "photoUrl"].

(** The eleven fields that the quiz repair fills in, in the order of the
    source. *)
Definition QUIZ_KEYS : list string :=
  ["formId"; "formUrl"; "title"; "isQuiz"; "collectEmailAddresses";
   "allowResponseEditing"; "totalQuestions"; "totalPoints";
   "autoGradableQuestions"; "manualGradingRequired"; "requireSignIn"].

(** [isinstance(value, str) and value in name_mapping], with the entry *)
Definition lookup_name (T : tables) (value : json) : option string :=
  match value with
  | JStr s => dict_get (name_mapping T) (KStr s)
  | _ => None
  end.

(** [value in student_id_mapping], with the entry *)
Definition lookup_id (T : tables) (value : json) : result (option string) :=
  key <- py_hash value ;;
  match key with
  | KStr s => Ok (dict_get (student_id_mapping T) s)
  | _ => Ok None
  end.

Definition rewrite_url (value : json) : json :=
  let s := py_str value in
  if Str.contains "classroom.google.com" s then
    JStr "https://classroom.example.com/placeholder"
  else if Str.contains "docs.google.com/forms" s then
    JStr "https://forms.example.com/placeholder"
  else if Str.contains "docs.google.com/spreadsheets" s then
    JStr "https://sheets.example.com/placeholder"
  else if Str.contains "googleusercontent.com" s || prefix "//lh" s then
    JStr "https://cdn.example.com/placeholder.png"
  else value.

(** The branch [key == "quizData" and isinstance(value, dict)], on the
    entries of [value]. *)
Definition fix_quiz_data (value : dict string json) (g : rng)
  : result (json * rng) :=
  let quiz_data := value in
  let (q1, g1) :=
    if negb (dict_mem quiz_data "formId") then
      let (n, g1) := randint 100000 999999 g in
      (dict_set quiz_data "formId" (JStr ("quiz_form_" ++ Str.of_Z n)), g1)
    else (quiz_data, g) in
  let q2 := dict_default q1 "formUrl" (JStr "https://forms.example.com/placeholder") in
  let q3 := dict_default q2 "title" (JStr "Sample Quiz") in
  let q4 := dict_default q3 "isQuiz" (JBool true) in
  let q5 := dict_default q4 "collectEmailAddresses" (JBool true) in
  let q6 := dict_default q5 "allowResponseEditing" (JBool false) in
  q7 <- (if negb (dict_mem q6 "totalQuestions") then
           n <- py_len (match dict_get q6 "questions" with
                        | Some questions => questions
                        | None => JArr []
                        end) ;;
           Ok (dict_set q6 "totalQuestions" (JNum (Z.of_nat n)))
         else Ok q6) ;;
  let q8 := dict_default q7 "totalPoints" (JNum 100) in
  let q9 := dict_default q8 "autoGradableQuestions" (JNum 0) in
  let q10 := dict_default q9 "manualGradingRequired" (JBool true) in
  let q11 := dict_default q10 "requireSignIn" (JBool true) in
  Ok (JObj q11, g1).

(** The [if]/[elif] chain applied to one entry; [recur] is the recursive call
    of [replace_identifiers]. *)
Definition rewrite_value (T : tables) (recur : json -> rng -> result (json * rng))
    (key : string) (value : json) (g : rng) : result (json * rng) :=
  if Str.mem key ["email"; "teacherEmail"] && is_str value TEACHER_EMAIL then
    Ok (JStr DEV_EMAIL, g)
  else if Str.mem key ["email"; "studentEmail"]
          && Str.contains STUDENT_DOMAIN (py_str value) then
    student_number <- py_local_part value ;;
    if Str.isdigit student_number then
      match dict_get (student_number_mapping T) student_number with
      | Some reversed_number => Ok (JStr (reversed_number ++ "@gapps.yrdsb.ca"), g)
      | None =>
          Ok (JStr (reverse_student_number student_number ++ "@gapps.yrdsb.ca"), g)
      end
    else Ok (value, g)
  else
    match (if Str.mem key ["name"; "displayName"; "studentName"]
           then lookup_name T value else None) with
    | Some fake_name => Ok (JStr fake_name, g)
    | None =>
        id <- (if String.eqb key "studentId" then lookup_id T value else Ok None) ;;
        match id with
        | Some fake_id => Ok (JStr fake_id, g)
        | None =>
            if Str.mem key URL_KEYS then Ok (rewrite_url value, g)
            else
              match (if String.eqb key "quizData" then value else JNull) with
              | JObj quiz => fix_quiz_data quiz g
              | _ =>
                  if String.eqb key "courseGroupEmail" then
                    match value with
                    | JStr s => Ok (JStr (Str.replace "@gapps.yrdsb.ca" "@example.com" s), g)
                    | _ => Raise AttributeError
                    end
                  else if is_container value then recur value g
                  else Ok (value, g)
              end
        end
    end.

(** The repair applied to a rebuilt map that has both [studentEmail] and
    [studentName].  The source updates [new_obj["grade"]] in place; that dict
    was built by the recursive call for this entry and nothing else refers to
    it, so the update is the replacement of the entry. *)
Definition repair_submission (new_obj : dict string json) : dict string json :=
  if dict_mem new_obj "studentEmail" && dict_mem new_obj "studentName" then
    let o1 :=
      if negb (dict_mem new_obj "updatedAt") then
        dict_set new_obj "updatedAt"
          (match dict_get new_obj "submittedAt" with
           | Some v => v
           | None => JStr DEFAULT_TIMESTAMP
           end)
      else new_obj in
    let o2 :=
      if negb (dict_mem o1 "attachments") then dict_set o1 "attachments" (JArr [])
      else o1 in
    match dict_get o2 "grade" with
    | Some (JObj grade) =>
        match dict_get grade "gradedBy" with
        | Some graded_by =>
            if is_str graded_by "teacher"
            then dict_set o2 "grade" (JObj (dict_set grade "gradedBy" (JStr "manual")))
            else o2
        | None => o2
        end
    | _ => o2
    end
  else new_obj.

Section RewriteLoops.
Variable T : tables.
Variable recur : json -> rng -> result (json * rng).

(** [for key, value in obj.items(): new_obj[key] = ...] *)
Fixpoint rewrite_entries (l : dict string json) (new_obj : dict string json)
    (g : rng) : result (dict string json * rng) :=
  match l with
  | [] => Ok (new_obj, g)
  | (key, value) :: l' =>
      '(v, g1) <- rewrite_value T recur key value g ;;
      rewrite_entries l' (dict_set new_obj key v) g1
  end.

(** [[replace_identifiers(item) for item in obj]] *)
Fixpoint rewrite_items (l : list json) (g : rng) : result (list json * rng) :=
  match l with
  | [] => Ok ([], g)
  | item :: l' =>
      '(v, g1) <- recur item g ;;
      '(vs, g2) <- rewrite_items l' g1 ;;
      Ok (v :: vs, g2)
  end.
End RewriteLoops.

Fixpoint replace_identifiers (T : tables) (obj : json) (g : rng)
  : result (json * rng) :=
  match obj with
  | JObj fields =>
      '(new_obj, g1) <- rewrite_entries T (replace_identifiers T) fields [] g ;;
      Ok (JObj (repair_submission new_obj), g1)
  | JArr items =>
      '(new_items, g1) <- rewrite_items (replace_identifiers T) items g ;;
      Ok (JArr new_items, g1)
  | _ => Ok (obj, g)
  end.

(** ** The pipeline *)

Definition anonymize_json (data : json) (g : rng) : result (json * rng) :=
  '(T, g1) <- collect_identifiers data initial_tables g ;;
  replace_identifiers T data g1.

(** The document alone, for reading results. *)
Definition document {A B : Type} (r : result (A * B)) : option A :=
  match r with
  | Ok (a, _) => Some a
  | Raise _ => None
  end.


(** ** Vocabulary of the statements *)

(** A well-formed document: no dictionary holds a key twice. *)
Fixpoint distinct_keys (l : list string) : bool :=
  match l with
  | [] => true
  | k :: l' => negb (Str.mem k l') && distinct_keys l'
  end.

Fixpoint wf_json (v : json) : bool :=
  match v with
  | JObj fields =>
      distinct_keys (dict_keys fields) &&
      (fix all (l : dict string json) : bool :=
         match l with
         | [] => true
         | (_, x) :: l' => wf_json x && all l'
         end) fields
  | JArr items =>
      (fix all (l : list json) : bool :=
         match l with
         | [] => true
         | x :: l' => wf_json x && all l'
         end) items
  | _ => true
  end.

(** Positions in a document. *)
Inductive step : Type :=
| Key (k : string)
| Idx (i : nat).

Definition child (s : step) (v : json) : option json :=
  match s, v with
  | Key k, JObj fields => dict_get fields k
  | Idx i, JArr items => nth_error items i
  | _, _ => None
  end.

Fixpoint at_path (p : list step) (v : json) : option json :=
  match p with
  | [] => Some v
  | s :: p' =>
      match child s v with
      | Some x => at_path p' x
      | None => None
      end
  end.

(** Entries whose value the rewriter does not descend into: the value under
    a URL key, and a map under [quizData]. *)
Definition copied_entry (key : string) (value : json) : bool :=
  Str.mem key URL_KEYS ||
  (String.eqb key "quizData" && match value with JObj _ => true | _ => false end).

(** [rebuilt p v]: the path [p] exists in [v] and crosses no copied entry, so
    that the rewriter reaches its end by recursive calls. *)
Fixpoint rebuilt (p : list step) (v : json) : bool :=
  match p with
  | [] => true
  | s :: p' =>
      match child s v with
      | Some x =>
          match s with
          | Key k => negb (copied_entry k x)
          | Idx _ => true
          end && rebuilt p' x
      | None => false
      end
  end.

(** An output entry obtained from an input entry by the [if]/[elif] chain. *)
Definition entry_rewritten (T : tables) (recur : json -> rng -> result (json * rng))
    (kv kv' : string * json) : Prop :=
  fst kv' = fst kv /\
  exists g1 g2, rewrite_value T recur (fst kv) (snd kv) g1 = Ok (snd kv', g2).

(** What the submission repair may do to the value of an entry: nothing, or
    turn [gradedBy: "teacher"] into [gradedBy: "manual"] in a grade map. *)
Definition grade_fixed (v v' : json) : Prop :=
  v' = v \/
  exists grade,
    v = JObj grade /\
    dict_get grade "gradedBy" = Some (JStr "teacher") /\
    v' = JObj (dict_set grade "gradedBy" (JStr "manual")).

(** The test [("studentEmail" in new_obj and "studentName" in new_obj)]. *)
Definition submission_shaped (obj : dict string json) : bool :=
  dict_mem obj "studentEmail" && dict_mem obj "studentName".

(** The keys that the submission repair appends. *)
Definition backfilled_keys (obj : dict string json) : list string :=
  if submission_shaped obj then
    ((if dict_mem obj "updatedAt" then [] else ["updatedAt"]) ++
     (if dict_mem obj "attachments" then [] else ["attachments"]))%list
  else [].

(** [d] is [quiz] followed by entries under new keys taken from the eleven. *)
Definition quiz_extended (quiz d : dict string json) : Prop :=
  exists extra,
    d = (quiz ++ extra)%list /\
    forall k, In k (dict_keys extra) -> In k QUIZ_KEYS /\ ~ In k (dict_keys quiz).

(** Streams of draws used in the examples. *)
Definition zeros : rng := {| draws := fun _ => 0%Z; pos := 0 |}.
Definition counting : rng := {| draws := fun n => (7 * Z.of_nat n + 3)%Z; pos := 0 |}.

(** One rule application of the collection pass.  The states of the pass are
    those reached from [initial_tables] by such steps. *)
Inductive collect_step : tables -> tables -> Prop :=
| step_teacher obj T :
    collect_step T (collect_teacher obj T)
| step_name_email name_key email_key obj T T' :
    collect_name_email name_key email_key obj T = Ok T' -> collect_step T T'
| step_email obj T T' :
    collect_email obj T = Ok T' -> collect_step T T'
| step_student_id obj T g T' g' :
    collect_student_id obj T g = Ok (T', g') -> collect_step T T'.

Definition collect_steps : tables -> tables -> Prop :=
  clos_refl_trans tables collect_step.

Definition collecting (T : tables) : Prop := collect_steps initial_tables T.

(** A name made by the fallback of [generate_fake_name]. *)
Definition is_fallback_name (name : string) : Prop :=
  exists index, name = candidate_name index 99 ++ Str.of_nat index.

(** Entries are never changed once made. *)
Definition tables_le (T T' : tables) : Prop :=
  (forall k v, dict_get (name_mapping T) k = Some v ->
               dict_get (name_mapping T') k = Some v) /\
  (forall k v, dict_get (student_number_mapping T) k = Some v ->
               dict_get (student_number_mapping T') k = Some v) /\
  (forall k v, dict_get (student_id_mapping T) k = Some v ->
               dict_get (student_id_mapping T') k = Some v).

(** What holds of the tables throughout the collection pass. *)
Record tables_ok (T : tables) : Prop := {
  ok_name_keys : NoDup (dict_keys (name_mapping T));
  ok_teacher : dict_get (name_mapping T) (KStr TEACHER_NAME) = Some DEV_NAME;
  ok_name_origin :
    forall k v, dict_get (name_mapping T) k = Some v ->
                v = DEV_NAME \/ In v (used_names T) \/ is_fallback_name v;
  ok_name_distinct :
    forall k1 k2 v, k1 <> k2 ->
                    dict_get (name_mapping T) k1 = Some v ->
                    dict_get (name_mapping T) k2 = Some v ->
                    v = DEV_NAME \/ is_fallback_name v;
  ok_numbers :
    forall k v, dict_get (student_number_mapping T) k = Some v -> v = Str.rev k;
  ok_ids :
    forall k v, dict_get (student_id_mapping T) k = Some v ->
                String.length v = String.length k /\
                Str.all_chars Str.is_ascii_digit v = true
}.

(** Structural congruence of an output document with its input.

    [keys_allowed extra_ok keys keys']: every input key is an output key, and
    every output key is an input key or one that [extra_ok] admits. *)
Definition keys_allowed (extra_ok : string -> bool) (keys keys' : list string) : bool :=
  forallb (fun k => Str.mem k keys') keys &&
  forallb (fun k => Str.mem k keys || extra_ok k) keys'.

(** [congruent_with quiz_rule quiz_node v v']: every map of the output [v']
    stands where the input [v] has a map, with the keys of that map and at
    most [updatedAt] and [attachments] more when the input map has both
    [studentEmail] and [studentName]; every sequence of the output stands
    where the input has a sequence of the same length.  With [quiz_rule], a
    map that is the value of a [quizData] key ([quiz_node]) may also have
    more keys among the eleven quiz fields. *)
Fixpoint congruent_with (quiz_rule quiz_node : bool) (v v' : json) {struct v} : bool :=
  match v' with
  | JObj fields' =>
      match v with
      | JObj fields =>
          keys_allowed
            (fun k => submission_shaped fields && Str.mem k ["updatedAt"; "attachments"]
                      || quiz_node && Str.mem k QUIZ_KEYS)
            (dict_keys fields) (dict_keys fields') &&
          (fix all (l : dict string json) : bool :=
             match l with
             | [] => true
             | (k, x) :: l' =>
                 match dict_get fields' k with
                 | Some x' =>
                     congruent_with quiz_rule
                       (quiz_rule && String.eqb k "quizData") x x'
                 | None => false
                 end && all l'
             end) fields
      | _ => false
      end
  | JArr items' =>
      match v with
      | JArr items =>
          Nat.eqb (List.length items) (List.length items') &&
          (fix all (l l' : list json) : bool :=
             match l, l' with
             | x :: l1, x' :: l1' =>
                 congruent_with quiz_rule false x x' && all l1 l1'
             | _, _ => true
             end) items items'
      | _ => false
      end
  | _ => true
  end.

(** A small roster used in the examples. *)
Definition roster_example : json :=
  JObj [("teacher", JObj [("email", JStr "stewart.chan@gapps.yrdsb.ca");
                          ("name", JStr "Stewart Chan")]);
        ("students",
         JArr [JObj [("name", JStr "Jordan Lee");
                     ("email", JStr "200123456@gapps.yrdsb.ca");
                     ("studentId", JStr "A17")];
               JObj [("name", JStr "Robin Park");
                     ("email", JStr "200654321@gapps.yrdsb.ca");
                     ("studentId", JStr "B2")]]);
        ("submissions",
         JArr [JObj [("studentName", JStr "Jordan Lee");
                     ("studentEmail", JStr "200123456@gapps.yrdsb.ca");
                     ("studentId", JStr "A17")]])].

(** The map [fields] pairs the name [n], under [name_key], with an email
    under [email_key] that the collector takes for a student email. *)
Definition student_named (fields : dict string json) (name_key email_key n : string)
  : Prop :=
  dict_get fields name_key = Some (JStr n) /\
  exists email student_number,
    dict_get fields email_key = Some email /\
    student_number_of email = Ok (Some student_number).

(** The same as a test, and over a whole document: some map of it pairs the
    name [n] with a student email. *)
Definition pairs_student (fields : dict string json) (name_key email_key n : string)
  : bool :=
  match dict_get fields name_key, dict_get fields email_key with
  | Some name, Some email =>
      is_str name n &&
      match student_number_of email with
      | Ok (Some _) => true
      | _ => false
      end
  | _, _ => false
  end.

Fixpoint student_name_in (n : string) (v : json) : bool :=
  match v with
  | JObj fields =>
      pairs_student fields "name" "email" n ||
      pairs_student fields "studentName" "studentEmail" n ||
      (fix any (l : dict string json) : bool :=
         match l with
         | [] => false
         | (_, x) :: l' => student_name_in n x || any l'
         end) fields
  | JArr items =>
      (fix any (l : list json) : bool :=
         match l with
         | [] => false
         | x :: l' => student_name_in n x || any l'
         end) items
  | _ => false
  end.

(** An email value as the pipeline leaves it: the teacher placeholder, or
    digits before the student domain.  A name as the pipeline writes it: the
    teacher placeholder or a first name and a last name of the lists. *)
Definition anonymized_email (e : string) : Prop :=
  e = DEV_EMAIL \/
  exists local, Str.isdigit local = true /\ e = local ++ "@gapps.yrdsb.ca".

Definition synthetic_name (n : string) : Prop :=
  n = DEV_NAME \/ exists index attempts, n = candidate_name index attempts.

(** The output of a first run over a teacher and a student. *)
Definition anonymized_example : json :=
  JObj [("teacher", JObj [("email", JStr "dev.codepet@gmail.com");
                          ("name", JStr "Dev CodePet")]);
        ("students",
         JArr [JObj [("name", JStr "Charlie Clark");
                     ("email", JStr "654321002@gapps.yrdsb.ca")]])].

(** [isinstance(v, str)], and the values that are neither strings nor
    containers: [None], booleans and numbers. *)
Definition is_string (v : json) : bool :=
  match v with
  | JStr _ => true
  | _ => false
  end.

Definition is_plain_scalar (v : json) : bool :=
  match v with
  | JNull | JBool _ | JNum _ => true
  | _ => false
  end.

(** Values that [len] accepts. *)
Definition has_len (v : json) : bool :=
  match v with
  | JStr _ | JArr _ | JObj _ => true
  | _ => false
  end.

(** Documents on which no rule meets a value of a type it cannot handle:
    at every map, whatever stands under [email], [studentEmail],
    [studentId] and [courseGroupEmail] is a string, whatever stands under
    [name] and [studentName] is not a list or a map, and a map under
    [quizData] has [totalQuestions] or has nothing, a string, a list or a map
    under [questions]. *)
Definition quiz_typed (quiz : dict string json) : bool :=
  dict_mem quiz "totalQuestions" ||
  match dict_get quiz "questions" with
  | Some questions => has_len questions
  | None => true
  end.

Definition entry_typed (key : string) (value : json) : bool :=
  (negb (Str.mem key ["email"; "studentEmail"]) || is_string value) &&
  (negb (String.eqb key "studentId") || is_string value) &&
  (negb (String.eqb key "courseGroupEmail") || is_string value) &&
  (negb (Str.mem key ["name"; "studentName"]) || negb (is_container value)) &&
  (negb (String.eqb key "quizData") ||
   match value with
   | JObj quiz => quiz_typed quiz
   | _ => true
   end).

Fixpoint well_typed (v : json) : bool :=
  match v with
  | JObj fields =>
      (fix all (l : dict string json) : bool :=
         match l with
         | [] => true
         | (k, x) :: l' => entry_typed k x && well_typed x && all l'
         end) fields
  | JArr items =>
      (fix all (l : list json) : bool :=
         match l with
         | [] => true
         | x :: l' => well_typed x && all l'
         end) items
  | _ => true
  end.

(** The keys that some rule of the rewriter names. *)
Definition RULE_KEYS : list string :=
  (["email"; "teacherEmail"; "studentEmail"; "name"; "displayName"; "studentName";
    "studentId"] ++ URL_KEYS ++ ["quizData"; "courseGroupEmail"])%list.



(** ** Random draws *)

(** A computation that draws no random number: it hands the stream back as
    it got it, and its result is the same on every stream. *)
Definition draws_nothing {A : Type} (f : rng -> result (A * rng)) : Prop :=
  forall g x g', f g = Ok (x, g') -> g' = g /\ forall h, f h = Ok (x, h).

(** A map under the key [quizData] has [formId]. *)
Definition quiz_has_form_id (key : string) (value : json) : bool :=
  match value with
  | JObj quiz => negb (String.eqb key "quizData") || dict_mem quiz "formId"
  | _ => true
  end.

(** Documents in which no map has a [studentId] key and every map under a
    [quizData] key has [formId]: the two places where the source calls
    [random]. *)
Fixpoint draw_free (v : json) : bool :=
  match v with
  | JObj fields =>
      negb (dict_mem fields "studentId") &&
      (fix all (l : dict string json) : bool :=
         match l with
         | [] => true
         | (k, x) :: l' => quiz_has_form_id k x && draw_free x && all l'
         end) fields
  | JArr items =>
      (fix all (l : list json) : bool :=
         match l with
         | [] => true
         | x :: l' => draw_free x && all l'
         end) items
  | _ => true
  end.

(** ** Synthetic names kept apart *)

(** While fewer than 80 names are in use, every synthetic name of the Name
    Mapping other than the teacher placeholder is a used name and stands
    under one key only. *)
Definition names_apart (T : tables) : Prop :=
  (forall k v, dict_get (name_mapping T) k = Some v ->
               v = DEV_NAME \/ In v (used_names T) \/
               80 <= List.length (used_names T)) /\
  (forall k1 k2 v, k1 <> k2 ->
                   dict_get (name_mapping T) k1 = Some v ->
                   dict_get (name_mapping T) k2 = Some v ->
                   v = DEV_NAME \/ 80 <= List.length (used_names T)).

(** An assignment with a quiz and a submission, both below the root. *)
Definition coursework_example : json :=
  JObj [("assignments",
         JArr [JObj [("title", JStr "Quiz 3");
                     ("quizData",
                      JObj [("questions", JArr [JNum 1; JNum 2; JNum 3])])]]);
        ("submissions",
         JArr [JObj [("studentEmail", JStr "200123456@gapps.yrdsb.ca");
                     ("studentName", JStr "Jordan Lee");
                     ("grade", JObj [("score", JNum 8);
                                     ("gradedBy", JStr "teacher")])]])].

(** * Properties *)

(** ** Induction over documents *)

Lemma json_ind (P : json -> Prop)
    (HNull : P JNull)
    (HBool : forall b, P (JBool b))
    (HNum : forall n, P (JNum n))
    (HStr : forall s, P (JStr s))
    (HArr : forall items, Forall P items -> P (JArr items))
    (HObj : forall fields, Forall (fun kv => P (snd kv)) fields -> P (JObj fields))
  : forall v, P v.
Proof.
  fix go 1. intros [| b | n | s | items | fields].
  - exact HNull.
  - apply HBool.
  - apply HNum.
  - apply HStr.
  - apply HArr. induction items as [|x l IH]; constructor; [apply go | exact IH].
  - apply HObj. induction fields as [|kv l IH]; constructor; [apply go | exact IH].
Qed.

(** ** The result monad *)

Lemma bind_Ok {A B : Type} (m : result A) (k : A -> result B) (b : B) :
  bind m k = Ok b -> exists a, m = Ok a /\ k a = Ok b.
Proof.
  destruct m as [a | e]; simpl; intros E; [eauto | discriminate].
Qed.

Ltac inv_bind H :=
  let a := fresh "r" in
  let E := fresh "E" in
  apply bind_Ok in H; destruct H as [a [E H]].

(** ** Dictionaries *)

Section DictFacts.
Context {K V : Type} `{EqKey K}.

Lemma keqb_refl (k : K) : keqb k k = true.
Proof. now apply keqb_spec. Qed.

Lemma keqb_neq (k k' : K) : k <> k' -> keqb k k' = false.
Proof.
  intros N. destruct (keqb k k') eqn:E; [|reflexivity].
  apply keqb_spec in E. contradiction.
Qed.

Lemma keqb_false (k k' : K) : keqb k k' = false -> k <> k'.
Proof.
  intros E ->. rewrite keqb_refl in E. discriminate.
Qed.

Lemma dict_get_set_eq (d : dict K V) (k : K) (v : V) :
  dict_get (dict_set d k v) k = Some v.
Proof.
  induction d as [|[k' v'] d IH]; simpl.
  - now rewrite keqb_refl.
  - destruct (keqb k' k) eqn:E; simpl; rewrite E; [reflexivity | exact IH].
Qed.

Lemma dict_get_set_neq (d : dict K V) (k k' : K) (v : V) :
  k <> k' -> dict_get (dict_set d k v) k' = dict_get d k'.
Proof.
  intros N. induction d as [|[k0 v0] d IH]; simpl.
  - now rewrite (keqb_neq _ _ N).
  - destruct (keqb k0 k) eqn:E; simpl.
    + apply keqb_spec in E. subst k0. now rewrite (keqb_neq _ _ N).
    + destruct (keqb k0 k'); [reflexivity | exact IH].
Qed.

Lemma dict_get_In (d : dict K V) (k : K) (v : V) :
  dict_get d k = Some v -> In (k, v) d.
Proof.
  induction d as [|[k' v'] d IH]; simpl; [discriminate|].
  destruct (keqb k' k) eqn:E.
  - apply keqb_spec in E. intros [= ->]. left. now subst.
  - intros G. right. auto.
Qed.

Lemma dict_get_None (d : dict K V) (k : K) :
  dict_get d k = None <-> ~ In k (dict_keys d).
Proof.
  induction d as [|[k' v'] d IH]; simpl.
  - tauto.
  - destruct (keqb k' k) eqn:E.
    + apply keqb_spec in E. split; [discriminate | intros N; exfalso; auto].
    + apply keqb_false in E. rewrite IH. tauto.
Qed.

Lemma dict_mem_true (d : dict K V) (k : K) :
  dict_mem d k = true <-> In k (dict_keys d).
Proof.
  unfold dict_mem. destruct (dict_get d k) eqn:G.
  - split; [intros _ | reflexivity].
    apply dict_get_In in G. apply (in_map fst) in G. exact G.
  - split; [discriminate|]. intros I. apply dict_get_None in G. contradiction.
Qed.

Lemma dict_mem_false (d : dict K V) (k : K) :
  dict_mem d k = false <-> ~ In k (dict_keys d).
Proof.
  rewrite <- dict_mem_true. destruct (dict_mem d k); split; congruence.
Qed.

Lemma dict_set_new (d : dict K V) (k : K) (v : V) :
  dict_mem d k = false -> dict_set d k v = (d ++ [(k, v)])%list.
Proof.
  unfold dict_mem. induction d as [|[k' v'] d IH]; simpl; [reflexivity|].
  destruct (keqb k' k); [discriminate|]. intros G. now rewrite IH.
Qed.

Lemma dict_keys_set_old (d : dict K V) (k : K) (v : V) :
  dict_mem d k = true -> dict_keys (dict_set d k v) = dict_keys d.
Proof.
  unfold dict_mem. induction d as [|[k' v'] d IH]; simpl; [discriminate|].
  destruct (keqb k' k); simpl; [reflexivity|]. intros G. now rewrite IH.
Qed.

Lemma dict_get_app (d1 d2 : dict K V) (k : K) :
  dict_get (d1 ++ d2)%list k =
  match dict_get d1 k with Some v => Some v | None => dict_get d2 k end.
Proof.
  induction d1 as [|[k' v'] d1 IH]; simpl; [reflexivity|].
  destruct (keqb k' k); [reflexivity | exact IH].
Qed.

Lemma dict_mem_set (d : dict K V) (k k' : K) (v : V) :
  dict_mem (dict_set d k v) k' = keqb k k' || dict_mem d k'.
Proof.
  unfold dict_mem. destruct (keqb k k') eqn:E.
  - apply keqb_spec in E. subst. now rewrite dict_get_set_eq.
  - apply keqb_false in E. now rewrite dict_get_set_neq.
Qed.

Lemma dict_get_default (d : dict K V) (k k' : K) (v : V) :
  dict_get d k' = None -> k <> k' -> dict_get (dict_default d k v) k' = None.
Proof.
  intros G N. unfold dict_default. destruct (dict_mem d k); [exact G|].
  now rewrite dict_get_set_neq.
Qed.

Lemma dict_get_default_old (d : dict K V) (k k' : K) (v x : V) :
  dict_get d k' = Some x -> dict_get (dict_default d k v) k' = Some x.
Proof.
  intros G. unfold dict_default, dict_mem.
  destruct (dict_get d k) eqn:Gk; [exact G|].
  rewrite dict_get_set_neq; [exact G|]. intros ->. congruence.
Qed.

End DictFacts.

Lemma str_mem_In (x : string) (l : list string) : Str.mem x l = true <-> In x l.
Proof.
  induction l as [|y l IH]; simpl.
  - split; [discriminate | tauto].
  - rewrite orb_true_iff, IH, String.eqb_eq. tauto.
Qed.

Lemma distinct_keys_NoDup (l : list string) : distinct_keys l = true <-> NoDup l.
Proof.
  induction l as [|k l IH]; simpl.
  - split; [constructor | reflexivity].
  - rewrite andb_true_iff, negb_true_iff, IH. split.
    + intros [M N]. constructor; [|exact N].
      intros I. apply str_mem_In in I. congruence.
    + intros N. inversion N as [|? ? NI N']; subst. split; [|exact N'].
      destruct (Str.mem k l) eqn:M; [|reflexivity].
      apply str_mem_In in M. contradiction.
Qed.

(** ** The rewriter at one map node *)

Section RewriterNode.
Variable T : tables.
Variable recur : json -> rng -> result (json * rng).

Lemma rewrite_entries_app (l acc out : dict string json) (g g' : rng) :
  rewrite_entries T recur l acc g = Ok (out, g') ->
  NoDup (dict_keys l) ->
  (forall k, In k (dict_keys l) -> ~ In k (dict_keys acc)) ->
  exists l', out = (acc ++ l')%list /\ Forall2 (entry_rewritten T recur) l l'.
Proof.
  revert acc g. induction l as [|[k v] l IH]; simpl; intros acc g E N D.
  - injection E as <- <-. exists []. split; [now rewrite app_nil_r | constructor].
  - inv_bind E. destruct r as [v' g1]. inversion N as [|? ? NI N']; subst.
    assert (M : dict_mem acc k = false) by (apply dict_mem_false; apply D; now left).
    rewrite (dict_set_new _ _ _ M) in E. apply IH in E; [|exact N'|].
    + destruct E as [l' [-> F]]. exists ((k, v') :: l'). split.
      * now rewrite <- app_assoc.
      * constructor; [|exact F]. split; [reflexivity | simpl; eauto].
    + intros k' I. unfold dict_keys. rewrite map_app, in_app_iff. simpl.
      intros [I' | [-> | []]]; [|contradiction].
      apply (D k'); [now right | exact I'].
Qed.

Lemma entries_rewritten_keys (l l' : dict string json) :
  Forall2 (entry_rewritten T recur) l l' -> dict_keys l' = dict_keys l.
Proof.
  induction 1 as [|[k v] [k' v'] l l' [Hk _] _ IH]; simpl in *; congruence.
Qed.

Lemma entries_rewritten_get (l l' : dict string json) (k : string) (v : json) :
  Forall2 (entry_rewritten T recur) l l' ->
  dict_get l k = Some v ->
  exists v' g1 g2,
    dict_get l' k = Some v' /\ rewrite_value T recur k v g1 = Ok (v', g2).
Proof.
  induction 1 as [|[k0 v0] [k' v'] l l' [Hk [g1 [g2 R]]] _ IH]; simpl in *;
    [discriminate|].
  subst k'. destruct (String.eqb k0 k) eqn:E.
  - apply String.eqb_eq in E. subst k0. intros [= ->]. eauto.
  - exact IH.
Qed.

Lemma entries_rewritten_get_rev (l l' : dict string json) (k : string) (v' : json) :
  Forall2 (entry_rewritten T recur) l l' ->
  dict_get l' k = Some v' ->
  exists v g1 g2,
    dict_get l k = Some v /\ rewrite_value T recur k v g1 = Ok (v', g2).
Proof.
  induction 1 as [|[k0 v0] [k' v0'] l l' [Hk [g1 [g2 R]]] _ IH]; simpl in *;
    [discriminate|].
  subst k'. destruct (String.eqb k0 k) eqn:E.
  - apply String.eqb_eq in E. subst k0. intros [= ->]. eauto.
  - exact IH.
Qed.

End RewriterNode.

(** ** Unfolding the recursive calls *)

Lemma replace_identifiers_obj (T : tables) (fields : dict string json)
    (g g' : rng) (out : json) :
  replace_identifiers T (JObj fields) g = Ok (out, g') ->
  exists new_obj,
    rewrite_entries T (replace_identifiers T) fields [] g = Ok (new_obj, g') /\
    out = JObj (repair_submission new_obj).
Proof.
  simpl. intros E. inv_bind E. destruct r as [new_obj g1].
  injection E as <- <-. eauto.
Qed.

Lemma replace_identifiers_arr (T : tables) (items : list json)
    (g g' : rng) (out : json) :
  replace_identifiers T (JArr items) g = Ok (out, g') ->
  exists new_items,
    rewrite_items (replace_identifiers T) items g = Ok (new_items, g') /\
    out = JArr new_items.
Proof.
  simpl. intros E. inv_bind E. destruct r as [new_items g1].
  injection E as <- <-. eauto.
Qed.

(** The rebuilt map before the submission repair. *)
Lemma replace_identifiers_entries (T : tables) (fields : dict string json)
    (g g' : rng) (out : json) :
  replace_identifiers T (JObj fields) g = Ok (out, g') ->
  NoDup (dict_keys fields) ->
  exists new_obj,
    Forall2 (entry_rewritten T (replace_identifiers T)) fields new_obj /\
    out = JObj (repair_submission new_obj).
Proof.
  intros E N. apply replace_identifiers_obj in E. destruct E as [new_obj [E ->]].
  apply rewrite_entries_app in E; [|exact N|intros k _ []].
  destruct E as [l' [-> F]]. simpl. eauto.
Qed.

(** ** The submission repair *)

Lemma is_str_true (v : json) (s : string) : is_str v s = true <-> v = JStr s.
Proof.
  destruct v; simpl; split; try discriminate; intros E.
  - apply String.eqb_eq in E. now subst.
  - injection E as ->. apply String.eqb_refl.
Qed.

Lemma repair_submission_keys (obj : dict string json) :
  dict_keys (repair_submission obj) = (dict_keys obj ++ backfilled_keys obj)%list.
Proof.
  unfold repair_submission, backfilled_keys, submission_shaped.
  destruct (dict_mem obj "studentEmail" && dict_mem obj "studentName");
    [|now rewrite app_nil_r].
  set (o1 := if negb (dict_mem obj "updatedAt") then _ else obj).
  set (o2 := if negb (dict_mem o1 "attachments") then _ else o1).
  assert (K1 : dict_keys o1 =
               (dict_keys obj ++ if dict_mem obj "updatedAt" then [] else ["updatedAt"])%list).
  { subst o1. destruct (dict_mem obj "updatedAt") eqn:M; simpl.
    - now rewrite app_nil_r.
    - rewrite (dict_set_new _ _ _ M). unfold dict_keys. now rewrite map_app. }
  assert (M1 : dict_mem o1 "attachments" = dict_mem obj "attachments").
  { subst o1. destruct (dict_mem obj "updatedAt"); simpl; [reflexivity|].
    now rewrite dict_mem_set. }
  assert (K2 : dict_keys o2 =
               (dict_keys o1 ++ if dict_mem obj "attachments" then [] else ["attachments"])%list).
  { subst o2. rewrite <- M1. destruct (dict_mem o1 "attachments") eqn:M; simpl.
    - now rewrite app_nil_r.
    - rewrite (dict_set_new _ _ _ M). unfold dict_keys. now rewrite map_app. }
  assert (K : dict_keys o2 =
              (dict_keys obj ++
               (if dict_mem obj "updatedAt" then [] else ["updatedAt"]) ++
               (if dict_mem obj "attachments" then [] else ["attachments"]))%list).
  { rewrite K2, K1. now rewrite <- app_assoc. }
  destruct (dict_get o2 "grade") as [[| | | | |grade]|] eqn:G; try exact K.
  destruct (dict_get grade "gradedBy") as [graded_by|]; [|exact K].
  destruct (is_str graded_by "teacher"); [|exact K].
  rewrite dict_keys_set_old; [exact K|].
  unfold dict_mem. now rewrite G.
Qed.

Lemma repair_submission_get (obj : dict string json) (k : string) (v : json) :
  dict_get obj k = Some v ->
  exists v',
    dict_get (repair_submission obj) k = Some v' /\
    grade_fixed v v' /\ (k <> "grade" -> v' = v).
Proof.
  intros G. unfold repair_submission.
  destruct (dict_mem obj "studentEmail" && dict_mem obj "studentName");
    [|exists v; repeat split; auto; now left].
  set (o1 := if negb (dict_mem obj "updatedAt") then _ else obj).
  set (o2 := if negb (dict_mem o1 "attachments") then _ else o1).
  assert (G1 : dict_get o1 k = Some v).
  { subst o1. unfold dict_mem. destruct (dict_get obj "updatedAt") eqn:M; simpl;
      [exact G|].
    rewrite dict_get_set_neq; [exact G | congruence]. }
  assert (G2 : dict_get o2 k = Some v).
  { subst o2. unfold dict_mem. destruct (dict_get o1 "attachments") eqn:M; simpl;
      [exact G1|].
    rewrite dict_get_set_neq; [exact G1 | congruence]. }
  clearbody o2. clear o1 G1.
  assert (Same : exists v', dict_get o2 k = Some v' /\ grade_fixed v v' /\
                            (k <> "grade" -> v' = v))
    by (exists v; repeat split; auto; now left).
  destruct (dict_get o2 "grade") as [[| | | | |grade]|] eqn:Gg; try exact Same.
  destruct (dict_get grade "gradedBy") as [graded_by|] eqn:Gb; [|exact Same].
  destruct (is_str graded_by "teacher") eqn:St; [|exact Same].
  apply is_str_true in St. subst graded_by.
  destruct (String.eqb "grade" k) eqn:Ek.
  - apply String.eqb_eq in Ek. subst k. rewrite dict_get_set_eq.
    rewrite G2 in Gg. injection Gg as ->.
    eexists. split; [reflexivity|]. split; [|congruence].
    right. exists grade. auto.
  - apply String.eqb_neq in Ek. rewrite dict_get_set_neq by exact Ek.
    exists v. repeat split; auto. now left.
Qed.

(** An entry of the input map and what stands under its key in the output. *)
Lemma replace_identifiers_get (T : tables) (fields : dict string json)
    (g g' : rng) (out : json) (k : string) (v : json) :
  replace_identifiers T (JObj fields) g = Ok (out, g') ->
  NoDup (dict_keys fields) ->
  dict_get fields k = Some v ->
  exists fields' v0 v' g1 g2,
    out = JObj fields' /\
    rewrite_value T (replace_identifiers T) k v g1 = Ok (v0, g2) /\
    dict_get fields' k = Some v' /\
    grade_fixed v0 v' /\ (k <> "grade" -> v' = v0).
Proof.
  intros E N G. apply replace_identifiers_entries in E; [|exact N].
  destruct E as [new_obj [F ->]].
  destruct (entries_rewritten_get _ _ _ _ _ _ F G) as [v0 [g1 [g2 [G0 R]]]].
  destruct (repair_submission_get _ _ _ G0) as [v' [G' [GF Same]]].
  exists (repair_submission new_obj), v0, v', g1, g2. auto.
Qed.

(** ** Well-formed documents *)

Lemma wf_json_obj (fields : dict string json) :
  wf_json (JObj fields) = true ->
  NoDup (dict_keys fields) /\
  forall k x, dict_get fields k = Some x -> wf_json x = true.
Proof.
  simpl. rewrite andb_true_iff. intros [D A]. split.
  - now apply distinct_keys_NoDup.
  - clear D. induction fields as [|[k0 x0] l IH]; simpl; intros k x;
      [discriminate|].
    apply andb_true_iff in A. destruct A as [W A].
    destruct (String.eqb k0 k); [intros [= <-]; exact W | now apply IH].
Qed.

Lemma wf_json_arr (items : list json) (i : nat) (x : json) :
  wf_json (JArr items) = true -> nth_error items i = Some x -> wf_json x = true.
Proof.
  simpl. revert i. induction items as [|x0 l IH]; intros [|i] A; simpl;
    try discriminate; apply andb_true_iff in A; destruct A as [W A].
  - now intros [= <-].
  - now apply IH.
Qed.

Lemma wf_json_child (s : step) (v x : json) :
  wf_json v = true -> child s v = Some x -> wf_json x = true.
Proof.
  destruct s as [k | i], v; simpl; try discriminate; intros W C.
  - now apply (proj2 (wf_json_obj _ W) k).
  - now apply (wf_json_arr _ i _ W).
Qed.

(** ** Containers under keys that are not copied are handed to the recursion *)

Lemma rewrite_value_container (T : tables)
    (recur : json -> rng -> result (json * rng))
    (k : string) (v : json) (g : rng) (r : json * rng) :
  is_container v = true ->
  copied_entry k v = false ->
  rewrite_value T recur k v g = Ok r ->
  recur v g = Ok r.
Proof.
  intros C NC. unfold copied_entry in NC. apply orb_false_iff in NC.
  destruct NC as [NU NQ]. unfold rewrite_value. rewrite NU.
  assert (S0 : is_str v TEACHER_EMAIL = false)
    by (destruct v; try discriminate; reflexivity).
  assert (L : py_local_part v = Raise AttributeError)
    by (destruct v; try discriminate; reflexivity).
  assert (N : lookup_name T v = None)
    by (destruct v; try discriminate; reflexivity).
  assert (I : lookup_id T v = Raise TypeError)
    by (destruct v; try discriminate; reflexivity).
  rewrite S0, andb_false_r, L, N, I, C.
  destruct (Str.mem k ["email"; "studentEmail"] && _); [discriminate|].
  replace (if Str.mem k ["name"; "displayName"; "studentName"]
           then None else None) with (@None string)
    by (destruct (Str.mem k ["name"; "displayName"; "studentName"]); reflexivity).
  destruct (String.eqb k "studentId"); [discriminate|]. cbn [bind].
  destruct (String.eqb k "quizData").
  - destruct v; try discriminate.
    destruct (String.eqb k "courseGroupEmail"); [discriminate | auto].
  - destruct (String.eqb k "courseGroupEmail"); [|auto].
    destruct v; discriminate.
Qed.

Lemma rewrite_items_nth (recur : json -> rng -> result (json * rng))
    (l l' : list json) (g g' : rng) (i : nat) (x : json) :
  rewrite_items recur l g = Ok (l', g') ->
  nth_error l i = Some x ->
  exists x' g1 g2, recur x g1 = Ok (x', g2) /\ nth_error l' i = Some x'.
Proof.
  revert l' g i. induction l as [|x0 l IH]; intros l' g [|i] E; simpl;
    try discriminate; simpl in E; inv_bind E; destruct r as [v g1];
    inv_bind E; destruct r as [vs g2]; injection E as <- <-.
  - intros [= <-]. simpl. eauto.
  - intros N. simpl. eapply IH; eauto.
Qed.

Lemma rewrite_items_length (recur : json -> rng -> result (json * rng))
    (l l' : list json) (g g' : rng) :
  rewrite_items recur l g = Ok (l', g') -> List.length l' = List.length l.
Proof.
  revert l' g. induction l as [|x0 l IH]; intros l' g E; simpl in E.
  - now injection E as <- <-.
  - inv_bind E. destruct r as [v g1]. inv_bind E. destruct r as [vs g2].
    injection E as <- <-. simpl. f_equal. eauto.
Qed.

(** ** Map nodes reached by the rewriter *)

Lemma at_path_container (p : list step) (x : json) (fields : dict string json) :
  at_path p x = Some (JObj fields) -> is_container x = true.
Proof.
  destruct p as [|s p]; simpl.
  - now intros [= ->].
  - destruct s, x; simpl; try discriminate; reflexivity.
Qed.

Lemma at_path_grade_fixed (p : list step) (v0 v' : json) (fields : dict string json) :
  p <> [] ->
  grade_fixed v0 v' ->
  at_path p v0 = Some (JObj fields) ->
  at_path p v' = Some (JObj fields).
Proof.
  intros NE [-> | [grade [-> [Gb ->]]]]; [auto|].
  destruct p as [|[k | i] p]; [contradiction | | discriminate]. simpl.
  destruct (String.eqb "gradedBy" k) eqn:E.
  - apply String.eqb_eq in E. subst k. rewrite Gb.
    destruct p as [|s p]; simpl; [discriminate|].
    destruct s; discriminate.
  - apply String.eqb_neq in E. now rewrite dict_get_set_neq.
Qed.

(** Every map node at the end of a rebuilt path is passed to
    [replace_identifiers]; the output holds, at the same path, the map that
    call returned, up to the grade repair made by the parent. *)
Lemma replace_identifiers_at_path (T : tables) (p : list step) :
  forall (d o : json) (g g' : rng) (fields : dict string json),
    replace_identifiers T d g = Ok (o, g') ->
    wf_json d = true ->
    rebuilt p d = true ->
    at_path p d = Some (JObj fields) ->
    exists g1 g2 fields0 fields',
      replace_identifiers T (JObj fields) g1 = Ok (JObj fields0, g2) /\
      at_path p o = Some (JObj fields') /\
      grade_fixed (JObj fields0) (JObj fields') /\
      NoDup (dict_keys fields).
Proof.
  induction p as [|s p IH]; intros d o g g' fields E W R A.
  - simpl in A. injection A as ->.
    destruct (replace_identifiers_obj _ _ _ _ _ E) as [new_obj [_ ->]].
    exists g, g', (repair_submission new_obj), (repair_submission new_obj).
    repeat split; auto; [now left | now apply wf_json_obj].
  - simpl in A, R. destruct (child s d) as [x|] eqn:C; [|discriminate].
    apply andb_true_iff in R. destruct R as [NC R].
    pose proof (wf_json_child _ _ _ W C) as Wx.
    pose proof (at_path_container _ _ _ A) as Cx.
    destruct s as [k | i], d as [| | | |items|dfields]; simpl in C; try discriminate.
    + apply negb_true_iff in NC.
      destruct (wf_json_obj _ W) as [N _].
      destruct (replace_identifiers_get _ _ _ _ _ _ _ E N C)
        as [fields' [v0 [v' [g1 [g2 [-> [RV [G' [GF _]]]]]]]]].
      apply rewrite_value_container in RV; auto.
      destruct p as [|s' p'].
      * simpl in A. injection A as ->.
        destruct (replace_identifiers_obj _ _ _ _ _ RV) as [new_obj [_ ->]].
        destruct GF as [-> | [grade [Eg [Gb ->]]]].
        -- exists g1, g2, (repair_submission new_obj), (repair_submission new_obj).
           simpl. rewrite G'. repeat split; auto; [now left | now apply wf_json_obj].
        -- injection Eg as Eg. eexists g1, g2, (repair_submission new_obj), _.
           simpl. rewrite G'. repeat split; eauto; [|now apply wf_json_obj].
           right. exists grade. rewrite Eg. auto.
      * destruct (IH _ _ _ _ _ RV Wx R A) as [h1 [h2 [f0 [f' [E' [A' [GF' N']]]]]]].
        exists h1, h2, f0, f'. repeat split; auto.
        simpl. rewrite G'. apply (at_path_grade_fixed (s' :: p') v0); auto.
        discriminate.
    + destruct (replace_identifiers_arr _ _ _ _ _ E) as [new_items [RI ->]].
      destruct (rewrite_items_nth _ _ _ _ _ _ _ RI C) as [x' [g1 [g2 [RX N']]]].
      destruct (IH _ _ _ _ _ RX Wx R A) as [h1 [h2 [f0 [f' [E' [A' [GF' N'']]]]]]].
      exists h1, h2, f0, f'. repeat split; auto.
      simpl. now rewrite N'.
Qed.

Lemma grade_fixed_get (fields0 fields' : dict string json) (k : string) :
  grade_fixed (JObj fields0) (JObj fields') ->
  k <> "gradedBy" ->
  dict_get fields' k = dict_get fields0 k.
Proof.
  intros [[= ->] | [grade [[= ->] [_ [= ->]]]]] N; [reflexivity|].
  apply dict_get_set_neq. congruence.
Qed.

Lemma grade_fixed_keys (fields0 fields' : dict string json) :
  grade_fixed (JObj fields0) (JObj fields') ->
  dict_keys fields' = dict_keys fields0.
Proof.
  intros [[= ->] | [grade [[= ->] [G [= ->]]]]]; [reflexivity|].
  apply dict_keys_set_old. unfold dict_mem. now rewrite G.
Qed.

(** ** From the pipeline to a rebuilt map node *)

Lemma anonymize_json_passes (data out : json) (g g' : rng) :
  anonymize_json data g = Ok (out, g') ->
  exists T g0,
    collect_identifiers data initial_tables g = Ok (T, g0) /\
    replace_identifiers T data g0 = Ok (out, g').
Proof.
  unfold anonymize_json. intros E. inv_bind E. destruct r as [T g0]. eauto.
Qed.

(** An entry of a rebuilt map node, other than [grade] and [gradedBy], holds
    in the output what the [if]/[elif] chain returned for it. *)
Lemma anonymize_json_entry (data out : json) (g g' : rng) (p : list step)
    (fields : dict string json) (k : string) (v : json) :
  anonymize_json data g = Ok (out, g') ->
  wf_json data = true ->
  rebuilt p data = true ->
  at_path p data = Some (JObj fields) ->
  dict_get fields k = Some v ->
  k <> "grade" -> k <> "gradedBy" ->
  exists T g0 fields' v' h1 h2,
    collect_identifiers data initial_tables g = Ok (T, g0) /\
    at_path p out = Some (JObj fields') /\
    rewrite_value T (replace_identifiers T) k v h1 = Ok (v', h2) /\
    dict_get fields' k = Some v'.
Proof.
  intros E W R A G N1 N2.
  destruct (anonymize_json_passes _ _ _ _ E) as [T [g0 [EC ER]]].
  destruct (replace_identifiers_at_path _ _ _ _ _ _ _ ER W R A)
    as [g1 [g2 [fields0 [fields' [EN [A' [GF N]]]]]]].
  destruct (replace_identifiers_get _ _ _ _ _ _ _ EN N G)
    as [f0 [v0 [v' [h1 [h2 [[= <-] [RV [G0 [_ Same]]]]]]]]].
  rewrite (Same N1) in G0.
  exists T, g0, fields', v0, h1, h2. repeat split; auto.
  now rewrite (grade_fixed_get _ _ _ GF N2).
Qed.

(** ** The quiz repair *)

Lemma quiz_extended_refl (quiz : dict string json) : quiz_extended quiz quiz.
Proof.
  exists []. split; [now rewrite app_nil_r | intros k []].
Qed.

Lemma quiz_extended_set (quiz d : dict string json) (k : string) (v : json) :
  quiz_extended quiz d ->
  In k QUIZ_KEYS ->
  dict_mem d k = false ->
  quiz_extended quiz (dict_set d k v).
Proof.
  intros [extra [-> X]] I M. rewrite (dict_set_new _ _ _ M).
  exists (extra ++ [(k, v)])%list. split; [now rewrite app_assoc|].
  intros k'. unfold dict_keys. rewrite map_app, in_app_iff. simpl.
  intros [I' | [<- | []]]; [now apply X|]. split; [exact I|].
  apply dict_mem_false in M. unfold dict_keys in M.
  rewrite map_app, in_app_iff in M. tauto.
Qed.

Lemma quiz_extended_default (quiz d : dict string json) (k : string) (v : json) :
  quiz_extended quiz d ->
  In k QUIZ_KEYS ->
  quiz_extended quiz (dict_default d k v).
Proof.
  intros X I. unfold dict_default. destruct (dict_mem d k) eqn:M; [exact X|].
  now apply quiz_extended_set.
Qed.

Lemma fix_quiz_data_extends (quiz : dict string json) (g g' : rng) (out : json) :
  fix_quiz_data quiz g = Ok (out, g') ->
  exists d, out = JObj d /\ quiz_extended quiz d.
Proof.
  unfold fix_quiz_data.
  set (s1 := if negb (dict_mem quiz "formId") then _ else (quiz, g)).
  assert (X1 : quiz_extended quiz (fst s1)).
  { subst s1. destruct (dict_mem quiz "formId") eqn:M; simpl.
    - apply quiz_extended_refl.
    - destruct (randint 100000 999999 g) as [n g1]. simpl.
      apply quiz_extended_set; [apply quiz_extended_refl | simpl; tauto | exact M]. }
  destruct s1 as [q1 g1]. simpl in X1. intros E. inv_bind E.
  injection E as <- <-. eexists. split; [reflexivity|].
  repeat (apply quiz_extended_default; [|apply str_mem_In; reflexivity]).
  match type of E0 with
  | (if negb (dict_mem ?q _) then _ else _) = _ =>
      assert (X6 : quiz_extended quiz q)
        by (repeat (apply quiz_extended_default; [|apply str_mem_In; reflexivity]);
            exact X1);
      generalize dependent q; intros q6 E0 X6
  end.
  destruct (dict_mem q6 "totalQuestions") eqn:M; simpl in E0.
  - now injection E0 as <-.
  - inv_bind E0. injection E0 as <-.
    apply quiz_extended_set; [exact X6 | apply str_mem_In; reflexivity | exact M].
Qed.

Lemma rewrite_value_quiz (T : tables) (recur : json -> rng -> result (json * rng))
    (quiz : dict string json) (g : rng) :
  rewrite_value T recur "quizData" (JObj quiz) g = fix_quiz_data quiz g.
Proof. reflexivity. Qed.

Lemma randint_bounds (lo hi n : Z) (g g1 : rng) :
  (lo <= hi)%Z -> randint lo hi g = (n, g1) -> (lo <= n <= hi)%Z.
Proof.
  unfold randint, next_draw. intros L [= <- _].
  pose proof (Z.mod_pos_bound (draws g (pos g)) (hi - lo + 1)). lia.
Qed.

Lemma fix_quiz_data_questions (g : rng) :
  exists n g1,
    (100000 <= n <= 999999)%Z /\
    fix_quiz_data [("questions", JArr [JNum 1; JNum 2; JNum 3])] g =
    Ok (JObj [("questions", JArr [JNum 1; JNum 2; JNum 3]);
              ("formId", JStr ("quiz_form_" ++ Str.of_Z n));
              ("formUrl", JStr "https://forms.example.com/placeholder");
              ("title", JStr "Sample Quiz");
              ("isQuiz", JBool true);
              ("collectEmailAddresses", JBool true);
              ("allowResponseEditing", JBool false);
              ("totalQuestions", JNum 3);
              ("totalPoints", JNum 100);
              ("autoGradableQuestions", JNum 0);
              ("manualGradingRequired", JBool true);
              ("requireSignIn", JBool true)], g1).
Proof.
  destruct (randint 100000 999999 g) as [n g1] eqn:R.
  exists n, g1. split; [eapply randint_bounds; [|exact R]; lia|].
  unfold fix_quiz_data.
  replace (dict_mem [("questions", JArr [JNum 1; JNum 2; JNum 3])] "formId")
    with false by reflexivity.
  cbn [negb]. rewrite R. reflexivity.
Qed.

(** ** Quiz data *)

Lemma wf_json_at_path (p : list step) :
  forall d x, wf_json d = true -> at_path p d = Some x -> wf_json x = true.
Proof.
  induction p as [|s p IH]; intros d x W A; simpl in A.
  - now injection A as <-.
  - destruct (child s d) as [y|] eqn:C; [|discriminate].
    apply (IH y); [eapply wf_json_child; eauto | exact A].
Qed.



(** The same at every map node of a document that the pipeline rebuilds. *)
Corollary quiz_data_copied_in_document (data out : json) (g g' : rng)
    (p : list step) (fields quiz : dict string json) :
  anonymize_json data g = Ok (out, g') ->
  wf_json data = true ->
  rebuilt p data = true ->
  at_path p data = Some (JObj fields) ->
  dict_get fields "quizData" = Some (JObj quiz) ->
  exists fields' extra,
    at_path p out = Some (JObj fields') /\
    dict_get fields' "quizData" = Some (JObj (quiz ++ extra)%list) /\
    forall k, In k (dict_keys extra) -> In k QUIZ_KEYS /\ ~ In k (dict_keys quiz).
Proof.
  intros E W R A G.
  destruct (anonymize_json_entry _ _ _ _ _ _ _ _ E W R A G)
    as [T [g0 [fields' [v' [h1 [h2 [_ [A' [RV G']]]]]]]]]; try discriminate.
  rewrite rewrite_value_quiz in RV.
  destruct (fix_quiz_data_extends _ _ _ _ RV) as [d [-> [extra [-> X]]]].
  exists fields', extra. auto.
Qed.

(** The scenario at one map handed to [replace_identifiers], whatever the
    tables and the random stream. *)
Lemma quiz_data_scenario_at_node (T : tables) (fields : dict string json)
    (g g' : rng) (out : json) :
  replace_identifiers T (JObj fields) g = Ok (out, g') ->
  wf_json (JObj fields) = true ->
  dict_get fields "quizData" = Some (JObj [("questions", JArr [JNum 1; JNum 2; JNum 3])]) ->
  exists fields' n,
    out = JObj fields' /\
    (100000 <= n <= 999999)%Z /\
    dict_get fields' "quizData" =
      Some (JObj [("questions", JArr [JNum 1; JNum 2; JNum 3]);
                  ("formId", JStr ("quiz_form_" ++ Str.of_Z n));
                  ("formUrl", JStr "https://forms.example.com/placeholder");
                  ("title", JStr "Sample Quiz");
                  ("isQuiz", JBool true);
                  ("collectEmailAddresses", JBool true);
                  ("allowResponseEditing", JBool false);
                  ("totalQuestions", JNum 3);
                  ("totalPoints", JNum 100);
                  ("autoGradableQuestions", JNum 0);
                  ("manualGradingRequired", JBool true);
                  ("requireSignIn", JBool true)]).
Proof.
  intros E W G. destruct (wf_json_obj _ W) as [N _].
  destruct (replace_identifiers_get _ _ _ _ _ _ _ E N G)
    as [fields' [v0 [v' [g1 [g2 [-> [RV [G' [_ Same]]]]]]]]].
  rewrite Same in G' by discriminate.
  rewrite rewrite_value_quiz in RV.
  destruct (fix_quiz_data_questions g1) as [n [h [B Q]]].
  rewrite Q in RV. injection RV as <- _.
  exists fields', n. auto.
Qed.

(** C7, as amended.  In a run of the pipeline, at every map node that the
    rewriter rebuilds (a node reached by its recursion: not inside a map
    under [quizData] nor inside a value under a URL key), a [quizData] entry
    whose value is the map [{"questions": [1, 2, 3]}] is rewritten to a map
    that keeps [questions] and holds [totalQuestions: 3],
    [totalPoints: 100], [isQuiz: true], [requireSignIn: true],
    [manualGradingRequired: true], [collectEmailAddresses: true],
    [allowResponseEditing: false], [autoGradableQuestions: 0], the
    placeholder [formUrl], the default [title] and a [formId] numbered in the
    six-digit range. *)
Theorem quiz_data_scenario_in_document (data out : json) (g g' : rng)
    (p : list step) (fields : dict string json) :
  anonymize_json data g = Ok (out, g') ->
  wf_json data = true ->
  rebuilt p data = true ->
  at_path p data = Some (JObj fields) ->
  dict_get fields "quizData" = Some (JObj [("questions", JArr [JNum 1; JNum 2; JNum 3])]) ->
  exists fields' n,
    at_path p out = Some (JObj fields') /\
    (100000 <= n <= 999999)%Z /\
    dict_get fields' "quizData" =
      Some (JObj [("questions", JArr [JNum 1; JNum 2; JNum 3]);
                  ("formId", JStr ("quiz_form_" ++ Str.of_Z n));
                  ("formUrl", JStr "https://forms.example.com/placeholder");
                  ("title", JStr "Sample Quiz");
                  ("isQuiz", JBool true);
                  ("collectEmailAddresses", JBool true);
                  ("allowResponseEditing", JBool false);
                  ("totalQuestions", JNum 3);
                  ("totalPoints", JNum 100);
                  ("autoGradableQuestions", JNum 0);
                  ("manualGradingRequired", JBool true);
                  ("requireSignIn", JBool true)]).
Proof.
  intros E W R A G.
  destruct (anonymize_json_entry _ _ _ _ _ _ _ _ E W R A G)
    as [T [g0 [fields' [v' [h1 [h2 [_ [A' [RV G']]]]]]]]]; try discriminate.
  rewrite rewrite_value_quiz in RV.
  destruct (fix_quiz_data_questions h1) as [n [g1 [B Q]]].
  rewrite Q in RV. injection RV as <- _.
  exists fields', n. auto.
Qed.

Lemma quiz_data_scenario_in_document_witness :
  exists out fields' n,
    document (anonymize_json coursework_example counting) = Some out /\
    at_path [Key "assignments"; Idx 0] out = Some (JObj fields') /\
    (100000 <= n <= 999999)%Z /\
    dict_get fields' "quizData" =
      Some (JObj [("questions", JArr [JNum 1; JNum 2; JNum 3]);
                  ("formId", JStr ("quiz_form_" ++ Str.of_Z n));
                  ("formUrl", JStr "https://forms.example.com/placeholder");
                  ("title", JStr "Sample Quiz");
                  ("isQuiz", JBool true);
                  ("collectEmailAddresses", JBool true);
                  ("allowResponseEditing", JBool false);
                  ("totalQuestions", JNum 3);
                  ("totalPoints", JNum 100);
                  ("autoGradableQuestions", JNum 0);
                  ("manualGradingRequired", JBool true);
                  ("requireSignIn", JBool true)]).
Proof.
  eexists.
  destruct (quiz_data_scenario_in_document coursework_example _ counting _
              [Key "assignments"; Idx 0] _
              ltac:(vm_compute; reflexivity) eq_refl eq_refl eq_refl eq_refl)
    as [fields' [n [A [B G]]]].
  exists fields', n. split; [vm_compute; reflexivity|].
  split; [exact A|]. split; [exact B | exact G].
Defined.

(** C7 as stated, for every [quizData] entry of the document, fails: a
    [quizData] entry inside a [quizData] map is copied as it is. *)
Lemma quiz_data_in_quiz_data_kept :
  ~ (forall (data out : json) (g g' : rng) (p : list step)
            (fields : dict string json),
        anonymize_json data g = Ok (out, g') ->
        wf_json data = true ->
        at_path p data = Some (JObj fields) ->
        dict_get fields "quizData" =
          Some (JObj [("questions", JArr [JNum 1; JNum 2; JNum 3])]) ->
        exists fields' n,
          at_path p out = Some (JObj fields') /\
          (100000 <= n <= 999999)%Z /\
          dict_get fields' "quizData" =
            Some (JObj [("questions", JArr [JNum 1; JNum 2; JNum 3]);
                        ("formId", JStr ("quiz_form_" ++ Str.of_Z n));
                        ("formUrl", JStr "https://forms.example.com/placeholder");
                        ("title", JStr "Sample Quiz");
                        ("isQuiz", JBool true);
                        ("collectEmailAddresses", JBool true);
                        ("allowResponseEditing", JBool false);
                        ("totalQuestions", JNum 3);
                        ("totalPoints", JNum 100);
                        ("autoGradableQuestions", JNum 0);
                        ("manualGradingRequired", JBool true);
                        ("requireSignIn", JBool true)])).
Proof.
  intros H.
  destruct (H (JObj [("quizData",
                      JObj [("quizData",
                             JObj [("questions", JArr [JNum 1; JNum 2; JNum 3])])])])
              _ zeros _ [Key "quizData"] _
              ltac:(vm_compute; reflexivity) eq_refl eq_refl eq_refl)
    as [fields' [n [A [_ G]]]].
  vm_compute in A. injection A as <-.
  cbn [dict_get keqb EqKey_string] in G.
  replace ("quizData" =? "quizData") with true in G by reflexivity.
  discriminate G.
Qed.

(** ** Submission records *)

Lemma rewrite_value_plain (T : tables) (recur : json -> rng -> result (json * rng))
    (s : string) (g : rng) :
  rewrite_value T recur "gradedBy" (JStr s) g = Ok (JStr s, g).
Proof. reflexivity. Qed.

Lemma entries_rewritten_mem (T : tables) (recur : json -> rng -> result (json * rng))
    (l l' : dict string json) (k : string) :
  Forall2 (entry_rewritten T recur) l l' -> dict_mem l' k = dict_mem l k.
Proof.
  intros F. apply entries_rewritten_keys in F.
  destruct (dict_mem l k) eqn:M.
  - apply dict_mem_true. rewrite F. now apply dict_mem_true.
  - apply dict_mem_false. rewrite F. now apply dict_mem_false.
Qed.

Lemma dict_mem_get_None {V : Type} (d : dict string V) (k : string) :
  dict_mem d k = false <-> dict_get d k = None.
Proof.
  unfold dict_mem. destruct (dict_get d k); split; congruence.
Qed.

Lemma repair_submission_scenario (obj grade : dict string json) :
  dict_mem obj "studentEmail" = true ->
  dict_mem obj "studentName" = true ->
  dict_mem obj "submittedAt" = false ->
  dict_mem obj "updatedAt" = false ->
  dict_mem obj "attachments" = false ->
  dict_get obj "grade" = Some (JObj grade) ->
  dict_get grade "gradedBy" = Some (JStr "teacher") ->
  dict_get (repair_submission obj) "updatedAt" = Some (JStr DEFAULT_TIMESTAMP) /\
  dict_get (repair_submission obj) "attachments" = Some (JArr []) /\
  dict_get (repair_submission obj) "grade" =
    Some (JObj (dict_set grade "gradedBy" (JStr "manual"))).
Proof.
  intros ME MN MS MU MA Gg Gb. unfold repair_submission.
  rewrite ME, MN, MU. cbn [andb negb].
  apply dict_mem_get_None in MS. rewrite MS.
  rewrite dict_mem_set, MA. cbn [keqb EqKey_string orb negb].
  replace ("updatedAt" =? "attachments") with false by reflexivity.
  cbn [orb negb].
  rewrite !dict_get_set_neq by discriminate. rewrite Gg, Gb. cbn [is_str].
  replace ("teacher" =? "teacher") with true by reflexivity.
  rewrite dict_get_set_eq.
  rewrite !dict_get_set_neq by discriminate.
  rewrite dict_get_set_eq.
  rewrite dict_get_set_neq by discriminate.
  rewrite dict_get_set_eq. auto.
Qed.

(** A submission with a teacher grade and none of the three optional fields. *)
Lemma submission_repaired (T : tables) (fields grade : dict string json)
    (g g' : rng) (out : json) :
  replace_identifiers T (JObj fields) g = Ok (out, g') ->
  wf_json (JObj fields) = true ->
  dict_mem fields "studentEmail" = true ->
  dict_mem fields "studentName" = true ->
  dict_get fields "grade" = Some (JObj grade) ->
  dict_get grade "gradedBy" = Some (JStr "teacher") ->
  dict_mem fields "submittedAt" = false ->
  dict_mem fields "updatedAt" = false ->
  dict_mem fields "attachments" = false ->
  exists fields' grade',
    out = JObj fields' /\
    dict_get fields' "grade" = Some (JObj grade') /\
    dict_get grade' "gradedBy" = Some (JStr "manual") /\
    dict_get fields' "updatedAt" = Some (JStr "2025-01-15T12:00:00.000Z") /\
    dict_get fields' "attachments" = Some (JArr []).
Proof.
  intros E W ME MN Gg Gb MS MU MA.
  destruct (wf_json_obj _ W) as [N Wc].
  destruct (replace_identifiers_entries _ _ _ _ _ E N) as [new_obj [F ->]].
  (* the grade entry before the repair *)
  destruct (entries_rewritten_get _ _ _ _ _ _ F Gg) as [v0 [h1 [h2 [G0 RV]]]].
  apply rewrite_value_container in RV; [|reflexivity|reflexivity].
  destruct (wf_json_obj _ (Wc _ _ Gg)) as [Ng _].
  destruct (replace_identifiers_entries _ _ _ _ _ RV Ng) as [new_grade [Fg ->]].
  destruct (entries_rewritten_get _ _ _ _ _ _ Fg Gb) as [b0 [i1 [i2 [Gb0 RB]]]].
  rewrite rewrite_value_plain in RB. injection RB as <- _.
  destruct (repair_submission_get _ _ _ Gb0) as [b' [Gb' [_ Same]]].
  rewrite Same in Gb' by discriminate.
  (* the repair of the node itself *)
  rewrite <- (entries_rewritten_mem _ _ _ _ "studentEmail" F) in ME.
  rewrite <- (entries_rewritten_mem _ _ _ _ "studentName" F) in MN.
  rewrite <- (entries_rewritten_mem _ _ _ _ "submittedAt" F) in MS.
  rewrite <- (entries_rewritten_mem _ _ _ _ "updatedAt" F) in MU.
  rewrite <- (entries_rewritten_mem _ _ _ _ "attachments" F) in MA.
  destruct (repair_submission_scenario _ _ ME MN MS MU MA G0 Gb') as [HU [HA HG]].
  exists (repair_submission new_obj),
         (dict_set (repair_submission new_grade) "gradedBy" (JStr "manual")).
  rewrite dict_get_set_eq. auto.
Qed.

(** C8 as stated, without the condition on [attachments], fails already at
    a map handed to the rewriter: a submission that has attachments keeps
    them. *)
Lemma submission_scenario_keeps_attachments :
  ~ (forall (T : tables) (fields grade : dict string json)
            (g g' : rng) (out : json),
        replace_identifiers T (JObj fields) g = Ok (out, g') ->
        wf_json (JObj fields) = true ->
        dict_mem fields "studentEmail" = true ->
        dict_mem fields "studentName" = true ->
        dict_get fields "grade" = Some (JObj grade) ->
        dict_get grade "gradedBy" = Some (JStr "teacher") ->
        dict_mem fields "submittedAt" = false ->
        dict_mem fields "updatedAt" = false ->
        exists fields' grade',
          out = JObj fields' /\
          dict_get fields' "grade" = Some (JObj grade') /\
          dict_get grade' "gradedBy" = Some (JStr "manual") /\
          dict_get fields' "updatedAt" = Some (JStr "2025-01-15T12:00:00.000Z") /\
          dict_get fields' "attachments" = Some (JArr [])).
Proof.
  intros H.
  destruct (H initial_tables
              [("studentEmail", JStr "200123456@gapps.yrdsb.ca");
               ("studentName", JStr "Jordan Lee");
               ("grade", JObj [("gradedBy", JStr "teacher")]);
               ("attachments", JArr [JStr "essay.pdf"])]
              _ zeros _ _
              ltac:(vm_compute; reflexivity) eq_refl eq_refl eq_refl
              eq_refl eq_refl eq_refl eq_refl)
    as [fields' [grade' [Eo [_ [_ [_ Att]]]]]].
  injection Eo as <-. vm_compute in Att. discriminate.
Qed.

(** C8, as amended.  In a run of the pipeline, at every map node that the
    rewriter rebuilds (a node reached by its recursion: not inside a map
    under [quizData] nor inside a value under a URL key) and that holds
    [studentEmail], [studentName] and a [grade] map with
    [gradedBy: "teacher"], but none of [submittedAt], [updatedAt] and
    [attachments], the output node has [grade.gradedBy] equal to ["manual"],
    [updatedAt] equal to the default timestamp and [attachments] equal to
    the empty sequence. *)
Theorem submission_scenario_in_document (data out : json) (g g' : rng)
    (p : list step) (fields grade : dict string json) :
  anonymize_json data g = Ok (out, g') ->
  wf_json data = true ->
  rebuilt p data = true ->
  at_path p data = Some (JObj fields) ->
  dict_mem fields "studentEmail" = true ->
  dict_mem fields "studentName" = true ->
  dict_get fields "grade" = Some (JObj grade) ->
  dict_get grade "gradedBy" = Some (JStr "teacher") ->
  dict_mem fields "submittedAt" = false ->
  dict_mem fields "updatedAt" = false ->
  dict_mem fields "attachments" = false ->
  exists fields' grade',
    at_path p out = Some (JObj fields') /\
    dict_get fields' "grade" = Some (JObj grade') /\
    dict_get grade' "gradedBy" = Some (JStr "manual") /\
    dict_get fields' "updatedAt" = Some (JStr "2025-01-15T12:00:00.000Z") /\
    dict_get fields' "attachments" = Some (JArr []).
Proof.
  intros E W R A ME MN Gg Gb MS MU MA.
  destruct (anonymize_json_passes _ _ _ _ E) as [T [g0 [_ ER]]].
  destruct (replace_identifiers_at_path _ _ _ _ _ _ _ ER W R A)
    as [g1 [g2 [fields0 [fields' [EN [A' [GF N]]]]]]].
  destruct (submission_repaired _ _ _ _ _ _ EN (wf_json_at_path _ _ _ W A)
              ME MN Gg Gb MS MU MA)
    as [f0 [grade' [[= <-] [G1 [G2 [G3 G4]]]]]].
  exists fields', grade'. split; [exact A'|].
  rewrite !(grade_fixed_get _ _ _ GF) by discriminate. auto.
Qed.

Lemma submission_scenario_in_document_witness :
  exists out fields' grade',
    document (anonymize_json coursework_example zeros) = Some out /\
    at_path [Key "submissions"; Idx 0] out = Some (JObj fields') /\
    dict_get fields' "grade" = Some (JObj grade') /\
    dict_get grade' "gradedBy" = Some (JStr "manual") /\
    dict_get fields' "updatedAt" = Some (JStr "2025-01-15T12:00:00.000Z") /\
    dict_get fields' "attachments" = Some (JArr []).
Proof.
  eexists.
  destruct (submission_scenario_in_document coursework_example _ zeros _
              [Key "submissions"; Idx 0] _ _
              ltac:(vm_compute; reflexivity) eq_refl eq_refl eq_refl
              eq_refl eq_refl eq_refl eq_refl eq_refl eq_refl eq_refl)
    as [fields' [grade' [A [G1 [G2 [G3 G4]]]]]].
  exists fields', grade'. split; [vm_compute; reflexivity|]. auto.
Defined.

(** ** Wrongly typed fields *)

(** C3.  A wrongly typed field is not a no-op for its rule: a
    [courseGroupEmail] that is not a string makes the rewriter raise
    [AttributeError], an [email] that is a number makes the collector raise
    [TypeError], and an [email] that is a list holding a student address makes
    the rewriter raise [AttributeError].  In each case the run aborts, for
    every random stream, and no document is produced. *)
Theorem non_string_fields_raise (g : rng) :
  anonymize_json (JObj [("courseGroupEmail", JNull)]) g = Raise AttributeError /\
  anonymize_json (JObj [("email", JNum 5)]) g = Raise TypeError /\
  anonymize_json (JObj [("email", JArr [JStr "a@gapps.yrdsb.ca"])]) g
    = Raise AttributeError.
Proof. repeat split. Qed.

(** ** The collection pass as a sequence of rule applications *)

Lemma collect_steps_refl (T : tables) : collect_steps T T.
Proof. apply rt_refl. Qed.

Lemma collect_steps_trans (T1 T2 T3 : tables) :
  collect_steps T1 T2 -> collect_steps T2 T3 -> collect_steps T1 T3.
Proof. apply rt_trans. Qed.

Lemma collect_node_steps (obj : dict string json) (T T' : tables) (g g' : rng) :
  collect_node obj T g = Ok (T', g') -> collect_steps T T'.
Proof.
  unfold collect_node. intros E.
  inv_bind E. rename r into T2, E0 into E2.
  inv_bind E. rename r into T3, E0 into E3.
  inv_bind E. rename r into T4, E0 into E4.
  eapply collect_steps_trans; [apply rt_step, (step_teacher obj)|].
  eapply collect_steps_trans; [apply rt_step; econstructor 2; exact E2|].
  eapply collect_steps_trans; [apply rt_step; econstructor 2; exact E3|].
  eapply collect_steps_trans; [apply rt_step; econstructor 3; exact E4|].
  apply rt_step. econstructor 4. exact E.
Qed.

Section CollectTraversal.
Variable visit : json -> tables -> rng -> result (tables * rng).

Lemma collect_values_steps (l : dict string json) :
  Forall (fun kv => forall T g T' g',
            visit (snd kv) T g = Ok (T', g') -> collect_steps T T') l ->
  forall T g T' g',
    collect_values visit l T g = Ok (T', g') -> collect_steps T T'.
Proof.
  induction 1 as [|[k x] l Hx _ IH]; simpl; intros T g T' g' E.
  - injection E as <- <-. apply collect_steps_refl.
  - inv_bind E. destruct r as [T1 g1].
    eapply collect_steps_trans; [eapply Hx; exact E0 | eapply IH; exact E].
Qed.

Lemma collect_items_steps (l : list json) :
  Forall (fun x => forall T g T' g',
            visit x T g = Ok (T', g') -> collect_steps T T') l ->
  forall T g T' g',
    collect_items visit l T g = Ok (T', g') -> collect_steps T T'.
Proof.
  induction 1 as [|x l Hx _ IH]; simpl; intros T g T' g' E.
  - injection E as <- <-. apply collect_steps_refl.
  - inv_bind E. destruct r as [T1 g1].
    eapply collect_steps_trans; [eapply Hx; exact E0 | eapply IH; exact E].
Qed.

Hypothesis visit_steps :
  forall x T g T' g', visit x T g = Ok (T', g') -> collect_steps T T'.

Lemma collect_values_get (l : dict string json) (k : string) (x : json) :
  forall T g T' g',
    collect_values visit l T g = Ok (T', g') ->
    dict_get l k = Some x ->
    exists Ta ga Tb gb,
      collect_steps T Ta /\ visit x Ta ga = Ok (Tb, gb) /\ collect_steps Tb T'.
Proof.
  induction l as [|[k0 x0] l IH]; simpl; intros T g T' g' E G; [discriminate|].
  inv_bind E. destruct r as [T1 g1]. destruct (String.eqb k0 k).
  - injection G as ->. exists T, g, T1, g1. repeat split; auto.
    + apply collect_steps_refl.
    + apply (collect_values_steps l) in E; auto.
      apply Forall_forall. intros kv _. apply visit_steps.
  - destruct (IH _ _ _ _ E G) as [Ta [ga [Tb [gb [S1 [V S2]]]]]].
    exists Ta, ga, Tb, gb. repeat split; auto.
    eapply collect_steps_trans; [eapply visit_steps; exact E0 | exact S1].
Qed.

Lemma collect_items_nth (l : list json) (i : nat) (x : json) :
  forall T g T' g',
    collect_items visit l T g = Ok (T', g') ->
    nth_error l i = Some x ->
    exists Ta ga Tb gb,
      collect_steps T Ta /\ visit x Ta ga = Ok (Tb, gb) /\ collect_steps Tb T'.
Proof.
  revert i. induction l as [|x0 l IH]; intros [|i] T g T' g' E G;
    simpl in G; try discriminate; simpl in E; inv_bind E; destruct r as [T1 g1].
  - injection G as ->. exists T, g, T1, g1. repeat split; auto.
    + apply collect_steps_refl.
    + apply (collect_items_steps l) in E; auto.
      apply Forall_forall. intros kv _. apply visit_steps.
  - destruct (IH _ _ _ _ _ E G) as [Ta [ga [Tb [gb [S1 [V S2]]]]]].
    exists Ta, ga, Tb, gb. repeat split; auto.
    eapply collect_steps_trans; [eapply visit_steps; exact E0 | exact S1].
Qed.

End CollectTraversal.

Lemma collect_identifiers_steps (d : json) :
  forall T g T' g',
    collect_identifiers d T g = Ok (T', g') -> collect_steps T T'.
Proof.
  induction d as [| | | |items IH|fields IH] using json_ind; simpl;
    intros T g T' g' E; try (injection E as <- <-; apply collect_steps_refl).
  - eapply collect_items_steps; eauto.
  - inv_bind E. destruct r as [T1 g1].
    eapply collect_steps_trans; [eapply collect_node_steps; exact E0|].
    eapply collect_values_steps; eauto.
Qed.

(** Every map node of the document is visited: the rules are applied to it
    at some point of the pass. *)
Lemma collect_identifiers_at_path (p : list step) :
  forall d T g T' g' fields,
    collect_identifiers d T g = Ok (T', g') ->
    at_path p d = Some (JObj fields) ->
    exists Ta ga Tb gb,
      collect_steps T Ta /\
      collect_node fields Ta ga = Ok (Tb, gb) /\
      collect_steps Tb T'.
Proof.
  induction p as [|s p IH]; intros d T g T' g' fields E A.
  - simpl in A. injection A as ->. simpl in E. inv_bind E. destruct r as [T1 g1].
    exists T, g, T1, g1. repeat split; auto; [apply collect_steps_refl|].
    eapply collect_values_steps; [|exact E].
    apply Forall_forall. intros kv _. apply collect_identifiers_steps.
  - simpl in A. destruct (child s d) as [x|] eqn:C; [|discriminate].
    destruct s as [k | i], d as [| | | |items|dfields]; simpl in C; try discriminate;
      simpl in E.
    + inv_bind E. destruct r as [T1 g1].
      destruct (collect_values_get _ collect_identifiers_steps _ _ _ _ _ _ _ E C)
        as [Ta [ga [Tb [gb [S1 [V S2]]]]]].
      destruct (IH _ _ _ _ _ _ V A) as [Tc [gc [Td [gd [S3 [N S4]]]]]].
      exists Tc, gc, Td, gd. repeat split; auto.
      * eapply collect_steps_trans; [eapply collect_node_steps; exact E0|].
        eapply collect_steps_trans; eauto.
      * eapply collect_steps_trans; eauto.
    + destruct (collect_items_nth _ collect_identifiers_steps _ _ _ _ _ _ _ E C)
        as [Ta [ga [Tb [gb [S1 [V S2]]]]]].
      destruct (IH _ _ _ _ _ _ V A) as [Tc [gc [Td [gd [S3 [N S4]]]]]].
      exists Tc, gc, Td, gd. repeat split; auto.
      * eapply collect_steps_trans; eauto.
      * eapply collect_steps_trans; eauto.
Qed.

(** ** What the rules keep true of the tables *)

Section DictUpdate.
Context {K V : Type} `{EqKey K}.

Lemma dict_get_set (d : dict K V) (k k' : K) (v : V) :
  dict_get (dict_set d k v) k' = if keqb k k' then Some v else dict_get d k'.
Proof.
  destruct (keqb k k') eqn:E.
  - apply keqb_spec in E. subst. apply dict_get_set_eq.
  - apply keqb_false in E. now apply dict_get_set_neq.
Qed.

Lemma dict_set_NoDup (d : dict K V) (k : K) (v : V) :
  NoDup (dict_keys d) -> NoDup (dict_keys (dict_set d k v)).
Proof.
  intros N. destruct (dict_mem d k) eqn:M.
  - now rewrite dict_keys_set_old.
  - rewrite (dict_set_new _ _ _ M). unfold dict_keys. rewrite map_app. simpl.
    apply dict_mem_false in M. clear v. unfold dict_keys in *.
    induction (map fst d) as [|k0 l IH]; simpl.
    + constructor; [tauto | constructor].
    + inversion N as [|? ? NI N']; subst. constructor.
      * rewrite in_app_iff. simpl. intros [I | [-> | []]]; [tauto|].
        apply M. now left.
      * apply IH; [exact N'|]. intros I. apply M. now right.
Qed.

(** Writing again the value a key already has changes no lookup. *)
Lemma dict_get_set_same (d : dict K V) (k k' : K) (v : V) :
  dict_get d k = Some v -> dict_get (dict_set d k v) k' = dict_get d k'.
Proof.
  intros G. rewrite dict_get_set. destruct (keqb k k') eqn:E; [|reflexivity].
  apply keqb_spec in E. now subst.
Qed.

Lemma dict_get_mem (d : dict K V) (k : K) (v : V) :
  dict_get d k = Some v -> dict_mem d k = true.
Proof. unfold dict_mem. now intros ->. Qed.

End DictUpdate.

Lemma str_mem_false (x : string) (l : list string) : Str.mem x l = false <-> ~ In x l.
Proof.
  rewrite <- str_mem_In. destruct (Str.mem x l); split; congruence.
Qed.

Lemma search_name_fresh (todo attempts index : nat) (used : list string) (name : string) :
  search_name todo attempts index used = Some name -> ~ In name used.
Proof.
  revert attempts. induction todo as [|todo IH]; simpl; intros attempts;
    [discriminate|].
  destruct (Str.mem (candidate_name index attempts) used) eqn:M; simpl.
  - apply IH.
  - intros [= <-]. now apply str_mem_false.
Qed.

Lemma generate_fake_name_spec (index : nat) (used used' : list string) (name : string) :
  generate_fake_name index used = (name, used') ->
  (~ In name used /\ used' = name :: used) \/
  (is_fallback_name name /\ used' = used).
Proof.
  unfold generate_fake_name.
  destruct (search_name 100 0 index used) as [n|] eqn:S; intros [= <- <-].
  - left. split; [eapply search_name_fresh; eauto | reflexivity].
  - right. split; [now exists index | reflexivity].
Qed.

Lemma tables_le_refl (T : tables) : tables_le T T.
Proof. repeat split; auto. Qed.

Lemma tables_le_trans (T1 T2 T3 : tables) :
  tables_le T1 T2 -> tables_le T2 T3 -> tables_le T1 T3.
Proof.
  intros [A1 [B1 C1]] [A2 [B2 C2]]. repeat split; auto.
Qed.

Lemma initial_name_mapping :
  name_mapping initial_tables =
  [(KStr TEACHER_NAME, DEV_NAME); (KStr "Test Teacher", DEV_NAME)].
Proof. reflexivity. Qed.

Lemma initial_tables_ok : tables_ok initial_tables.
Proof.
  assert (D : forall k v, dict_get (name_mapping initial_tables) k = Some v ->
                          v = DEV_NAME).
  { intros k v G. apply dict_get_In in G. rewrite initial_name_mapping in G.
    destruct G as [[= _ <-] | [[= _ <-] | []]]; reflexivity. }
  split.
  - rewrite initial_name_mapping. cbn [dict_keys map fst].
    constructor; [|constructor; [intros [] | constructor]].
    intros [[=] | []].
  - reflexivity.
  - intros k v G. left. eapply D; eauto.
  - intros k1 k2 v _ G _. left. eapply D; eauto.
  - discriminate.
  - discriminate.
Qed.

Lemma record_student_number_ok (student_number : string) (T : tables) :
  tables_ok T ->
  tables_ok (record_student_number student_number T) /\
  tables_le T (record_student_number student_number T).
Proof.
  intros OK. unfold record_student_number.
  destruct (dict_mem (student_number_mapping T) student_number) eqn:M; simpl;
    [split; [exact OK | apply tables_le_refl]|].
  split.
  - destruct OK. split; simpl; auto.
    intros k v. rewrite dict_get_set. simpl.
    destruct (String.eqb student_number k) eqn:E; [|auto].
    apply String.eqb_eq in E. subst k. now intros [= <-].
  - repeat split; simpl; auto. intros k v G.
    rewrite dict_get_set_neq; [exact G|].
    intros ->. apply dict_get_mem in G. congruence.
Qed.

Lemma record_name_ok (name : json) (T T' : tables) :
  tables_ok T ->
  record_name name T = Ok T' ->
  tables_ok T' /\ tables_le T T'.
Proof.
  intros OK E. unfold record_name in E. inv_bind E. rename r into key.
  destruct (negb (dict_mem (name_mapping T) key) && negb (is_str name TEACHER_NAME))
    eqn:C; [|injection E as <-; split; [exact OK | apply tables_le_refl]].
  apply andb_true_iff in C. destruct C as [M _]. apply negb_true_iff in M.
  destruct (generate_fake_name _ _) as [fake used'] eqn:GF.
  injection E as <-. apply generate_fake_name_spec in GF.
  assert (Hused : forall v, In v (used_names T) -> In v used')
    by (destruct GF as [[_ ->] | [_ ->]]; simpl; auto).
  assert (Hfake : In fake used' \/ is_fallback_name fake)
    by (destruct GF as [[_ ->] | [F _]]; simpl; auto).
  assert (Hold : forall k, dict_get (name_mapping T) k = Some fake ->
                           fake = DEV_NAME \/ is_fallback_name fake).
  { intros k G. destruct GF as [[NI _] | [F _]]; [|now right].
    destruct (ok_name_origin _ OK _ _ G) as [D | [I | F]]; auto. contradiction. }
  assert (Hneq : forall k v, dict_get (name_mapping T) k = Some v -> key <> k).
  { intros k v G ->. apply dict_get_mem in G. congruence. }
  split.
  - split; simpl.
    + apply dict_set_NoDup, OK.
    + rewrite dict_get_set_neq; [apply OK|]. eapply Hneq, OK.
    + intros k v. rewrite dict_get_set. destruct (keqb key k).
      * intros [= <-]. tauto.
      * intros G. destruct (ok_name_origin _ OK _ _ G) as [D | [I | F]]; auto.
    + intros k1 k2 v N. rewrite !dict_get_set.
      destruct (keqb key k1) eqn:E1, (keqb key k2) eqn:E2.
      * apply keqb_spec in E1, E2. congruence.
      * intros [= <-]. apply Hold.
      * intros G [= <-]. now apply (Hold k1).
      * now apply (ok_name_distinct _ OK).
    + apply OK.
    + apply OK.
  - repeat split; simpl; auto. intros k v G.
    rewrite dict_get_set_neq; [exact G | eapply Hneq; eauto].
Qed.

Lemma collect_teacher_ok (obj : dict string json) (T : tables) :
  tables_ok T ->
  tables_ok (collect_teacher obj T) /\ tables_le T (collect_teacher obj T).
Proof.
  intros OK. unfold collect_teacher.
  destruct (dict_get obj "email") as [email|];
    [|split; [exact OK | apply tables_le_refl]].
  destruct (is_str email TEACHER_EMAIL);
    [|split; [exact OK | apply tables_le_refl]].
  pose proof (ok_teacher _ OK) as G.
  split.
  - split; simpl.
    + apply dict_set_NoDup, OK.
    + apply dict_get_set_eq.
    + intros k v. rewrite (dict_get_set_same _ _ _ _ G). apply OK.
    + intros k1 k2 v. rewrite !(dict_get_set_same _ _ _ _ G). apply OK.
    + apply OK.
    + apply OK.
  - repeat split; simpl; auto. intros k v.
    now rewrite (dict_get_set_same _ _ _ _ G).
Qed.

Lemma collect_student_ok (name email : json) (T T' : tables) :
  tables_ok T ->
  collect_student name email T = Ok T' ->
  tables_ok T' /\ tables_le T T'.
Proof.
  intros OK E. unfold collect_student in E. inv_bind E.
  destruct r as [student_number|];
    [|injection E as <-; split; [exact OK | apply tables_le_refl]].
  inv_bind E. injection E as <-.
  destruct (record_name_ok _ _ _ OK E1) as [OK1 L1].
  destruct (record_student_number_ok student_number _ OK1) as [OK2 L2].
  split; [exact OK2 | eapply tables_le_trans; eauto].
Qed.

Lemma random_digits_spec (k : nat) (g g' : rng) (s : string) :
  random_digits k g = (s, g') ->
  String.length s = k /\ Str.all_chars Str.is_ascii_digit s = true.
Proof.
  revert g g' s. induction k as [|k IH]; cbn [random_digits]; intros g g' s.
  - now intros [= <- _].
  - unfold next_draw. set (d := draws g (pos g)).
    destruct (random_digits k _) as [s1 g2] eqn:R. intros [= <- _].
    destruct (IH _ _ _ R) as [L D]. cbn [String.length Str.all_chars].
    rewrite L, D, andb_true_r. split; [reflexivity|].
    assert (B : (Z.to_nat (d mod 10) < 10)%nat)
      by (pose proof (Z.mod_pos_bound d 10); lia).
    generalize dependent (Z.to_nat (d mod 10)). clear. intros m B.
    do 10 (destruct m as [|m]; [reflexivity|]). lia.
Qed.

Lemma collect_student_id_ok (obj : dict string json) (T T' : tables) (g g' : rng) :
  tables_ok T ->
  collect_student_id obj T g = Ok (T', g') ->
  tables_ok T' /\ tables_le T T'.
Proof.
  intros OK E. unfold collect_student_id in E.
  destruct (dict_get obj "studentId") as [student_id|];
    [|injection E as <- <-; split; [exact OK | apply tables_le_refl]].
  inv_bind E. destruct r as [| |s]; try (inv_bind E; injection E as <- <-;
    split; [exact OK | apply tables_le_refl]).
  destruct (dict_mem (student_id_mapping T) s) eqn:M; cbn [negb] in E;
    [injection E as <- <-; split; [exact OK | apply tables_le_refl]|].
  destruct (random_digits (String.length s) g) as [fake_id g1] eqn:R.
  injection E as <- <-. apply random_digits_spec in R.
  split.
  - destruct OK. split; simpl; auto.
    intros k v. rewrite dict_get_set. simpl.
    destruct (String.eqb s k) eqn:Ek; [|auto].
    apply String.eqb_eq in Ek. subst k. now intros [= <-].
  - repeat split; simpl; auto. intros k v G.
    rewrite dict_get_set_neq; [exact G|].
    intros ->. apply dict_get_mem in G. congruence.
Qed.

Lemma collect_step_ok (T T' : tables) :
  tables_ok T -> collect_step T T' -> tables_ok T' /\ tables_le T T'.
Proof.
  intros OK S. destruct S as [obj T | nk ek obj T T' E | obj T T' E | obj T g T' g' E].
  - now apply collect_teacher_ok.
  - unfold collect_name_email in E.
    destruct (dict_get obj nk) as [name|];
      [|injection E as <-; split; [exact OK | apply tables_le_refl]].
    destruct (dict_get obj ek) as [email|];
      [|injection E as <-; split; [exact OK | apply tables_le_refl]].
    eapply collect_student_ok; eauto.
  - unfold collect_email in E.
    destruct (dict_get obj "email") as [email|];
      [|injection E as <-; split; [exact OK | apply tables_le_refl]].
    inv_bind E. destruct r as [student_number|]; injection E as <-.
    + now apply record_student_number_ok.
    + split; [exact OK | apply tables_le_refl].
  - eapply collect_student_id_ok; eauto.
Qed.

Lemma collect_steps_ok (T T' : tables) :
  tables_ok T -> collect_steps T T' -> tables_ok T' /\ tables_le T T'.
Proof.
  intros OK S. apply clos_rt_rt1n in S.
  induction S as [T | T T1 T' S1 _ IH].
  - split; [exact OK | apply tables_le_refl].
  - destruct (collect_step_ok _ _ OK S1) as [OK1 L1].
    destruct (IH OK1) as [OK' L']. split; [exact OK'|].
    eapply tables_le_trans; eauto.
Qed.

Lemma collecting_ok (T : tables) : collecting T -> tables_ok T.
Proof.
  intros C. apply (collect_steps_ok _ _ initial_tables_ok C).
Qed.

Lemma collect_identifiers_collecting (data : json) (g g' : rng) (T : tables) :
  collect_identifiers data initial_tables g = Ok (T, g') -> collecting T.
Proof. apply collect_identifiers_steps. Qed.

(** ** Strings *)

Lemma prefix_refl (s : string) : prefix s s = true.
Proof.
  induction s as [|c s IH]; simpl; [reflexivity|].
  destruct (ascii_dec c c); [exact IH | contradiction].
Qed.

Lemma prefix_append (a b : string) : prefix a (a ++ b) = true.
Proof.
  induction a as [|c a IH]; simpl; [now destruct b|].
  destruct (ascii_dec c c); [exact IH | contradiction].
Qed.

Lemma contains_append_r (pat a : string) : Str.contains pat (a ++ pat) = true.
Proof.
  induction a as [|c a IH].
  - simpl. destruct pat; simpl; [reflexivity|].
    rewrite prefix_refl. destruct (ascii_dec a a); [reflexivity | contradiction].
  - cbn [append Str.contains]. rewrite IH. apply orb_true_r.
Qed.

Lemma split_head_append (sep : ascii) (a rest : string) :
  Str.all_chars (fun c => negb (Ascii.eqb c sep)) a = true ->
  Str.split_head sep (a ++ String sep rest) = a.
Proof.
  induction a as [|c a IH]; simpl.
  - now rewrite Ascii.eqb_refl.
  - rewrite andb_true_iff, negb_true_iff. intros [-> A]. now rewrite IH.
Qed.

Lemma all_chars_impl (p q : ascii -> bool) (s : string) :
  (forall c, p c = true -> q c = true) ->
  Str.all_chars p s = true -> Str.all_chars q s = true.
Proof.
  intros I. induction s as [|c s IH]; simpl; [reflexivity|].
  rewrite !andb_true_iff. intros [P A]. auto.
Qed.

Lemma isdigit_all_chars (s : string) :
  Str.isdigit s = true -> Str.all_chars Str.is_digit_char s = true.
Proof. destruct s; [discriminate | auto]. Qed.

Lemma digit_not_at (c : ascii) :
  Str.is_digit_char c = true -> negb (Ascii.eqb c "@") = true.
Proof.
  destruct (Ascii.eqb_spec c "@"%char) as [-> | _]; [discriminate | reflexivity].
Qed.

(** The local part of [local@gapps.yrdsb.ca] when [local] is all digits. *)
Lemma student_email_local_part (local : string) :
  Str.isdigit local = true ->
  Str.split_head "@" (local ++ "@gapps.yrdsb.ca") = local.
Proof.
  intros D. apply split_head_append.
  eapply all_chars_impl; [apply digit_not_at | now apply isdigit_all_chars].
Qed.

Lemma student_number_of_student_email (local : string) :
  Str.isdigit local = true ->
  student_number_of (JStr (local ++ "@gapps.yrdsb.ca")) = Ok (Some local).
Proof.
  intros D. unfold student_number_of, domain_in, STUDENT_DOMAIN.
  rewrite contains_append_r. cbn [bind py_local_part].
  now rewrite student_email_local_part, D.
Qed.

Lemma append_assoc (a b c : string) : (a ++ b) ++ c = a ++ (b ++ c).
Proof.
  induction a as [|x a IH]; simpl; [reflexivity | now rewrite IH].
Qed.

Lemma dev_name_not_fallback : ~ is_fallback_name DEV_NAME.
Proof.
  intros [index E]. unfold candidate_name in E.
  set (first := nth (index mod List.length FIRST_NAMES) FIRST_NAMES "") in E.
  assert (I : In first FIRST_NAMES).
  { apply nth_In. apply Nat.mod_upper_bound. discriminate. }
  assert (P : prefix (first ++ " ") DEV_NAME = true).
  { rewrite E, !append_assoc, <- (append_assoc first " "). apply prefix_append. }
  assert (A : forallb (fun f => negb (prefix (f ++ " ") DEV_NAME)) FIRST_NAMES = true)
    by (vm_compute; reflexivity).
  rewrite forallb_forall in A. specialize (A _ I). rewrite P in A. discriminate.
Qed.

(** ** The Name Mapping *)

(** C4, as amended.  In every state [T] of the collection pass, and for every
    later state [T'] of the pass (the state after the pass included): the
    Name Mapping holds one entry per real name; an entry, once made, is never
    changed; and two different real names have the same synthetic name only
    if that name is the teacher placeholder ["Dev CodePet"], which the two
    entries made before the pass share, or a name made by the numeric-suffix
    fallback. *)
Theorem name_mapping_invariant (T T' : tables) :
  collecting T ->
  collect_steps T T' ->
  NoDup (dict_keys (name_mapping T)) /\
  (forall k v, dict_get (name_mapping T) k = Some v ->
               dict_get (name_mapping T') k = Some v) /\
  (forall k1 k2 v,
      k1 <> k2 ->
      dict_get (name_mapping T) k1 = Some v ->
      dict_get (name_mapping T) k2 = Some v ->
      v = DEV_NAME \/ is_fallback_name v).
Proof.
  intros C S. pose proof (collecting_ok _ C) as OK.
  destruct (collect_steps_ok _ _ OK S) as [_ [L _]].
  split; [apply OK|]. split; [exact L | apply OK].
Qed.

Lemma name_mapping_invariant_witness :
  exists T,
    document (collect_identifiers roster_example initial_tables zeros) = Some T /\
    NoDup (dict_keys (name_mapping T)) /\
    (forall k v, dict_get (name_mapping T) k = Some v ->
                 dict_get (name_mapping T) k = Some v) /\
    (forall k1 k2 v,
        k1 <> k2 ->
        dict_get (name_mapping T) k1 = Some v ->
        dict_get (name_mapping T) k2 = Some v ->
        v = DEV_NAME \/ is_fallback_name v).
Proof.
  eexists. split; [vm_compute; reflexivity|].
  eapply name_mapping_invariant; [|apply collect_steps_refl].
  eapply (collect_identifiers_collecting roster_example zeros).
  vm_compute. reflexivity.
Defined.

(** C4 as stated fails at the very start of the pass: the two entries made
    before it map two different names to ["Dev CodePet"], which is not a
    fallback name. *)
Lemma teacher_entries_share_name :
  ~ (forall T,
        collecting T ->
        forall k1 k2 v,
          k1 <> k2 ->
          dict_get (name_mapping T) k1 = Some v ->
          dict_get (name_mapping T) k2 = Some v ->
          is_fallback_name v).
Proof.
  intros H.
  apply dev_name_not_fallback.
  apply (H initial_tables (collect_steps_refl _)
           (KStr "Stewart Chan") (KStr "Test Teacher")); [discriminate | |];
    reflexivity.
Qed.

(** ** Student numbers *)

Lemma record_student_number_get (student_number : string) (T : tables) :
  tables_ok T ->
  dict_get (student_number_mapping (record_student_number student_number T))
           student_number = Some (Str.rev student_number).
Proof.
  intros OK. unfold record_student_number, dict_mem.
  destruct (dict_get (student_number_mapping T) student_number) as [v|] eqn:G; simpl.
  - rewrite G. f_equal. now apply (ok_numbers _ OK).
  - apply dict_get_set_eq.
Qed.

Lemma collect_node_email (obj : dict string json) (T T' : tables) (g g' : rng)
    (local : string) :
  tables_ok T ->
  collect_node obj T g = Ok (T', g') ->
  dict_get obj "email" = Some (JStr (local ++ "@gapps.yrdsb.ca")) ->
  Str.isdigit local = true ->
  dict_get (student_number_mapping T') local = Some (Str.rev local).
Proof.
  intros OK E G D. unfold collect_node in E.
  inv_bind E. rename r into T2, E0 into E2.
  inv_bind E. rename r into T3, E0 into E3.
  inv_bind E. rename r into T4, E0 into E4.
  destruct (collect_teacher_ok obj _ OK) as [OK1 _].
  destruct (collect_step_ok _ _ OK1 (step_name_email _ _ _ _ _ E2)) as [OK2 _].
  destruct (collect_step_ok _ _ OK2 (step_name_email _ _ _ _ _ E3)) as [OK3 _].
  destruct (collect_step_ok _ _ OK3 (step_email _ _ _ E4)) as [OK4 _].
  destruct (collect_step_ok _ _ OK4 (step_student_id _ _ _ _ _ E)) as [_ [_ [L _]]].
  apply L. unfold collect_email in E4. rewrite G in E4.
  rewrite (student_number_of_student_email _ D) in E4. cbn [bind] in E4.
  injection E4 as <-. now apply record_student_number_get.
Qed.

(** C9, as amended.  For every map node, anywhere in the document, that
    carries an [email] field whose value is an all-digit local part followed
    by the student domain - with or without a companion [name] - the tables
    produced by the collection pass map that student number to its
    reversal. *)
Theorem email_number_collected (data : json) (g g' : rng) (T : tables)
    (p : list step) (fields : dict string json) (local : string) :
  collect_identifiers data initial_tables g = Ok (T, g') ->
  at_path p data = Some (JObj fields) ->
  dict_get fields "email" = Some (JStr (local ++ "@gapps.yrdsb.ca")) ->
  Str.isdigit local = true ->
  dict_get (student_number_mapping T) local = Some (Str.rev local).
Proof.
  intros E A G D.
  destruct (collect_identifiers_at_path _ _ _ _ _ _ _ E A)
    as [Ta [ga [Tb [gb [S1 [N S2]]]]]].
  destruct (collect_steps_ok _ _ initial_tables_ok S1) as [OKa _].
  pose proof (collect_node_email _ _ _ _ _ _ OKa N G D) as Gb.
  destruct (collect_steps_ok _ _ OKa (collect_node_steps _ _ _ _ _ N)) as [OKb _].
  destruct (collect_steps_ok _ _ OKb S2) as [_ [_ [L _]]].
  now apply L.
Qed.

Lemma email_number_collected_witness :
  exists T,
    document (collect_identifiers
                (JArr [JObj [("email", JStr "123456789@gapps.yrdsb.ca")]])
                initial_tables zeros) = Some T /\
    dict_get (student_number_mapping T) "123456789" = Some "987654321".
Proof.
  eexists. split; [vm_compute; reflexivity|].
  apply (email_number_collected
           (JArr [JObj [("email", JStr "123456789@gapps.yrdsb.ca")]])
           zeros zeros _ [Idx 0] [("email", JStr "123456789@gapps.yrdsb.ca")]
           "123456789"); reflexivity.
Defined.

(** C9 as stated fails for [studentEmail]: without a [studentName] beside
    it, the collection pass records nothing for the node. *)
Lemma nameless_student_email_not_collected :
  ~ (forall (data : json) (g g' : rng) (T : tables) (p : list step)
            (fields : dict string json) (email_key local : string),
        collect_identifiers data initial_tables g = Ok (T, g') ->
        at_path p data = Some (JObj fields) ->
        In email_key ["email"; "studentEmail"] ->
        dict_get fields email_key = Some (JStr (local ++ "@gapps.yrdsb.ca")) ->
        Str.isdigit local = true ->
        dict_mem fields "name" = false ->
        dict_mem fields "studentName" = false ->
        dict_get (student_number_mapping T) local = Some (Str.rev local)).
Proof.
  intros H.
  specialize (H (JObj [("studentEmail", JStr "123456789@gapps.yrdsb.ca")])
                zeros zeros initial_tables []
                [("studentEmail", JStr "123456789@gapps.yrdsb.ca")]
                "studentEmail" "123456789"
                eq_refl eq_refl (or_intror (or_introl eq_refl))
                eq_refl eq_refl eq_refl eq_refl).
  discriminate.
Qed.

Lemma student_email_not_teacher (local : string) :
  Str.isdigit local = true ->
  is_str (JStr (local ++ "@gapps.yrdsb.ca")) TEACHER_EMAIL = false.
Proof.
  intros D. cbn [is_str]. apply String.eqb_neq. intros E.
  apply (f_equal (Str.split_head "@")) in E.
  rewrite (student_email_local_part _ D) in E. subst local. discriminate.
Qed.

Lemma rewrite_value_student_email (T : tables)
    (recur : json -> rng -> result (json * rng))
    (email_key local : string) (g : rng) :
  tables_ok T ->
  In email_key ["email"; "studentEmail"] ->
  Str.isdigit local = true ->
  rewrite_value T recur email_key (JStr (local ++ "@gapps.yrdsb.ca")) g =
  Ok (JStr (Str.rev local ++ "@gapps.yrdsb.ca"), g).
Proof.
  intros OK I D. unfold rewrite_value.
  rewrite (student_email_not_teacher _ D), andb_false_r.
  apply str_mem_In in I. rewrite I. cbn [py_str andb].
  unfold STUDENT_DOMAIN. rewrite contains_append_r. cbn [py_local_part bind].
  rewrite (student_email_local_part _ D), D.
  destruct (dict_get (student_number_mapping T) local) as [v|] eqn:G.
  - now rewrite (ok_numbers _ OK _ _ G).
  - reflexivity.
Qed.

(** C5, as amended.  At every map node that the rewriter rebuilds, an
    [email] or [studentEmail] field whose value is an all-digit local part
    followed by the student domain is replaced by the reversal of the local
    part followed by the same domain.  The replacement depends on the student
    number alone, so it is the same at every such occurrence. *)
Theorem student_email_reversed (data out : json) (g g' : rng) (p : list step)
    (fields : dict string json) (email_key local : string) :
  anonymize_json data g = Ok (out, g') ->
  wf_json data = true ->
  rebuilt p data = true ->
  at_path p data = Some (JObj fields) ->
  In email_key ["email"; "studentEmail"] ->
  dict_get fields email_key = Some (JStr (local ++ "@gapps.yrdsb.ca")) ->
  Str.isdigit local = true ->
  exists fields',
    at_path p out = Some (JObj fields') /\
    dict_get fields' email_key = Some (JStr (Str.rev local ++ "@gapps.yrdsb.ca")).
Proof.
  intros E W R A I G D.
  destruct (anonymize_json_entry _ _ _ _ _ _ _ _ E W R A G)
    as [T [g0 [fields' [v' [h1 [h2 [EC [A' [RV G']]]]]]]]].
  - destruct I as [<- | [<- | []]]; discriminate.
  - destruct I as [<- | [<- | []]]; discriminate.
  - pose proof (collecting_ok _ (collect_identifiers_collecting _ _ _ _ EC)) as OK.
    rewrite (rewrite_value_student_email _ _ _ _ _ OK I D) in RV.
    injection RV as <- _. eauto.
Qed.

Lemma student_email_reversed_witness :
  exists fields',
    document (anonymize_json roster_example zeros) = Some (JObj fields') /\
    at_path [Key "submissions"; Idx 0] (JObj fields')
      = Some (JObj [("studentName", JStr "Charlie Clark");
                    ("studentEmail", JStr "654321002@gapps.yrdsb.ca");
                    ("studentId", JStr "000");
                    ("updatedAt", JStr "2025-01-15T12:00:00.000Z");
                    ("attachments", JArr [])]) /\
    exists node,
      at_path [Key "submissions"; Idx 0] (JObj fields') = Some (JObj node) /\
      dict_get node "studentEmail" = Some (JStr (Str.rev "200123456" ++ "@gapps.yrdsb.ca")).
Proof.
  eexists. split; [vm_compute; reflexivity|]. split; [reflexivity|].
  apply (student_email_reversed roster_example _ zeros _
           [Key "submissions"; Idx 0] _ "studentEmail" "200123456"
           ltac:(vm_compute; reflexivity) eq_refl eq_refl eq_refl
           (or_intror (or_introl eq_refl)) eq_refl eq_refl).
Defined.

(** C5 as stated fails: a student email inside a [quizData] map is left as
    it is. *)
Lemma student_email_in_quiz_data_kept :
  ~ (forall (data out : json) (g g' : rng) (p : list step)
            (fields : dict string json) (email_key local : string),
        anonymize_json data g = Ok (out, g') ->
        wf_json data = true ->
        at_path p data = Some (JObj fields) ->
        In email_key ["email"; "studentEmail"] ->
        dict_get fields email_key = Some (JStr (local ++ "@gapps.yrdsb.ca")) ->
        Str.isdigit local = true ->
        exists fields',
          at_path p out = Some (JObj fields') /\
          dict_get fields' email_key
            = Some (JStr (Str.rev local ++ "@gapps.yrdsb.ca"))).
Proof.
  intros H.
  destruct (H (JObj [("quizData", JObj [("email", JStr "123456789@gapps.yrdsb.ca")])])
              _ zeros _ [Key "quizData"] _ "email" "123456789"
              ltac:(vm_compute; reflexivity) eq_refl eq_refl
              (or_introl eq_refl) eq_refl eq_refl)
    as [fields' [A G]].
  vm_compute in A. injection A as <-. vm_compute in G. discriminate.
Qed.

(** ** Student IDs *)

Lemma rewrite_value_student_id (T : tables)
    (recur : json -> rng -> result (json * rng)) (s t : string) (g : rng) :
  dict_get (student_id_mapping T) s = Some t ->
  rewrite_value T recur "studentId" (JStr s) g = Ok (JStr t, g).
Proof.
  intros G. unfold rewrite_value.
  change (Str.mem "studentId" ["email"; "teacherEmail"]) with false.
  change (Str.mem "studentId" ["email"; "studentEmail"]) with false.
  change (Str.mem "studentId" ["name"; "displayName"; "studentName"]) with false.
  change ("studentId" =? "studentId") with true.
  cbn [andb lookup_id py_hash bind]. now rewrite G.
Qed.

Lemma collect_node_student_id (obj : dict string json) (T T' : tables) (g g' : rng)
    (s : string) :
  collect_node obj T g = Ok (T', g') ->
  dict_get obj "studentId" = Some (JStr s) ->
  dict_mem (student_id_mapping T') s = true.
Proof.
  unfold collect_node. intros E G. do 3 inv_bind E.
  unfold collect_student_id in E. rewrite G in E. cbn [py_hash bind] in E.
  destruct (dict_mem (student_id_mapping r1) s) eqn:M; cbn [negb] in E.
  - now injection E as <- <-.
  - destruct (random_digits _ _) as [fake_id g1]. injection E as <- <-. simpl.
    unfold dict_mem. now rewrite dict_get_set_eq.
Qed.

(** C6, as amended.  One run fixes one replacement [id_of s] for every
    student ID [s]: at every map node that the rewriter rebuilds, a
    [studentId] field holding the string [s] holds [id_of s] in the output,
    a string of the length of [s] made of the characters 0 to 9. *)
Theorem student_id_replaced (data out : json) (g g' : rng) :
  anonymize_json data g = Ok (out, g') ->
  wf_json data = true ->
  exists id_of : string -> string,
    forall (p : list step) (fields : dict string json) (s : string),
      rebuilt p data = true ->
      at_path p data = Some (JObj fields) ->
      dict_get fields "studentId" = Some (JStr s) ->
      String.length (id_of s) = String.length s /\
      Str.all_chars Str.is_ascii_digit (id_of s) = true /\
      exists fields',
        at_path p out = Some (JObj fields') /\
        dict_get fields' "studentId" = Some (JStr (id_of s)).
Proof.
  intros E W.
  destruct (anonymize_json_passes _ _ _ _ E) as [T [g0 [EC ER]]].
  exists (fun s => match dict_get (student_id_mapping T) s with
                   | Some t => t
                   | None => EmptyString
                   end).
  intros p fields s R A G.
  destruct (collect_identifiers_at_path _ _ _ _ _ _ _ EC A)
    as [Ta [ga [Tb [gb [S1 [N S2]]]]]].
  destruct (collect_steps_ok _ _ initial_tables_ok S1) as [OKa _].
  destruct (collect_steps_ok _ _ OKa (collect_node_steps _ _ _ _ _ N)) as [OKb _].
  destruct (collect_steps_ok _ _ OKb S2) as [OK [_ [_ L]]].
  pose proof (collect_node_student_id _ _ _ _ _ _ N G) as M.
  unfold dict_mem in M.
  destruct (dict_get (student_id_mapping Tb) s) as [t|] eqn:Gt; [|discriminate].
  apply L in Gt. rewrite Gt.
  destruct (ok_ids _ OK _ _ Gt) as [Len Dig]. repeat split; auto.
  destruct (anonymize_json_entry _ _ _ _ _ _ _ _ E W R A G)
    as [T0 [g1 [fields' [v' [h1 [h2 [EC' [A' [RV G']]]]]]]]]; try discriminate.
  rewrite EC in EC'. injection EC' as <- <-.
  rewrite (rewrite_value_student_id _ _ _ _ _ Gt) in RV. injection RV as <- _.
  eauto.
Qed.

Lemma student_id_replaced_witness :
  exists id_of : string -> string,
    forall (p : list step) (fields : dict string json) (s : string),
      rebuilt p roster_example = true ->
      at_path p roster_example = Some (JObj fields) ->
      dict_get fields "studentId" = Some (JStr s) ->
      String.length (id_of s) = String.length s /\
      Str.all_chars Str.is_ascii_digit (id_of s) = true /\
      exists fields',
        option_map (at_path p) (document (anonymize_json roster_example counting))
          = Some (Some (JObj fields')) /\
        dict_get fields' "studentId" = Some (JStr (id_of s)).
Proof.
  destruct (student_id_replaced roster_example _ counting _
              ltac:(vm_compute; reflexivity) eq_refl) as [id_of H].
  exists id_of. intros p fields s R A G.
  destruct (H p fields s R A G) as [L [D [fields' [A' G']]]].
  repeat split; auto. exists fields'. split; [|exact G'].
  vm_compute document. cbn [option_map]. now rewrite A'.
Defined.

(** C6 as stated fails: a [studentId] inside a [quizData] map keeps its
    value. *)
Lemma student_id_in_quiz_data_kept :
  ~ (forall (data out : json) (g g' : rng) (p : list step)
            (fields : dict string json) (s : string),
        anonymize_json data g = Ok (out, g') ->
        wf_json data = true ->
        at_path p data = Some (JObj fields) ->
        dict_get fields "studentId" = Some (JStr s) ->
        exists fields' t,
          at_path p out = Some (JObj fields') /\
          dict_get fields' "studentId" = Some (JStr t) /\
          String.length t = String.length s /\
          Str.all_chars Str.is_ascii_digit t = true).
Proof.
  intros H.
  destruct (H (JObj [("quizData", JObj [("studentId", JStr "s-104")])])
              _ zeros _ [Key "quizData"] _ "s-104"
              ltac:(vm_compute; reflexivity) eq_refl eq_refl eq_refl)
    as [fields' [t [A [G [_ D]]]]].
  vm_compute in A. injection A as <-. vm_compute in G. injection G as <-.
  discriminate.
Qed.

(** ** Structural congruence *)

Lemma congruent_with_obj (qr q : bool) (fields fields' : dict string json) :
  congruent_with qr q (JObj fields) (JObj fields') =
  keys_allowed
    (fun k => submission_shaped fields && Str.mem k ["updatedAt"; "attachments"]
              || q && Str.mem k QUIZ_KEYS)
    (dict_keys fields) (dict_keys fields') &&
  forallb (fun kv => match dict_get fields' (fst kv) with
                     | Some x' =>
                         congruent_with qr (qr && String.eqb (fst kv) "quizData")
                                        (snd kv) x'
                     | None => false
                     end) fields.
Proof.
  cbn [congruent_with]. f_equal.
  induction fields as [|[k x] l IH]; [reflexivity|].
  cbn [forallb fst snd]. now rewrite <- IH.
Qed.

Lemma congruent_with_arr (qr q : bool) (items items' : list json) :
  congruent_with qr q (JArr items) (JArr items') =
  Nat.eqb (List.length items) (List.length items') &&
  forallb (fun xx => congruent_with qr false (fst xx) (snd xx)) (combine items items').
Proof.
  cbn [congruent_with]. f_equal. revert items'.
  induction items as [|x l IH]; intros [|x' l']; try reflexivity.
  cbn [combine forallb fst snd]. now rewrite <- IH.
Qed.

Lemma congruent_with_scalar (qr q : bool) (v v' : json) :
  is_container v' = false -> congruent_with qr q v v' = true.
Proof.
  destruct v'; try discriminate; destruct v; reflexivity.
Qed.

Lemma dict_get_of_In (fields : dict string json) (k : string) (x : json) :
  NoDup (dict_keys fields) -> In (k, x) fields -> dict_get fields k = Some x.
Proof.
  induction fields as [|[k0 x0] l IH]; simpl; [tauto|].
  intros N [[= -> ->] | I].
  - now rewrite String.eqb_refl.
  - inversion N as [|? ? NI N']; subst.
    destruct (String.eqb_spec k0 k) as [-> | _]; [|auto].
    exfalso. apply NI. apply (in_map fst) in I. exact I.
Qed.

Lemma keys_allowed_app (extra_ok : string -> bool) (keys extra : list string) :
  (forall k, In k extra -> extra_ok k = true) ->
  keys_allowed extra_ok keys (keys ++ extra)%list = true.
Proof.
  intros X. unfold keys_allowed. apply andb_true_iff. split.
  - apply forallb_forall. intros k I. apply str_mem_In, in_app_iff. now left.
  - apply forallb_forall. intros k I. apply in_app_iff in I.
    apply orb_true_iff. destruct I as [I | I]; [left | right; auto].
    now apply str_mem_In.
Qed.

Lemma congruent_with_refl (qr : bool) (v : json) :
  wf_json v = true -> forall q, congruent_with qr q v v = true.
Proof.
  induction v as [| | | |items IH|fields IH] using json_ind; intros W q;
    try reflexivity.
  - rewrite congruent_with_arr, Nat.eqb_refl. cbn [andb].
    apply forallb_forall. intros [x x'] I. cbn [fst snd].
    assert (x' = x /\ In x items) as [-> I'].
    { clear - I. induction items as [|y l IHl]; simpl in I; [tauto|].
      destruct I as [[= -> ->] | I]; [split; [reflexivity | now left]|].
      destruct (IHl I). split; [assumption | now right]. }
    rewrite Forall_forall in IH. apply IH; [exact I'|].
    destruct (In_nth_error _ _ I') as [i N]. eapply wf_json_arr; eauto.
  - destruct (wf_json_obj _ W) as [N Wc].
    rewrite congruent_with_obj. apply andb_true_iff. split.
    + rewrite <- (app_nil_r (dict_keys fields)) at 2.
      apply keys_allowed_app. intros k [].
    + apply forallb_forall. intros [k x] I. cbn [fst snd].
      rewrite (dict_get_of_In _ _ _ N I).
      rewrite Forall_forall in IH. apply (IH _ I).
      apply (Wc k). now apply dict_get_of_In.
Qed.

Lemma rewrite_url_cases (value : json) :
  rewrite_url value = value \/ is_container (rewrite_url value) = false.
Proof.
  unfold rewrite_url.
  repeat match goal with
         | |- context [if ?c then _ else _] => destruct c; [now right|]
         end.
  now left.
Qed.

(** What the [if]/[elif] chain can return for an entry. *)
Lemma rewrite_value_cases (T : tables) (recur : json -> rng -> result (json * rng))
    (k : string) (x x0 : json) (g g' : rng) :
  rewrite_value T recur k x g = Ok (x0, g') ->
  is_container x0 = false \/
  x0 = x \/
  (k = "quizData" /\
   exists quiz d, x = JObj quiz /\ x0 = JObj d /\ quiz_extended quiz d) \/
  recur x g = Ok (x0, g').
Proof.
  unfold rewrite_value. intros E.
  destruct (Str.mem k ["email"; "teacherEmail"] && is_str x TEACHER_EMAIL);
    [injection E as <- <-; now left|].
  destruct (Str.mem k ["email"; "studentEmail"] && _).
  { inv_bind E. destruct (Str.isdigit r).
    - destruct (dict_get _ r); injection E as <- <-; now left.
    - injection E as <- <-. right. now left. }
  destruct (if Str.mem k ["name"; "displayName"; "studentName"] then _ else _);
    [injection E as <- <-; now left|].
  inv_bind E. destruct r as [fake_id|]; [injection E as <- <-; now left|].
  destruct (Str.mem k URL_KEYS).
  { injection E as <- <-. destruct (rewrite_url_cases x) as [-> | C]; auto. }
  assert (Rest : (if String.eqb k "courseGroupEmail"
                  then match x with
                       | JStr s =>
                           Ok (JStr (Str.replace "@gapps.yrdsb.ca" "@example.com" s), g)
                       | _ => Raise AttributeError
                       end
                  else if is_container x then recur x g else Ok (x, g))
                 = Ok (x0, g') ->
                 is_container x0 = false \/ x0 = x \/
                 (k = "quizData" /\
                  exists quiz d, x = JObj quiz /\ x0 = JObj d /\ quiz_extended quiz d) \/
                 recur x g = Ok (x0, g')).
  { clear. intros E. destruct (String.eqb k "courseGroupEmail").
    - destruct x; try discriminate. injection E as <- <-. now left.
    - destruct (is_container x); [auto|]. injection E as <- <-. right. now left. }
  destruct (String.eqb_spec k "quizData") as [-> | _]; [|exact (Rest E)].
  destruct x as [| | | | |quiz]; try exact (Rest E).
  destruct (fix_quiz_data_extends _ _ _ _ E) as [d [-> X]].
  right. right. left. split; [reflexivity|]. eauto.
Qed.

Lemma congruent_with_quiz_extended (quiz d : dict string json) :
  wf_json (JObj quiz) = true ->
  quiz_extended quiz d ->
  congruent_with true true (JObj quiz) (JObj d) = true.
Proof.
  intros W [extra [-> X]]. destruct (wf_json_obj _ W) as [N Wc].
  rewrite congruent_with_obj. apply andb_true_iff. split.
  - unfold dict_keys. rewrite map_app. apply keys_allowed_app.
    intros k I. apply X in I. destruct I as [I _]. apply str_mem_In in I.
    rewrite I. apply orb_true_r.
  - apply forallb_forall. intros [k x] I. cbn [fst snd].
    pose proof (dict_get_of_In _ _ _ N I) as G.
    rewrite dict_get_app, G. apply congruent_with_refl. now apply (Wc k).
Qed.

Lemma congruent_with_grade_fixed (qr q : bool) (x x0 x' : json) :
  congruent_with qr q x x0 = true ->
  grade_fixed x0 x' ->
  congruent_with qr q x x' = true.
Proof.
  intros C [-> | [grade [-> [Gb ->]]]]; [exact C|].
  destruct x as [| | | | |fields]; try discriminate.
  rewrite congruent_with_obj in *. apply andb_true_iff in C. destruct C as [Ck Cc].
  apply andb_true_iff. split.
  - rewrite dict_keys_set_old; [exact Ck|]. exact (dict_get_mem _ _ _ Gb).
  - rewrite forallb_forall in *. intros kv I. specialize (Cc kv I).
    rewrite dict_get_set. cbn [keqb EqKey_string].
    destruct (String.eqb "gradedBy" (fst kv)); [|exact Cc].
    now apply congruent_with_scalar.
Qed.

Lemma rewrite_items_combine (recur : json -> rng -> result (json * rng))
    (l l' : list json) (g g' : rng) (x x' : json) :
  rewrite_items recur l g = Ok (l', g') ->
  In (x, x') (combine l l') ->
  exists g1 g2, recur x g1 = Ok (x', g2).
Proof.
  revert l' g. induction l as [|x0 l IH]; intros l' g E I; simpl in E.
  - injection E as <- <-. destruct I.
  - inv_bind E. destruct r as [v g1]. inv_bind E. destruct r as [vs g2].
    injection E as <- <-. destruct I as [[= <- <-] | I]; eauto.
Qed.

Lemma submission_shaped_rewritten (T : tables)
    (recur : json -> rng -> result (json * rng)) (l l' : dict string json) :
  Forall2 (entry_rewritten T recur) l l' ->
  submission_shaped l' = submission_shaped l.
Proof.
  intros F. unfold submission_shaped.
  now rewrite !(entries_rewritten_mem _ _ _ _ _ F).
Qed.

Lemma backfilled_keys_allowed (obj : dict string json) (k : string) :
  In k (backfilled_keys obj) ->
  submission_shaped obj && Str.mem k ["updatedAt"; "attachments"] = true.
Proof.
  unfold backfilled_keys. destruct (submission_shaped obj); [|intros []].
  intros I. apply str_mem_In. apply in_app_iff in I.
  destruct I as [I | I];
    [destruct (dict_mem obj "updatedAt") | destruct (dict_mem obj "attachments")];
    simpl in I; try contradiction; destruct I as [<- | []]; simpl; auto.
Qed.

(** The rewriter keeps the shape of the document, up to the backfilled keys
    of submissions and of quiz data. *)
Lemma replace_identifiers_congruent (T : tables) (d : json) :
  wf_json d = true ->
  forall g o g' q,
    replace_identifiers T d g = Ok (o, g') ->
    congruent_with true q d o = true.
Proof.
  induction d as [| | | |items IH|fields IH] using json_ind; intros W g o g' q E;
    try (simpl in E; injection E as <- <-; reflexivity).
  - destruct (replace_identifiers_arr _ _ _ _ _ E) as [new_items [RI ->]].
    rewrite congruent_with_arr, (rewrite_items_length _ _ _ _ _ RI), Nat.eqb_refl.
    cbn [andb]. apply forallb_forall. intros [x x'] I. cbn [fst snd].
    destruct (rewrite_items_combine _ _ _ _ _ _ _ RI I) as [g1 [g2 RX]].
    pose proof (in_combine_l _ _ _ _ I) as Ix.
    rewrite Forall_forall in IH. eapply (IH _ Ix); [|exact RX].
    destruct (In_nth_error _ _ Ix) as [i N]. eapply wf_json_arr; eauto.
  - destruct (wf_json_obj _ W) as [N Wc].
    destruct (replace_identifiers_entries _ _ _ _ _ E N) as [new_obj [F ->]].
    rewrite congruent_with_obj. apply andb_true_iff. split.
    + rewrite repair_submission_keys, (entries_rewritten_keys _ _ _ _ F).
      apply keys_allowed_app. intros k I. apply backfilled_keys_allowed in I.
      rewrite (submission_shaped_rewritten _ _ _ _ F) in I. rewrite I. reflexivity.
    + apply forallb_forall. intros [k x] I. cbn [fst snd].
      pose proof (dict_get_of_In _ _ _ N I) as G.
      destruct (entries_rewritten_get _ _ _ _ _ _ F G) as [x0 [g1 [g2 [G0 RV]]]].
      destruct (repair_submission_get _ _ _ G0) as [x' [G' [GF _]]].
      rewrite G'. apply (congruent_with_grade_fixed _ _ _ x0); [|exact GF].
      pose proof (Wc _ _ G) as Wx.
      destruct (rewrite_value_cases _ _ _ _ _ _ _ RV)
        as [C | [-> | [[-> [quiz [d [-> [-> X]]]]] | RX]]].
      * now apply congruent_with_scalar.
      * now apply congruent_with_refl.
      * now apply congruent_with_quiz_extended.
      * rewrite Forall_forall in IH. apply (IH _ I Wx _ _ _ _ RX).
Qed.

(** C2, as amended.  For every input document, the keys of every map of the
    output are the keys of the corresponding input map, plus at most
    [updatedAt] and [attachments] when that input map contains both
    [studentEmail] and [studentName], and plus at most the eleven quiz
    backfill keys when the map is the value of a [quizData] key; and every
    sequence of the output has the length of the corresponding input
    sequence. *)
Theorem output_congruent (data out : json) (g g' : rng) :
  anonymize_json data g = Ok (out, g') ->
  wf_json data = true ->
  congruent_with true false data out = true.
Proof.
  intros E W. destruct (anonymize_json_passes _ _ _ _ E) as [T [g0 [_ ER]]].
  eapply replace_identifiers_congruent; eauto.
Qed.

Lemma output_congruent_witness :
  exists out,
    document (anonymize_json roster_example counting) = Some out /\
    wf_json roster_example = true /\
    congruent_with true false roster_example out = true.
Proof.
  eexists. split; [vm_compute; reflexivity|]. split; [reflexivity|].
  apply (output_congruent roster_example _ counting _
           ltac:(vm_compute; reflexivity) eq_refl).
Defined.

(** C2 as stated, with no allowance for quiz data, fails: an empty map under
    [quizData] comes out with eleven keys. *)
Lemma quiz_data_gains_keys :
  ~ (forall (data out : json) (g g' : rng),
        anonymize_json data g = Ok (out, g') ->
        wf_json data = true ->
        congruent_with false false data out = true).
Proof.
  intros H.
  specialize (H (JObj [("quizData", JObj [])]) _ zeros _
                ltac:(vm_compute; reflexivity) eq_refl).
  vm_compute in H. discriminate.
Qed.

(** ** Where the entries of the Name Mapping come from *)

Lemma at_path_app (q : list step) (s : step) (d : json) :
  at_path (q ++ [s])%list d =
  match at_path q d with
  | Some x => child s x
  | None => None
  end.
Proof.
  revert d. induction q as [|s0 q IH]; intros d; simpl.
  - now destruct (child s d).
  - destruct (child s0 d); [apply IH | reflexivity].
Qed.

Section CollectInvariant.
Variable I : tables -> Prop.
Variable visit : json -> tables -> rng -> result (tables * rng).

Lemma collect_values_inv (l : dict string json) :
  (forall kv, In kv l -> forall T g T' g',
        I T -> visit (snd kv) T g = Ok (T', g') -> I T') ->
  forall T g T' g', I T -> collect_values visit l T g = Ok (T', g') -> I T'.
Proof.
  induction l as [|[k x] l IH]; simpl; intros Hv T g T' g' HI E.
  - now injection E as <- <-.
  - inv_bind E. destruct r as [T1 g1].
    eapply IH; [intros kv Ik; apply Hv; now right | | exact E].
    eapply (Hv (k, x)); [now left | exact HI | exact E0].
Qed.

Lemma collect_items_inv (l : list json) :
  (forall x, In x l -> forall T g T' g',
        I T -> visit x T g = Ok (T', g') -> I T') ->
  forall T g T' g', I T -> collect_items visit l T g = Ok (T', g') -> I T'.
Proof.
  induction l as [|x l IH]; simpl; intros Hv T g T' g' HI E.
  - now injection E as <- <-.
  - inv_bind E. destruct r as [T1 g1].
    eapply IH; [intros y Iy; apply Hv; now right | | exact E].
    eapply (Hv x); [now left | exact HI | exact E0].
Qed.

End CollectInvariant.

(** A property of the tables kept by the rules at every map of the document
    is kept by the whole pass. *)
Lemma collect_identifiers_inv (I : tables -> Prop) (data : json) :
  (forall q f T g T' g',
      at_path q data = Some (JObj f) ->
      I T -> collect_node f T g = Ok (T', g') -> I T') ->
  forall d,
    wf_json d = true ->
    forall q, at_path q data = Some d ->
    forall T g T' g', I T -> collect_identifiers d T g = Ok (T', g') -> I T'.
Proof.
  intros Hnode.
  induction d as [| | | |items IH|fields IH] using json_ind; intros W q A T g T' g' HI E;
    try (simpl in E; injection E as <- <-; exact HI).
  - simpl in E. eapply collect_items_inv; [|exact HI|exact E].
    intros x Ix. rewrite Forall_forall in IH.
    destruct (In_nth_error _ _ Ix) as [i N].
    apply (IH _ Ix (wf_json_arr _ _ _ W N) (q ++ [Idx i])%list).
    rewrite at_path_app, A. exact N.
  - simpl in E. inv_bind E. destruct r as [T1 g1].
    pose proof (Hnode _ _ _ _ _ _ A HI E0) as HI1.
    destruct (wf_json_obj _ W) as [N Wc].
    eapply collect_values_inv; [|exact HI1|exact E].
    intros [k x] Ik. rewrite Forall_forall in IH. cbn [snd].
    pose proof (dict_get_of_In _ _ _ N Ik) as G.
    apply (IH _ Ik (Wc _ _ G) (q ++ [Key k])%list).
    rewrite at_path_app, A. exact G.
Qed.

Lemma py_hash_KStr (name : json) (n : string) :
  py_hash name = Ok (KStr n) -> name = JStr n.
Proof.
  destruct name; simpl; intros [=]; congruence.
Qed.

Lemma collect_name_email_origin (name_key email_key : string)
    (f : dict string json) (T T' : tables) (n v : string) :
  collect_name_email name_key email_key f T = Ok T' ->
  dict_get (name_mapping T') (KStr n) = Some v ->
  dict_get (name_mapping T) (KStr n) = Some v \/
  student_named f name_key email_key n.
Proof.
  unfold collect_name_email.
  destruct (dict_get f name_key) as [name|] eqn:Gn; [|intros [= <-]; auto].
  destruct (dict_get f email_key) as [email|] eqn:Ge; [|intros [= <-]; auto].
  unfold collect_student. intros E.
  apply bind_Ok in E. destruct E as [sn [Es E]].
  destruct sn as [student_number|]; [|injection E as <-; auto].
  apply bind_Ok in E. destruct E as [T1 [E1 E]]. injection E as <-.
  assert (N : name_mapping (record_student_number student_number T1)
              = name_mapping T1)
    by (unfold record_student_number; destruct (negb _); reflexivity).
  rewrite N. clear N.
  unfold record_name in E1. apply bind_Ok in E1. destruct E1 as [key [Eh E1]].
  destruct (negb (dict_mem (name_mapping T) key) && negb (is_str name TEACHER_NAME));
    [|injection E1 as <-; auto].
  destruct (generate_fake_name _ _) as [fake used]. injection E1 as <-. simpl.
  rewrite dict_get_set. destruct (keqb key (KStr n)) eqn:Ek; [|auto].
  apply keqb_spec in Ek. subst key. apply py_hash_KStr in Eh. subst name.
  intros _. right. split; [exact Gn|]. eauto.
Qed.

Lemma collect_node_origin (f : dict string json) (T T' : tables) (g g' : rng)
    (n v : string) :
  collect_node f T g = Ok (T', g') ->
  dict_get (name_mapping T') (KStr n) = Some v ->
  n = TEACHER_NAME \/
  dict_get (name_mapping T) (KStr n) = Some v \/
  student_named f "name" "email" n \/
  student_named f "studentName" "studentEmail" n.
Proof.
  unfold collect_node. intros E G.
  inv_bind E. rename r into T2, E0 into E2.
  inv_bind E. rename r into T3, E0 into E3.
  inv_bind E. rename r into T4, E0 into E4.
  assert (N4 : name_mapping T' = name_mapping T4).
  { unfold collect_student_id in E. destruct (dict_get f "studentId"); 
      [|now injection E as <- <-].
    inv_bind E. destruct r as [| |s]; try (inv_bind E; now injection E as <- <-).
    destruct (negb _); [|now injection E as <- <-].
    destruct (random_digits _ _). now injection E as <- <-. }
  assert (N3 : name_mapping T4 = name_mapping T3).
  { unfold collect_email in E4. destruct (dict_get f "email");
      [|now injection E4 as <-].
    inv_bind E4. destruct r as [sn|]; injection E4 as <-; [|reflexivity].
    unfold record_student_number. destruct (negb _); reflexivity. }
  rewrite N4, N3 in G.
  destruct (collect_name_email_origin _ _ _ _ _ _ _ E3 G) as [G3 | S]; [|auto].
  destruct (collect_name_email_origin _ _ _ _ _ _ _ E2 G3) as [G2 | S]; [|auto].
  unfold collect_teacher in G2. destruct (dict_get f "email") as [email|]; [|auto].
  destruct (is_str email TEACHER_EMAIL); [|auto]. simpl in G2.
  rewrite dict_get_set in G2.
  destruct (keqb (KStr TEACHER_NAME) (KStr n)) eqn:Ek; [|auto].
  apply keqb_spec in Ek. injection Ek as <-. now left.
Qed.

(** Names in the Name Mapping are the two made before the pass and the names
    that some map of the document pairs with a student email. *)
Lemma name_mapping_origin (data : json) (g g' : rng) (T : tables) (n v : string) :
  wf_json data = true ->
  collect_identifiers data initial_tables g = Ok (T, g') ->
  dict_get (name_mapping T) (KStr n) = Some v ->
  n = TEACHER_NAME \/ n = "Test Teacher" \/
  exists p fields,
    at_path p data = Some (JObj fields) /\
    (student_named fields "name" "email" n \/
     student_named fields "studentName" "studentEmail" n).
Proof.
  intros W E.
  revert n v.
  apply (collect_identifiers_inv
           (fun T => forall n v,
                dict_get (name_mapping T) (KStr n) = Some v ->
                n = TEACHER_NAME \/ n = "Test Teacher" \/
                exists p fields,
                  at_path p data = Some (JObj fields) /\
                  (student_named fields "name" "email" n \/
                   student_named fields "studentName" "studentEmail" n))
           data) with (d := data) (q := []) (T := initial_tables) (g := g) (g' := g');
    auto.
  - intros q f T0 g0 T1 g1 A HI EN n v G.
    destruct (collect_node_origin _ _ _ _ _ _ _ EN G) as [-> | [G0 | [S | S]]]; eauto.
    + right. right. exists q, f. auto.
    + right. right. exists q, f. auto.
  - intros n v G. apply dict_get_In in G. rewrite initial_name_mapping in G.
    destruct G as [[= <- _] | [[= <- _] | []]]; auto.
Qed.

Lemma student_named_pairs (fields : dict string json) (name_key email_key n : string) :
  student_named fields name_key email_key n ->
  pairs_student fields name_key email_key n = true.
Proof.
  intros [Gn [email [sn [Ge S]]]]. unfold pairs_student.
  rewrite Gn, Ge, S. cbn [is_str]. now rewrite String.eqb_refl.
Qed.

Lemma student_name_in_child (n : string) (s : step) (v x : json) :
  child s v = Some x -> student_name_in n x = true -> student_name_in n v = true.
Proof.
  destruct s as [k | i], v as [| | | |items|fields]; simpl; try discriminate.
  - intros G X. apply orb_true_iff. right.
    induction fields as [|[k0 x0] l IH]; simpl in *; [discriminate|].
    destruct (String.eqb k0 k).
    + injection G as ->. now rewrite X.
    + rewrite (IH G). apply orb_true_r.
  - revert i. induction items as [|x0 l IH]; intros [|i] G X; simpl in *;
      try discriminate.
    + injection G as ->. now rewrite X.
    + rewrite (IH _ G X). apply orb_true_r.
Qed.

Lemma student_name_in_path (n : string) (p : list step) :
  forall (data : json) (fields : dict string json),
    at_path p data = Some (JObj fields) ->
    student_named fields "name" "email" n \/
    student_named fields "studentName" "studentEmail" n ->
    student_name_in n data = true.
Proof.
  induction p as [|s p IH]; intros data fields A S.
  - simpl in A. injection A as ->. cbn [student_name_in].
    destruct S as [S | S]; apply student_named_pairs in S; rewrite S;
      [reflexivity | now rewrite orb_true_r].
  - simpl in A. destruct (child s data) as [x|] eqn:C; [|discriminate].
    eapply student_name_in_child; eauto.
Qed.

(** ** A second run over anonymized output *)

Lemma rewrite_value_dev_email (T : tables)
    (recur : json -> rng -> result (json * rng)) (g : rng) :
  rewrite_value T recur "email" (JStr DEV_EMAIL) g = Ok (JStr DEV_EMAIL, g).
Proof. reflexivity. Qed.

Lemma rewrite_value_unmapped_name (T : tables)
    (recur : json -> rng -> result (json * rng)) (n : string) (g : rng) :
  dict_get (name_mapping T) (KStr n) = None ->
  rewrite_value T recur "name" (JStr n) g = Ok (JStr n, g).
Proof.
  intros G. unfold rewrite_value.
  change (Str.mem "name" ["email"; "teacherEmail"]) with false.
  change (Str.mem "name" ["email"; "studentEmail"]) with false.
  change (Str.mem "name" ["name"; "displayName"; "studentName"]) with true.
  cbn [andb lookup_name]. now rewrite G.
Qed.

(** C1, as amended.  In a run over any document - a previously anonymized
    one in particular - and at every map node that the rewriter rebuilds:
    an [email] holding the teacher placeholder address is left unchanged; a
    [name] holding the teacher placeholder name is left unchanged, provided
    no map of the document pairs that name with a student email; and an
    [email] holding digits before the student domain, such as an already
    reversed one, is not kept: its digits are reversed once more. *)
Theorem rerun_on_anonymized_output (data out : json) (g g' : rng) (p : list step)
    (fields : dict string json) :
  anonymize_json data g = Ok (out, g') ->
  wf_json data = true ->
  rebuilt p data = true ->
  at_path p data = Some (JObj fields) ->
  exists fields',
    at_path p out = Some (JObj fields') /\
    (dict_get fields "email" = Some (JStr DEV_EMAIL) ->
     dict_get fields' "email" = Some (JStr DEV_EMAIL)) /\
    (dict_get fields "name" = Some (JStr DEV_NAME) ->
     student_name_in DEV_NAME data = false ->
     dict_get fields' "name" = Some (JStr DEV_NAME)) /\
    (forall local,
        Str.isdigit local = true ->
        dict_get fields "email" = Some (JStr (local ++ "@gapps.yrdsb.ca")) ->
        dict_get fields' "email" = Some (JStr (Str.rev local ++ "@gapps.yrdsb.ca"))).
Proof.
  intros E W R A.
  destruct (anonymize_json_passes _ _ _ _ E) as [T [g0 [EC ER]]].
  destruct (replace_identifiers_at_path _ _ _ _ _ _ _ ER W R A)
    as [g1 [g2 [fields0 [fields' [_ [A' _]]]]]].
  exists fields'. split; [exact A'|].
  assert (Entry : forall k v,
             dict_get fields k = Some v -> k <> "grade" -> k <> "gradedBy" ->
             exists v' h1 h2,
               rewrite_value T (replace_identifiers T) k v h1 = Ok (v', h2) /\
               dict_get fields' k = Some v').
  { intros k v G N1 N2.
    destruct (anonymize_json_entry _ _ _ _ _ _ _ _ E W R A G N1 N2)
      as [T0 [g3 [f' [v' [h1 [h2 [EC' [A'' [RV G']]]]]]]]].
    rewrite EC in EC'. injection EC' as <- <-.
    rewrite A' in A''. injection A'' as <-. eauto. }
  split; [|split].
  - intros G. destruct (Entry _ _ G) as [v' [h1 [h2 [RV G']]]]; try discriminate.
    rewrite rewrite_value_dev_email in RV. now injection RV as <- _.
  - intros G NS. destruct (Entry _ _ G) as [v' [h1 [h2 [RV G']]]]; try discriminate.
    rewrite rewrite_value_unmapped_name in RV; [now injection RV as <- _|].
    destruct (dict_get (name_mapping T) (KStr DEV_NAME)) as [v|] eqn:Gn;
      [|reflexivity].
    destruct (name_mapping_origin _ _ _ _ _ _ W EC Gn) as [D | [D | [q [f [Aq S]]]]];
      try discriminate.
    rewrite (student_name_in_path _ _ _ _ Aq S) in NS. discriminate.
  - intros local D G.
    destruct (Entry _ _ G) as [v' [h1 [h2 [RV G']]]]; try discriminate.
    pose proof (collecting_ok _ (collect_identifiers_collecting _ _ _ _ EC)) as OK.
    rewrite (rewrite_value_student_email _ _ "email" _ _ OK (or_introl eq_refl) D) in RV.
    now injection RV as <- _.
Qed.

Lemma rerun_on_anonymized_output_witness :
  document (anonymize_json
              (JObj [("teacher", JObj [("email", JStr "stewart.chan@gapps.yrdsb.ca");
                                       ("name", JStr "Stewart Chan")]);
                     ("students",
                      JArr [JObj [("name", JStr "Jordan Lee");
                                  ("email", JStr "200123456@gapps.yrdsb.ca")]])])
              zeros) = Some anonymized_example /\
  exists fields',
    option_map (at_path [Key "teacher"])
               (document (anonymize_json anonymized_example zeros))
      = Some (Some (JObj fields')) /\
    dict_get fields' "email" = Some (JStr "dev.codepet@gmail.com") /\
    dict_get fields' "name" = Some (JStr "Dev CodePet").
Proof.
  split; [vm_compute; reflexivity|].
  destruct (rerun_on_anonymized_output anonymized_example _ zeros _ [Key "teacher"] _
              ltac:(vm_compute; reflexivity) eq_refl eq_refl eq_refl)
    as [fields' [A [He [Hn _]]]].
  exists fields'. split; [vm_compute document; cbn [option_map]; now rewrite A|].
  split; [apply He | apply Hn]; reflexivity.
Defined.

(** C1 as stated fails: the second run reverses an already reversed student
    email once more, so the node does not come out as it went in. *)
Lemma reversed_email_reversed_again :
  ~ (forall (data out1 out2 : json) (g1 g1' g2 g2' : rng) (p : list step)
            (fields : dict string json) (email name : string),
        anonymize_json data g1 = Ok (out1, g1') ->
        anonymize_json out1 g2 = Ok (out2, g2') ->
        at_path p out1 = Some (JObj fields) ->
        dict_get fields "email" = Some (JStr email) ->
        anonymized_email email ->
        dict_get fields "name" = Some (JStr name) ->
        synthetic_name name ->
        at_path p out2 = Some (JObj fields)).
Proof.
  intros H.
  specialize (H (JObj [("name", JStr "Jordan Lee");
                       ("email", JStr "200123456@gapps.yrdsb.ca")])
                _ _ zeros _ zeros _ []
                [("name", JStr "Charlie Clark");
                 ("email", JStr "654321002@gapps.yrdsb.ca")]
                "654321002@gapps.yrdsb.ca" "Charlie Clark"
                ltac:(vm_compute; reflexivity) ltac:(vm_compute; reflexivity)
                eq_refl eq_refl
                (or_intror (ex_intro _ "654321002" (conj eq_refl eq_refl)))
                eq_refl
                (or_intror (ex_intro _ 2 (ex_intro _ 0 eq_refl)))).
  vm_compute in H. discriminate.
Qed.

(** Nor does a synthetic student name always come out as it went in: when a
    [quizData] map, which the rewriter copies, holds the first mention of a
    student, the second run allocates another name. *)
Lemma synthetic_name_remapped :
  exists out1 out2,
    document (anonymize_json
                (JArr [JObj [("quizData",
                              JObj [("name", JStr "Jordan Lee");
                                    ("email", JStr "200123456@gapps.yrdsb.ca")])];
                       JObj [("name", JStr "Jordan Lee");
                             ("email", JStr "200123456@gapps.yrdsb.ca")]])
                zeros) = Some out1 /\
    document (anonymize_json out1 zeros) = Some out2 /\
    at_path [Idx 1; Key "name"] out1 = Some (JStr "Charlie Clark") /\
    at_path [Idx 1; Key "name"] out2 = Some (JStr "Diana Davis").
Proof.
  do 2 eexists. split; [vm_compute; reflexivity|].
  split; [vm_compute; reflexivity|]. split; reflexivity.
Qed.

(** * Further properties of the helper functions *)

(** ** [reverse_student_number] *)

Lemma string_length_of_list (l : list ascii) :
  String.length (string_of_list_ascii l) = List.length l.
Proof.
  induction l as [|c l IH]; simpl; [reflexivity | now rewrite IH].
Qed.

Lemma list_length_of_string (s : string) :
  List.length (list_ascii_of_string s) = String.length s.
Proof.
  induction s as [|c s IH]; simpl; [reflexivity | now rewrite IH].
Qed.

Lemma all_chars_forallb (p : ascii -> bool) (s : string) :
  Str.all_chars p s = forallb p (list_ascii_of_string s).
Proof.
  induction s as [|c s IH]; simpl; [reflexivity | now rewrite IH].
Qed.

Lemma forallb_rev {A : Type} (p : A -> bool) (l : list A) :
  forallb p (List.rev l) = forallb p l.
Proof.
  induction l as [|x l IH]; simpl; [reflexivity|].
  rewrite forallb_app, IH. simpl. rewrite andb_true_r. apply andb_comm.
Qed.

Lemma rev_involutive (s : string) : Str.rev (Str.rev s) = s.
Proof.
  unfold Str.rev. rewrite list_ascii_of_string_of_list_ascii, List.rev_involutive.
  apply string_of_list_ascii_of_string.
Qed.

Lemma rev_length (s : string) : String.length (Str.rev s) = String.length s.
Proof.
  unfold Str.rev.
  now rewrite string_length_of_list, List.length_rev, list_length_of_string.
Qed.

Lemma rev_all_chars (p : ascii -> bool) (s : string) :
  Str.all_chars p (Str.rev s) = Str.all_chars p s.
Proof.
  unfold Str.rev.
  now rewrite !all_chars_forallb, list_ascii_of_string_of_list_ascii, forallb_rev.
Qed.

Lemma rev_isdigit (s : string) : Str.isdigit (Str.rev s) = Str.isdigit s.
Proof.
  pose proof (rev_length s) as L. pose proof (rev_all_chars Str.is_digit_char s) as A.
  unfold Str.isdigit. destruct s as [|c s], (Str.rev _) as [|c' s'];
    try discriminate; [reflexivity | exact A].
Qed.

(** Reversing a student number twice gives it back; the reversal has the
    length of the number and is all digits exactly when the number is. *)
Theorem reverse_student_number_round_trip (student_number : string) :
  reverse_student_number (reverse_student_number student_number) = student_number /\
  String.length (reverse_student_number student_number) = String.length student_number /\
  Str.isdigit (reverse_student_number student_number) = Str.isdigit student_number.
Proof.
  unfold reverse_student_number.
  split; [apply rev_involutive|]. split; [apply rev_length | apply rev_isdigit].
Qed.

(** ** [generate_fake_name] *)

Lemma search_name_Some (todo attempts index : nat) (used : list string) (name : string) :
  search_name todo attempts index used = Some name ->
  exists a, attempts <= a < attempts + todo /\ name = candidate_name index a.
Proof.
  revert attempts. induction todo as [|todo IH]; simpl; intros attempts;
    [discriminate|].
  destruct (Str.mem (candidate_name index attempts) used); simpl.
  - intros S. destruct (IH _ S) as [a [B E]]. exists a. split; [lia | exact E].
  - intros [= <-]. exists attempts. split; [lia | reflexivity].
Qed.

Lemma search_name_None (todo attempts index : nat) (used : list string) :
  search_name todo attempts index used = None ->
  forall a, attempts <= a < attempts + todo -> In (candidate_name index a) used.
Proof.
  revert attempts. induction todo as [|todo IH]; simpl; intros attempts S a B;
    [lia|].
  destruct (Str.mem (candidate_name index attempts) used) eqn:M; simpl in S;
    [|discriminate].
  destruct (Nat.eq_dec a attempts) as [-> | N].
  - now apply str_mem_In.
  - apply (IH _ S). lia.
Qed.

(** What [generate_fake_name] returns: a candidate of one of the 100 attempts
    that was not in the set, now added to it; or, only when the candidates
    of all 100 attempts are in the set, the last candidate with the index
    appended, the set being left as it was. *)
Theorem generate_fake_name_result (index : nat) (used_names : list string) :
  let (name, used) := generate_fake_name index used_names in
  (~ In name used_names /\ used = name :: used_names /\
   exists attempts, attempts < 100 /\ name = candidate_name index attempts) \/
  (used = used_names /\
   name = candidate_name index 99 ++ Str.of_nat index /\
   forall attempts, attempts < 100 -> In (candidate_name index attempts) used_names).
Proof.
  unfold generate_fake_name.
  destruct (search_name 100 0 index used_names) as [name|] eqn:S.
  - left. split; [eapply search_name_fresh; eauto|]. split; [reflexivity|].
    destruct (search_name_Some _ _ _ _ _ S) as [a [B E]]. exists a. split; [lia | exact E].
  - right. split; [reflexivity|]. split; [reflexivity|].
    intros a B. apply (search_name_None _ _ _ _ S). lia.
Qed.

Lemma append_inj_l (a x y : string) : a ++ x = a ++ y -> x = y.
Proof.
  induction a as [|c a IH]; simpl; [auto|]. intros [= E]. auto.
Qed.

Lemma NoDup_map_append (a : string) (l : list string) :
  NoDup l -> NoDup (map (fun x => a ++ x) l).
Proof.
  induction 1 as [|x l NI N IH]; simpl; constructor; [|exact IH].
  rewrite in_map_iff. intros [y [E I]]. apply append_inj_l in E. now subst.
Qed.

Lemma last_name_attempt (index j : nat) :
  j < 80 -> exists a, a < 80 /\ (index + a) mod 80 = j.
Proof.
  intros B. pose proof (Nat.mod_upper_bound index 80 ltac:(discriminate)) as R.
  pose proof (Nat.div_mod_eq index 80) as D.
  destruct (le_lt_dec (index mod 80) j) as [L | L].
  - exists (j - index mod 80). split; [lia|].
    symmetry. apply (Nat.mod_unique _ _ (index / 80)); lia.
  - exists (80 + j - index mod 80). split; [lia|].
    symmetry. apply (Nat.mod_unique _ _ (S (index / 80))); lia.
Qed.

Lemma LAST_NAMES_NoDup : NoDup LAST_NAMES.
Proof. apply distinct_keys_NoDup. vm_compute. reflexivity. Qed.

Lemma all_last_names_tried (index : nat) (used : list string) :
  search_name 100 0 index used = None -> 80 <= List.length used.
Proof.
  intros S.
  set (first := nth (index mod List.length FIRST_NAMES) FIRST_NAMES "").
  assert (I : incl (map (fun x => first ++ x) (map (fun l => " " ++ l) LAST_NAMES))
                  used).
  { intros name In_name. rewrite map_map in In_name. apply in_map_iff in In_name.
    destruct In_name as [l [<- Il]].
    destruct (In_nth _ _ "" Il) as [j [Bj Ej]].
    change (List.length LAST_NAMES) with 80 in Bj.
    destruct (last_name_attempt index j Bj) as [a [Ba Ea]].
    pose proof (search_name_None _ _ _ _ S a ltac:(lia)) as Hin.
    unfold candidate_name in Hin.
    change (List.length LAST_NAMES) with 80 in Hin.
    now rewrite Ea, Ej in Hin. }
  apply NoDup_incl_length in I.
  - now rewrite !length_map in I.
  - apply NoDup_map_append, NoDup_map_append, LAST_NAMES_NoDup.
Qed.

(** While fewer than 80 names are in use the fallback is not reached: the
    name returned is a candidate that was not in the set. *)
Theorem generate_fake_name_fresh (index : nat) (used_names : list string) :
  List.length used_names < 80 ->
  exists name attempts,
    generate_fake_name index used_names = (name, name :: used_names) /\
    ~ In name used_names /\
    attempts < 100 /\ name = candidate_name index attempts.
Proof.
  intros B. unfold generate_fake_name.
  destruct (search_name 100 0 index used_names) as [name|] eqn:S.
  - destruct (search_name_Some _ _ _ _ _ S) as [a [Ba E]].
    exists name, a. split; [reflexivity|].
    split; [eapply search_name_fresh; eauto|]. split; [lia | exact E].
  - apply all_last_names_tried in S. lia.
Qed.

Lemma generate_fake_name_fresh_witness :
  exists name attempts,
    generate_fake_name 2 ["Charlie Clark"; "Charlie Davis"]
      = (name, name :: ["Charlie Clark"; "Charlie Davis"]) /\
    ~ In name ["Charlie Clark"; "Charlie Davis"] /\
    attempts < 100 /\ name = candidate_name 2 attempts.
Proof.
  apply (generate_fake_name_fresh 2 ["Charlie Clark"; "Charlie Davis"]).
  simpl. lia.
Defined.

(** * Further properties of the collection pass *)

Lemma collect_step_used (T T' : tables) :
  collect_step T T' -> incl (used_names T) (used_names T').
Proof.
  assert (RS : forall sn T0, used_names (record_student_number sn T0) = used_names T0)
    by (intros sn T0; unfold record_student_number; destruct (negb _); reflexivity).
  intros S. destruct S as [obj T | nk ek obj T T' E | obj T T' E | obj T g T' g' E].
  - unfold collect_teacher. destruct (dict_get obj "email") as [e|]; [|apply incl_refl].
    destruct (is_str e TEACHER_EMAIL); apply incl_refl.
  - unfold collect_name_email in E.
    destruct (dict_get obj nk) as [name|]; [|injection E as <-; apply incl_refl].
    destruct (dict_get obj ek) as [email|]; [|injection E as <-; apply incl_refl].
    unfold collect_student in E. apply bind_Ok in E. destruct E as [sn [_ E]].
    destruct sn as [sn|]; [|injection E as <-; apply incl_refl].
    apply bind_Ok in E. destruct E as [T1 [E1 E]]. injection E as <-. rewrite RS.
    unfold record_name in E1. apply bind_Ok in E1. destruct E1 as [key [_ E1]].
    destruct (negb _ && negb _); [|injection E1 as <-; apply incl_refl].
    destruct (generate_fake_name _ _) as [fake used] eqn:GF. injection E1 as <-. simpl.
    destruct (generate_fake_name_spec _ _ _ _ GF) as [[_ ->] | [_ ->]];
      [apply incl_tl|]; apply incl_refl.
  - unfold collect_email in E.
    destruct (dict_get obj "email") as [email|]; [|injection E as <-; apply incl_refl].
    apply bind_Ok in E. destruct E as [sn [_ E]].
    destruct sn as [sn|]; injection E as <-; [rewrite RS|]; apply incl_refl.
  - unfold collect_student_id in E.
    destruct (dict_get obj "studentId") as [sid|]; [|injection E as <- <-; apply incl_refl].
    apply bind_Ok in E. destruct E as [key [_ E]].
    destruct key as [|z|s]; try (apply bind_Ok in E; destruct E as [m [_ E]];
      injection E as <- <-; apply incl_refl).
    destruct (negb _); [|injection E as <- <-; apply incl_refl].
    destruct (random_digits _ _). injection E as <- <-. apply incl_refl.
Qed.

Lemma collect_steps_used (T T' : tables) :
  collect_steps T T' -> incl (used_names T) (used_names T').
Proof.
  intros S. apply clos_rt_rt1n in S. induction S as [T | T T1 T' S1 _ IH].
  - apply incl_refl.
  - eapply incl_tran; [apply collect_step_used; exact S1 | exact IH].
Qed.

(** The collection pass only adds: from any state of the pass, visiting a
    document keeps every entry of the three mappings as it is and keeps every
    used name. *)
Theorem collect_identifiers_additive (data : json) (T T' : tables) (g g' : rng) :
  collecting T ->
  collect_identifiers data T g = Ok (T', g') ->
  tables_le T T' /\ incl (used_names T) (used_names T').
Proof.
  intros C E. apply collect_identifiers_steps in E. split.
  - apply (collect_steps_ok _ _ (collecting_ok _ C) E).
  - now apply collect_steps_used.
Qed.

Lemma collect_identifiers_additive_witness :
  exists T',
    document (collect_identifiers roster_example initial_tables zeros) = Some T' /\
    tables_le initial_tables T' /\ incl (used_names initial_tables) (used_names T').
Proof.
  eexists. split; [vm_compute; reflexivity|].
  eapply (collect_identifiers_additive roster_example initial_tables _ zeros _
            (collect_steps_refl _)).
  vm_compute. reflexivity.
Defined.

Lemma record_name_mem (n : string) (T T' : tables) :
  tables_ok T ->
  record_name (JStr n) T = Ok T' ->
  dict_mem (name_mapping T') (KStr n) = true.
Proof.
  intros OK E. unfold record_name in E. cbn [py_hash bind] in E.
  destruct (dict_mem (name_mapping T) (KStr n)) eqn:M; cbn [negb andb] in E.
  - now injection E as <-.
  - destruct (is_str (JStr n) TEACHER_NAME) eqn:S; cbn [negb] in E.
    + injection E as <-. apply is_str_true in S. injection S as ->.
      apply (dict_get_mem _ _ _ (ok_teacher _ OK)).
    + destruct (generate_fake_name _ _) as [fake used]. injection E as <-. simpl.
      unfold dict_mem. now rewrite dict_get_set_eq.
Qed.

Lemma collect_name_email_mem (name_key email_key n : string)
    (f : dict string json) (T T' : tables) :
  tables_ok T ->
  collect_name_email name_key email_key f T = Ok T' ->
  student_named f name_key email_key n ->
  dict_mem (name_mapping T') (KStr n) = true.
Proof.
  intros OK E [Gn [email [sn [Ge S]]]]. unfold collect_name_email in E.
  rewrite Gn, Ge in E. unfold collect_student in E. rewrite S in E. cbn [bind] in E.
  apply bind_Ok in E. destruct E as [T1 [E1 E]]. injection E as <-.
  apply (record_name_mem _ _ _ OK) in E1.
  unfold record_student_number. now destruct (negb _).
Qed.

(** Every name that some map of the document pairs with a student email
    has, after the pass, an entry in the Name Mapping: the teacher
    placeholder, a name of the used set, or a fallback name. *)
Theorem student_name_collected (data : json) (g g' : rng) (T : tables)
    (p : list step) (fields : dict string json) (n : string) :
  collect_identifiers data initial_tables g = Ok (T, g') ->
  at_path p data = Some (JObj fields) ->
  student_named fields "name" "email" n \/
  student_named fields "studentName" "studentEmail" n ->
  exists v,
    dict_get (name_mapping T) (KStr n) = Some v /\
    (v = DEV_NAME \/ In v (used_names T) \/ is_fallback_name v).
Proof.
  intros E A S.
  destruct (collect_identifiers_at_path _ _ _ _ _ _ _ E A)
    as [Ta [ga [Tb [gb [S1 [N S2]]]]]].
  destruct (collect_steps_ok _ _ initial_tables_ok S1) as [OKa _].
  assert (M : exists Tm, dict_mem (name_mapping Tm) (KStr n) = true /\
                         tables_ok Tm /\ collect_steps Tm Tb).
  { unfold collect_node in N.
    apply bind_Ok in N. destruct N as [T2 [E2 N]].
    apply bind_Ok in N. destruct N as [T3 [E3 N]].
    apply bind_Ok in N. destruct N as [T4 [E4 N]].
    destruct (collect_teacher_ok fields _ OKa) as [OK1 _].
    destruct (collect_step_ok _ _ OK1 (step_name_email _ _ _ _ _ E2)) as [OK2 _].
    destruct (collect_step_ok _ _ OK2 (step_name_email _ _ _ _ _ E3)) as [OK3 _].
    assert (S4 : collect_steps T3 Tb).
    { eapply collect_steps_trans; [apply rt_step; econstructor 3; exact E4|].
      apply rt_step. econstructor 4. exact N. }
    destruct S as [S | S].
    - exists T2. split; [exact (collect_name_email_mem _ _ _ _ _ _ OK1 E2 S)|].
      split; [exact OK2|].
      eapply collect_steps_trans; [apply rt_step; econstructor 2; exact E3 | exact S4].
    - exists T3. split; [exact (collect_name_email_mem _ _ _ _ _ _ OK2 E3 S)|].
      split; [exact OK3 | exact S4]. }
  destruct M as [Tm [M [OKm Sm]]].
  destruct (collect_steps_ok _ _ OKm (collect_steps_trans _ _ _ Sm S2)) as [OK [L _]].
  unfold dict_mem in M.
  destruct (dict_get (name_mapping Tm) (KStr n)) as [v|] eqn:G; [|discriminate].
  apply L in G. exists v. split; [exact G|]. eapply ok_name_origin; eauto.
Qed.

Lemma student_name_collected_witness :
  exists T v,
    document (collect_identifiers roster_example initial_tables zeros) = Some T /\
    dict_get (name_mapping T) (KStr "Robin Park") = Some v /\
    (v = DEV_NAME \/ In v (used_names T) \/ is_fallback_name v).
Proof.
  destruct (student_name_collected roster_example zeros _ _
              [Key "students"; Idx 1]
              [("name", JStr "Robin Park");
               ("email", JStr "200654321@gapps.yrdsb.ca");
               ("studentId", JStr "B2")]
              "Robin Park"
              ltac:(vm_compute; reflexivity) eq_refl
              (or_introl (conj eq_refl
                 (ex_intro _ (JStr "200654321@gapps.yrdsb.ca")
                    (ex_intro _ "200654321" (conj eq_refl eq_refl))))))
    as [v [G O]].
  eexists. exists v. split; [vm_compute; reflexivity|]. split; [exact G | exact O].
Defined.

(** ** Values of the wrong type abort the run *)

Lemma collect_node_types (f : dict string json) (T T' : tables) (g g' : rng) :
  collect_node f T g = Ok (T', g') ->
  (forall v, dict_get f "studentId" = Some v -> is_string v = true) /\
  (forall v, dict_get f "email" = Some v -> is_plain_scalar v = false).
Proof.
  unfold collect_node. intros N.
  apply bind_Ok in N. destruct N as [T2 [E2 N]].
  apply bind_Ok in N. destruct N as [T3 [E3 N]].
  apply bind_Ok in N. destruct N as [T4 [E4 N]].
  split; intros v G.
  - unfold collect_student_id in N. rewrite G in N.
    destruct v; try reflexivity; discriminate.
  - unfold collect_email in E4. rewrite G in E4.
    destruct v; try reflexivity; discriminate.
Qed.

(** A [studentId] that is not a string, or an [email] that is [null], a
    boolean or a number, in any map of the document, makes the run raise:
    no document is produced. *)
Theorem wrong_type_aborts (data : json) (p : list step)
    (fields : dict string json) (v : json) (g : rng) :
  at_path p data = Some (JObj fields) ->
  (dict_get fields "studentId" = Some v /\ is_string v = false) \/
  (dict_get fields "email" = Some v /\ is_plain_scalar v = true) ->
  exists e, anonymize_json data g = Raise e.
Proof.
  intros A H. destruct (anonymize_json data g) as [[out g']|e] eqn:E; [|eauto].
  exfalso. destruct (anonymize_json_passes _ _ _ _ E) as [T [g0 [EC _]]].
  destruct (collect_identifiers_at_path _ _ _ _ _ _ _ EC A)
    as [Ta [ga [Tb [gb [_ [N _]]]]]].
  destruct (collect_node_types _ _ _ _ _ N) as [Hid Hemail].
  destruct H as [[G B] | [G B]].
  - rewrite (Hid _ G) in B. discriminate.
  - rewrite (Hemail _ G) in B. discriminate.
Qed.

Lemma wrong_type_aborts_witness :
  exists e,
    anonymize_json
      (JObj [("students", JArr [JObj [("name", JStr "Jordan Lee");
                                      ("email", JNull)]])])
      zeros = Raise e.
Proof.
  apply (wrong_type_aborts
           (JObj [("students", JArr [JObj [("name", JStr "Jordan Lee");
                                           ("email", JNull)]])])
           [Key "students"; Idx 0]
           [("name", JStr "Jordan Lee"); ("email", JNull)] JNull zeros eq_refl).
  right. split; reflexivity.
Defined.

(** * Further properties of the rewrite pass *)

(** ** Keys and their order *)

Lemma backfilled_keys_rewritten (T : tables)
    (recur : json -> rng -> result (json * rng)) (l l' : dict string json) :
  Forall2 (entry_rewritten T recur) l l' ->
  backfilled_keys l' = backfilled_keys l.
Proof.
  intros F. unfold backfilled_keys.
  now rewrite (submission_shaped_rewritten _ _ _ _ F),
              !(entries_rewritten_mem _ _ _ _ _ F).
Qed.

(** The rebuilt map has the keys of the input map, in the same order,
    followed by [updatedAt] and [attachments] where the input map has both
    [studentEmail] and [studentName] and lacks them.  A map without both
    keeps exactly its keys. *)
Theorem rebuilt_map_keys (T : tables) (fields : dict string json)
    (g g' : rng) (out : json) :
  replace_identifiers T (JObj fields) g = Ok (out, g') ->
  wf_json (JObj fields) = true ->
  exists fields',
    out = JObj fields' /\
    dict_keys fields' = (dict_keys fields ++ backfilled_keys fields)%list /\
    (submission_shaped fields = false -> dict_keys fields' = dict_keys fields).
Proof.
  intros E W. destruct (wf_json_obj _ W) as [N _].
  destruct (replace_identifiers_entries _ _ _ _ _ E N) as [new_obj [F ->]].
  exists (repair_submission new_obj). split; [reflexivity|].
  rewrite repair_submission_keys, (entries_rewritten_keys _ _ _ _ F),
          (backfilled_keys_rewritten _ _ _ _ F).
  split; [reflexivity|]. intros NS. unfold backfilled_keys. rewrite NS.
  apply app_nil_r.
Qed.

Lemma rebuilt_map_keys_witness :
  exists fields',
    document (replace_identifiers initial_tables
                (JObj [("studentName", JStr "Jordan Lee");
                       ("score", JNum 7);
                       ("studentEmail", JStr "200123456@gapps.yrdsb.ca");
                       ("attachments", JArr [])])
                zeros) = Some (JObj fields') /\
    dict_keys fields' = ["studentName"; "score"; "studentEmail"; "attachments"; "updatedAt"].
Proof.
  destruct (rebuilt_map_keys initial_tables
              [("studentName", JStr "Jordan Lee");
               ("score", JNum 7);
               ("studentEmail", JStr "200123456@gapps.yrdsb.ca");
               ("attachments", JArr [])]
              zeros _ _ ltac:(vm_compute; reflexivity) eq_refl)
    as [fields' [Eo [K _]]].
  exists fields'. split; [|exact K]. injection Eo as <-. vm_compute. reflexivity.
Defined.

(** ** Keys that no rule names *)

Lemma str_mem_not_eqb (k x : string) (l : list string) :
  Str.mem k l = false -> In x l -> String.eqb k x = false.
Proof.
  intros M I. apply String.eqb_neq. intros ->.
  apply str_mem_In in I. congruence.
Qed.

Lemma str_mem_incl (k : string) (l1 l2 : list string) :
  incl l1 l2 -> Str.mem k l2 = false -> Str.mem k l1 = false.
Proof.
  intros I M. apply str_mem_false. intros H. apply I in H.
  apply str_mem_In in H. congruence.
Qed.

Lemma rule_keys_cover :
  incl ["email"; "teacherEmail"] RULE_KEYS /\
  incl ["email"; "studentEmail"] RULE_KEYS /\
  incl ["name"; "displayName"; "studentName"] RULE_KEYS /\
  incl URL_KEYS RULE_KEYS /\
  In "studentId" RULE_KEYS /\ In "quizData" RULE_KEYS /\
  In "courseGroupEmail" RULE_KEYS.
Proof.
  unfold RULE_KEYS, URL_KEYS, incl. simpl. intuition (subst; auto 20).
Qed.

Lemma rewrite_value_other (T : tables) (recur : json -> rng -> result (json * rng))
    (k : string) (v : json) (g : rng) :
  Str.mem k RULE_KEYS = false ->
  is_container v = false ->
  rewrite_value T recur k v g = Ok (v, g).
Proof.
  intros M C.
  destruct rule_keys_cover as [I1 [I2 [I3 [I4 [I5 [I6 I7]]]]]].
  unfold rewrite_value.
  rewrite (str_mem_incl _ _ _ I1 M), (str_mem_incl _ _ _ I2 M),
          (str_mem_incl _ _ _ I3 M), (str_mem_incl _ _ _ I4 M),
          (str_mem_not_eqb _ _ _ M I5), (str_mem_not_eqb _ _ _ M I6),
          (str_mem_not_eqb _ _ _ M I7), C.
  reflexivity.
Qed.

Lemma grade_fixed_scalar (v v' : json) :
  grade_fixed v v' -> is_container v = false -> v' = v.
Proof.
  intros [-> | [grade [-> _]]] C; [reflexivity | discriminate].
Qed.



(** ** URLs *)





(** ** Course group emails *)





(** ** The question count of a quiz *)

Lemma dict_get_default_other {V : Type} (d : dict string V) (k k' : string) (v : V) :
  k <> k' -> dict_get (dict_default d k v) k' = dict_get d k'.
Proof.
  intros N. unfold dict_default. destruct (dict_mem d k); [reflexivity|].
  now apply dict_get_set_neq.
Qed.

Lemma dict_mem_default_other {V : Type} (d : dict string V) (k k' : string) (v : V) :
  k <> k' -> dict_mem (dict_default d k v) k' = dict_mem d k'.
Proof.
  intros N. unfold dict_mem. now rewrite dict_get_default_other.
Qed.




(** ** The timestamp of a submission *)




(** ** Emails and names *)

Ltac eval_closed_tests :=
  repeat match goal with
         | |- context [Str.mem ?k ?l] =>
             let b := eval vm_compute in (Str.mem k l) in
             change (Str.mem k l) with b
         end.

Lemma rewrite_value_email_kept (T : tables)
    (recur : json -> rng -> result (json * rng)) (k s : string) (g : rng) :
  In k ["email"; "studentEmail"] ->
  Str.isdigit (Str.split_head "@" s) = false ->
  (k = "email" -> s <> TEACHER_EMAIL) ->
  rewrite_value T recur k (JStr s) g = Ok (JStr s, g).
Proof.
  intros I D NT.
  assert (S0 : Str.mem k ["email"; "teacherEmail"] && is_str (JStr s) TEACHER_EMAIL = false).
  { destruct I as [<- | [<- | []]]; [|reflexivity].
    cbn [is_str]. rewrite (proj2 (String.eqb_neq s TEACHER_EMAIL) (NT eq_refl)).
    apply andb_false_r. }
  unfold rewrite_value. rewrite S0. cbn [py_str py_local_part].
  destruct (Str.mem k ["email"; "studentEmail"] && Str.contains STUDENT_DOMAIN s).
  - cbn [bind]. now rewrite D.
  - destruct I as [<- | [<- | []]]; reflexivity.
Qed.

(** An [email] or [studentEmail] string whose part before the first [@] is
    not all digits is left unchanged, the teacher's address under [email]
    apart. *)
Theorem other_emails_kept (T : tables) (fields : dict string json)
    (g g' : rng) (out : json) (k s : string) :
  replace_identifiers T (JObj fields) g = Ok (out, g') ->
  wf_json (JObj fields) = true ->
  In k ["email"; "studentEmail"] ->
  dict_get fields k = Some (JStr s) ->
  Str.isdigit (Str.split_head "@" s) = false ->
  (k = "email" -> s <> TEACHER_EMAIL) ->
  exists fields', out = JObj fields' /\ dict_get fields' k = Some (JStr s).
Proof.
  intros E W I G D NT. destruct (wf_json_obj _ W) as [N _].
  destruct (replace_identifiers_get _ _ _ _ _ _ _ E N G)
    as [fields' [v0 [v' [g1 [g2 [-> [RV [G' [GF _]]]]]]]]].
  rewrite (rewrite_value_email_kept _ _ _ _ _ I D NT) in RV. injection RV as <- _.
  rewrite (grade_fixed_scalar _ _ GF eq_refl) in G'. eauto.
Qed.

Lemma other_emails_kept_witness :
  exists fields',
    document (replace_identifiers initial_tables
                (JObj [("name", JStr "Pat Office");
                       ("email", JStr "pat.office@gapps.yrdsb.ca")])
                zeros) = Some (JObj fields') /\
    dict_get fields' "email" = Some (JStr "pat.office@gapps.yrdsb.ca").
Proof.
  destruct (other_emails_kept initial_tables
              [("name", JStr "Pat Office");
               ("email", JStr "pat.office@gapps.yrdsb.ca")]
              zeros _ _ "email" "pat.office@gapps.yrdsb.ca"
              ltac:(vm_compute; reflexivity) eq_refl (or_introl eq_refl)
              eq_refl eq_refl ltac:(discriminate))
    as [fields' [Eo G]].
  exists fields'. split; [injection Eo as <-; vm_compute; reflexivity | exact G].
Defined.

Lemma rewrite_value_teacher_email (T : tables)
    (recur : json -> rng -> result (json * rng)) (k : string) (g : rng) :
  In k ["email"; "teacherEmail"] ->
  rewrite_value T recur k (JStr TEACHER_EMAIL) g = Ok (JStr DEV_EMAIL, g).
Proof.
  intros [<- | [<- | []]]; reflexivity.
Qed.

Lemma rewrite_value_name (T : tables)
    (recur : json -> rng -> result (json * rng)) (k n : string) (g : rng) :
  In k ["name"; "displayName"; "studentName"] ->
  rewrite_value T recur k (JStr n) g =
  Ok (JStr (match dict_get (name_mapping T) (KStr n) with
            | Some fake_name => fake_name
            | None => n
            end), g).
Proof.
  intros [<- | [<- | [<- | []]]]; unfold rewrite_value; eval_closed_tests;
    cbn [andb lookup_name]; destruct (dict_get (name_mapping T) (KStr n));
    reflexivity.
Qed.

(** The teacher is always replaced: at every map node that the rewriter
    rebuilds, the teacher's address under [email] or [teacherEmail] becomes
    the placeholder address, and the teacher's name or the earlier
    placeholder ["Test Teacher"] under [name], [displayName] or
    [studentName] becomes the placeholder name. *)
Theorem teacher_replaced (data out : json) (g g' : rng) (p : list step)
    (fields : dict string json) :
  anonymize_json data g = Ok (out, g') ->
  wf_json data = true ->
  rebuilt p data = true ->
  at_path p data = Some (JObj fields) ->
  exists fields',
    at_path p out = Some (JObj fields') /\
    (forall k, In k ["email"; "teacherEmail"] ->
               dict_get fields k = Some (JStr TEACHER_EMAIL) ->
               dict_get fields' k = Some (JStr DEV_EMAIL)) /\
    (forall k n, In k ["name"; "displayName"; "studentName"] ->
                 In n [TEACHER_NAME; "Test Teacher"] ->
                 dict_get fields k = Some (JStr n) ->
                 dict_get fields' k = Some (JStr DEV_NAME)).
Proof.
  intros E W R A.
  destruct (anonymize_json_passes _ _ _ _ E) as [T [g0 [EC ER]]].
  destruct (replace_identifiers_at_path _ _ _ _ _ _ _ ER W R A)
    as [g1 [g2 [fields0 [fields' [EN [A' [GF N]]]]]]].
  exists fields'. split; [exact A'|].
  assert (Entry : forall k v,
             dict_get fields k = Some v -> k <> "grade" -> k <> "gradedBy" ->
             exists v' h1 h2,
               rewrite_value T (replace_identifiers T) k v h1 = Ok (v', h2) /\
               dict_get fields' k = Some v').
  { intros k v G N1 N2.
    destruct (replace_identifiers_get _ _ _ _ _ _ _ EN N G)
      as [f0 [v0 [v' [h1 [h2 [[= <-] [RV [G0 [_ Same]]]]]]]]].
    rewrite (Same N1) in G0. exists v0, h1, h2. split; [exact RV|].
    now rewrite (grade_fixed_get _ _ _ GF N2). }
  split.
  - intros k I G.
    destruct (Entry _ _ G) as [v' [h1 [h2 [RV G']]]];
      try (destruct I as [<- | [<- | []]]; discriminate).
    rewrite (rewrite_value_teacher_email _ _ _ _ I) in RV. now injection RV as <- _.
  - intros k n I In_n G.
    destruct (Entry _ _ G) as [v' [h1 [h2 [RV G']]]];
      try (destruct I as [<- | [<- | [<- | []]]]; discriminate).
    rewrite (rewrite_value_name _ _ _ _ _ I) in RV. injection RV as <- _.
    rewrite G'. do 2 f_equal.
    apply collect_identifiers_steps in EC.
    destruct (collect_steps_ok _ _ initial_tables_ok EC) as [_ [L _]].
    assert (G0 : dict_get (name_mapping initial_tables) (KStr n) = Some DEV_NAME)
      by (destruct In_n as [<- | [<- | []]]; reflexivity).
    now rewrite (L _ _ G0).
Qed.

Lemma teacher_replaced_witness :
  exists fields',
    option_map (at_path [Key "courses"; Idx 0])
      (document (anonymize_json
         (JObj [("courses",
                 JArr [JObj [("teacherEmail", JStr "stewart.chan@gapps.yrdsb.ca");
                             ("displayName", JStr "Stewart Chan")]])])
         zeros)) = Some (Some (JObj fields')) /\
    dict_get fields' "teacherEmail" = Some (JStr "dev.codepet@gmail.com") /\
    dict_get fields' "displayName" = Some (JStr "Dev CodePet").
Proof.
  destruct (teacher_replaced
              (JObj [("courses",
                      JArr [JObj [("teacherEmail", JStr "stewart.chan@gapps.yrdsb.ca");
                                  ("displayName", JStr "Stewart Chan")]])])
              _ zeros _ [Key "courses"; Idx 0] _
              ltac:(vm_compute; reflexivity) eq_refl eq_refl eq_refl)
    as [fields' [A [He Hn]]].
  exists fields'. split; [vm_compute document; cbn [option_map]; now rewrite A|].
  split.
  - apply He; [simpl; auto | reflexivity].
  - apply (Hn "displayName" "Stewart Chan"); [simpl; auto | simpl; auto | reflexivity].
Defined.

(** One run replaces names consistently: there is one function [name_of]
    such that, at every map node that the rewriter rebuilds, a string [n]
    under [name], [displayName] or [studentName] comes out as [name_of n]. *)
Theorem names_replaced_consistently (data out : json) (g g' : rng) :
  anonymize_json data g = Ok (out, g') ->
  wf_json data = true ->
  exists name_of : string -> string,
    forall (p : list step) (fields : dict string json) (k n : string),
      rebuilt p data = true ->
      at_path p data = Some (JObj fields) ->
      In k ["name"; "displayName"; "studentName"] ->
      dict_get fields k = Some (JStr n) ->
      exists fields',
        at_path p out = Some (JObj fields') /\
        dict_get fields' k = Some (JStr (name_of n)).
Proof.
  intros E W.
  destruct (anonymize_json_passes _ _ _ _ E) as [T [g0 [EC ER]]].
  exists (fun n => match dict_get (name_mapping T) (KStr n) with
                   | Some fake_name => fake_name
                   | None => n
                   end).
  intros p fields k n R A I G.
  destruct (anonymize_json_entry _ _ _ _ _ _ _ _ E W R A G)
    as [T0 [g1 [fields' [v' [h1 [h2 [EC' [A' [RV G']]]]]]]]];
    try (destruct I as [<- | [<- | [<- | []]]]; discriminate).
  rewrite EC in EC'. injection EC' as <- <-.
  rewrite (rewrite_value_name _ _ _ _ _ I) in RV. injection RV as <- _. eauto.
Qed.

Lemma names_replaced_consistently_witness :
  exists name_of : string -> string,
    forall (p : list step) (fields : dict string json) (k n : string),
      rebuilt p roster_example = true ->
      at_path p roster_example = Some (JObj fields) ->
      In k ["name"; "displayName"; "studentName"] ->
      dict_get fields k = Some (JStr n) ->
      exists fields',
        option_map (at_path p) (document (anonymize_json roster_example zeros))
          = Some (Some (JObj fields')) /\
        dict_get fields' k = Some (JStr (name_of n)).
Proof.
  destruct (names_replaced_consistently roster_example _ zeros _
              ltac:(vm_compute; reflexivity) eq_refl) as [name_of H].
  exists name_of. intros p fields k n R A I G.
  destruct (H p fields k n R A I G) as [fields' [A' G']].
  exists fields'. split; [|exact G'].
  vm_compute document. cbn [option_map]. now rewrite A'.
Defined.

(** * Documents on which no rule raises *)

Lemma entry_typed_spec (k : string) (v : json) :
  entry_typed k v = true ->
  (Str.mem k ["email"; "studentEmail"] = true -> is_string v = true) /\
  (String.eqb k "studentId" = true -> is_string v = true) /\
  (String.eqb k "courseGroupEmail" = true -> is_string v = true) /\
  (Str.mem k ["name"; "studentName"] = true -> is_container v = false) /\
  (String.eqb k "quizData" = true ->
   forall quiz, v = JObj quiz -> quiz_typed quiz = true).
Proof.
  unfold entry_typed. rewrite !andb_true_iff.
  intros [[[[H1 H2] H3] H4] H5]. repeat split.
  - intros M. now rewrite M in H1.
  - intros M. now rewrite M in H2.
  - intros M. now rewrite M in H3.
  - intros M. rewrite M in H4. now apply negb_true_iff in H4.
  - intros M quiz ->. now rewrite M in H5.
Qed.

Lemma is_string_JStr (v : json) : is_string v = true -> exists s, v = JStr s.
Proof. destruct v; try discriminate. eauto. Qed.

Lemma well_typed_obj (fields : dict string json) :
  well_typed (JObj fields) = true ->
  Forall (fun kv => entry_typed (fst kv) (snd kv) = true /\
                    well_typed (snd kv) = true) fields.
Proof.
  cbn [well_typed]. induction fields as [|[k x] l IH]; [constructor|].
  rewrite !andb_true_iff. intros [[Et Wx] A]. constructor; auto.
Qed.

Lemma well_typed_arr (items : list json) :
  well_typed (JArr items) = true ->
  Forall (fun x => well_typed x = true) items.
Proof.
  cbn [well_typed]. induction items as [|x l IH]; [constructor|].
  rewrite andb_true_iff. intros [Wx A]. constructor; auto.
Qed.

Lemma typed_get (fields : dict string json) (k : string) (v : json) :
  Forall (fun kv => entry_typed (fst kv) (snd kv) = true /\
                    well_typed (snd kv) = true) fields ->
  dict_get fields k = Some v -> entry_typed k v = true.
Proof.
  rewrite Forall_forall. intros F G. apply dict_get_In in G.
  apply (F _ G).
Qed.

(** ** The collection pass *)

Lemma student_number_of_string (s : string) :
  exists r, student_number_of (JStr s) = Ok r.
Proof.
  unfold student_number_of. cbn [domain_in bind].
  destruct (Str.contains STUDENT_DOMAIN s); cbn [py_local_part bind]; eauto.
Qed.

Lemma record_name_total (name : json) (T : tables) :
  is_container name = false -> exists T', record_name name T = Ok T'.
Proof.
  intros C. unfold record_name.
  assert (H : exists key, py_hash name = Ok key)
    by (destruct name; try discriminate; cbn; eauto).
  destruct H as [key ->]. cbn [bind].
  destruct (negb _ && negb _); [|eauto].
  destruct (generate_fake_name _ _). eauto.
Qed.

Lemma collect_name_email_total (name_key email_key : string)
    (f : dict string json) (T : tables) :
  (forall v, dict_get f name_key = Some v -> is_container v = false) ->
  (forall v, dict_get f email_key = Some v -> is_string v = true) ->
  exists T', collect_name_email name_key email_key f T = Ok T'.
Proof.
  intros Hn He. unfold collect_name_email.
  destruct (dict_get f name_key) as [name|]; [|eauto].
  destruct (dict_get f email_key) as [email|]; [|eauto].
  destruct (is_string_JStr _ (He _ eq_refl)) as [s ->].
  unfold collect_student. destruct (student_number_of_string s) as [r ->].
  cbn [bind]. destruct r as [sn|]; [|eauto].
  destruct (record_name_total name T (Hn _ eq_refl)) as [T1 ->]. cbn [bind]. eauto.
Qed.

Lemma collect_node_total (f : dict string json) (T : tables) (g : rng) :
  Forall (fun kv => entry_typed (fst kv) (snd kv) = true /\
                    well_typed (snd kv) = true) f ->
  exists T' g', collect_node f T g = Ok (T', g').
Proof.
  intros F.
  assert (Str_of : forall k v,
             dict_get f k = Some v ->
             In k ["email"; "studentEmail"; "studentId"] -> is_string v = true).
  { intros k v G I. destruct (entry_typed_spec _ _ (typed_get _ _ _ F G)) as [H1 [H2 _]].
    destruct I as [<- | [<- | [<- | []]]]; auto. }
  assert (Name_of : forall k v,
             dict_get f k = Some v ->
             In k ["name"; "studentName"] -> is_container v = false).
  { intros k v G I.
    destruct (entry_typed_spec _ _ (typed_get _ _ _ F G)) as [_ [_ [_ [H4 _]]]].
    destruct I as [<- | [<- | []]]; auto. }
  unfold collect_node.
  destruct (collect_name_email_total "name" "email" f (collect_teacher f T))
    as [T2 ->];
    [intros v G; apply (Name_of _ _ G); simpl; auto
    |intros v G; apply (Str_of _ _ G); simpl; auto|].
  cbn [bind].
  destruct (collect_name_email_total "studentName" "studentEmail" f T2) as [T3 ->];
    [intros v G; apply (Name_of _ _ G); simpl; auto
    |intros v G; apply (Str_of _ _ G); simpl; auto|].
  cbn [bind].
  assert (E4 : exists T4, collect_email f T3 = Ok T4).
  { unfold collect_email. destruct (dict_get f "email") as [email|] eqn:G; [|eauto].
    destruct (is_string_JStr _ (Str_of _ _ G ltac:(simpl; auto))) as [s ->].
    destruct (student_number_of_string s) as [r ->]. cbn [bind].
    destruct r; eauto. }
  destruct E4 as [T4 ->]. cbn [bind].
  unfold collect_student_id. destruct (dict_get f "studentId") as [sid|] eqn:G; [|eauto].
  destruct (is_string_JStr _ (Str_of _ _ G ltac:(simpl; auto))) as [s ->].
  cbn [py_hash bind]. destruct (negb _); [|eauto].
  destruct (random_digits _ _). eauto.
Qed.

Lemma collect_values_total (visit : json -> tables -> rng -> result (tables * rng))
    (l : dict string json) :
  Forall (fun kv => forall T g, exists T' g', visit (snd kv) T g = Ok (T', g')) l ->
  forall T g, exists T' g', collect_values visit l T g = Ok (T', g').
Proof.
  induction 1 as [|[k x] l Hx _ IH]; intros T g; simpl; [eauto|].
  cbn [snd] in Hx. destruct (Hx T g) as [T1 [g1 ->]]. cbn [bind]. apply IH.
Qed.

Lemma collect_items_total (visit : json -> tables -> rng -> result (tables * rng))
    (l : list json) :
  Forall (fun x => forall T g, exists T' g', visit x T g = Ok (T', g')) l ->
  forall T g, exists T' g', collect_items visit l T g = Ok (T', g').
Proof.
  induction 1 as [|x l Hx _ IH]; intros T g; simpl; [eauto|].
  destruct (Hx T g) as [T1 [g1 ->]]. cbn [bind]. apply IH.
Qed.

Lemma collect_identifiers_total (d : json) :
  well_typed d = true ->
  forall T g, exists T' g', collect_identifiers d T g = Ok (T', g').
Proof.
  induction d as [| | | |items IH|fields IH] using json_ind; intros W T g;
    try (simpl; eauto; fail).
  - simpl. apply collect_items_total.
    pose proof (well_typed_arr _ W) as F. rewrite Forall_forall in *.
    intros x I. auto.
  - simpl. pose proof (well_typed_obj _ W) as F.
    destruct (collect_node_total fields T g F) as [T1 [g1 ->]]. cbn [bind].
    apply collect_values_total. rewrite Forall_forall in *.
    intros kv I. apply (IH _ I). apply (F _ I).
Qed.

(** ** The rewrite pass *)

Lemma fix_quiz_data_total (quiz : dict string json) (g : rng) :
  quiz_typed quiz = true -> exists r, fix_quiz_data quiz g = Ok r.
Proof.
  unfold quiz_typed, fix_quiz_data. intros Q.
  set (s1 := if negb (dict_mem quiz "formId") then _ else (quiz, g)).
  assert (H1 : dict_mem (fst s1) "totalQuestions" = dict_mem quiz "totalQuestions" /\
               dict_get (fst s1) "questions" = dict_get quiz "questions").
  { subst s1. destruct (dict_mem quiz "formId"); cbn [negb]; [auto|].
    destruct (randint 100000 999999 g) as [n g1]. cbn [fst].
    unfold dict_mem. now rewrite !dict_get_set_neq by discriminate. }
  destruct s1 as [q1 g1]. cbn [fst] in H1. destruct H1 as [M1 Q1].
  rewrite !dict_mem_default_other, M1 by discriminate.
  rewrite !dict_get_default_other, Q1 by discriminate.
  destruct (dict_mem quiz "totalQuestions"); cbn [negb bind]; [eauto|].
  cbn [orb] in Q.
  destruct (dict_get quiz "questions") as [[| | | s | l | o]|];
    try discriminate; cbn [py_len bind]; eauto.
Qed.

Lemma rewrite_value_total (T : tables) (recur : json -> rng -> result (json * rng))
    (k : string) (v : json) :
  entry_typed k v = true ->
  (forall g, exists r, recur v g = Ok r) ->
  forall g, exists r, rewrite_value T recur k v g = Ok r.
Proof.
  intros Et Hr g. destruct (entry_typed_spec _ _ Et) as [H1 [H2 [H3 [H4 H5]]]].
  unfold rewrite_value.
  destruct (Str.mem k ["email"; "teacherEmail"] && is_str v TEACHER_EMAIL); [eauto|].
  destruct (Str.mem k ["email"; "studentEmail"]) eqn:M2; cbn [andb].
  { destruct (is_string_JStr _ (H1 eq_refl)) as [s ->]. cbn [py_str py_local_part].
    destruct (Str.contains STUDENT_DOMAIN s).
    - cbn [bind]. destruct (Str.isdigit _); [|eauto].
      destruct (dict_get _ _); eauto.
    - destruct (if Str.mem k ["name"; "displayName"; "studentName"] then _ else _);
        [eauto|].
      destruct (String.eqb k "studentId"); cbn [lookup_id py_hash bind];
        [destruct (dict_get _ _); [eauto|]|];
        (destruct (Str.mem k URL_KEYS); [eauto|]);
        (destruct (String.eqb k "quizData"));
        (destruct (String.eqb k "courseGroupEmail")); cbn [is_container]; eauto. }
  destruct (if Str.mem k ["name"; "displayName"; "studentName"] then _ else _);
    [eauto|].
  assert (Rest : exists r,
             (if String.eqb k "courseGroupEmail"
              then match v with
                   | JStr s =>
                       Ok (JStr (Str.replace "@gapps.yrdsb.ca" "@example.com" s), g)
                   | _ => Raise AttributeError
                   end
              else if is_container v then recur v g else Ok (v, g)) = Ok r).
  { destruct (String.eqb k "courseGroupEmail").
    - destruct (is_string_JStr _ (H3 eq_refl)) as [s ->]. eauto.
    - destruct (is_container v); [apply Hr | eauto]. }
  assert (After_id : exists r,
             (if Str.mem k URL_KEYS then Ok (rewrite_url v, g)
              else match (if String.eqb k "quizData" then v else JNull) with
                   | JObj quiz => fix_quiz_data quiz g
                   | _ =>
                       if String.eqb k "courseGroupEmail"
                       then match v with
                            | JStr s =>
                                Ok (JStr (Str.replace "@gapps.yrdsb.ca" "@example.com" s), g)
                            | _ => Raise AttributeError
                            end
                       else if is_container v then recur v g else Ok (v, g)
                   end) = Ok r).
  { destruct (Str.mem k URL_KEYS); [eauto|].
    destruct (String.eqb k "quizData") eqn:Q; [|exact Rest].
    destruct v as [| | | | |quiz]; try exact Rest.
    apply fix_quiz_data_total. now apply (H5 eq_refl). }
  destruct (String.eqb k "studentId") eqn:Sid.
  - destruct (is_string_JStr _ (H2 eq_refl)) as [s ->]. cbn [lookup_id py_hash bind].
    destruct (dict_get _ s); [eauto | exact After_id].
  - cbn [bind]. exact After_id.
Qed.

Lemma rewrite_entries_total (T : tables) (recur : json -> rng -> result (json * rng))
    (l : dict string json) :
  Forall (fun kv => entry_typed (fst kv) (snd kv) = true /\
                    forall g, exists r, recur (snd kv) g = Ok r) l ->
  forall acc g, exists r, rewrite_entries T recur l acc g = Ok r.
Proof.
  induction 1 as [|[k x] l [Et Hx] _ IH]; intros acc g; simpl; [eauto|].
  cbn [fst snd] in Et, Hx.
  destruct (rewrite_value_total T recur k x Et Hx g) as [[v g1] ->]. cbn [bind].
  apply IH.
Qed.

Lemma rewrite_items_total (recur : json -> rng -> result (json * rng))
    (l : list json) :
  Forall (fun x => forall g, exists r, recur x g = Ok r) l ->
  forall g, exists r, rewrite_items recur l g = Ok r.
Proof.
  induction 1 as [|x l Hx _ IH]; intros g; simpl; [eauto|].
  destruct (Hx g) as [[v g1] ->]. cbn [bind].
  destruct (IH g1) as [[vs g2] ->]. cbn [bind]. eauto.
Qed.

Lemma replace_identifiers_total (T : tables) (d : json) :
  well_typed d = true ->
  forall g, exists r, replace_identifiers T d g = Ok r.
Proof.
  induction d as [| | | |items IH|fields IH] using json_ind; intros W g;
    try (simpl; eauto; fail).
  - simpl. pose proof (well_typed_arr _ W) as F.
    destruct (rewrite_items_total (replace_identifiers T) items) with (g := g)
      as [[vs g1] ->]; [|cbn [bind]; eauto].
    rewrite Forall_forall in *. intros x I. auto.
  - simpl. pose proof (well_typed_obj _ W) as F.
    destruct (rewrite_entries_total T (replace_identifiers T) fields)
      with (acc := @nil (string * json)) (g := g) as [[new_obj g1] ->];
      [|cbn [bind]; eauto].
    rewrite Forall_forall in *. intros kv I. destruct (F _ I) as [Et Wx].
    split; [exact Et | apply (IH _ I Wx)].
Qed.

(** In the model the two passes return on such a document. *)
Lemma anonymize_json_total (data : json) (g : rng) :
  well_typed data = true ->
  exists out g', anonymize_json data g = Ok (out, g').
Proof.
  intros W. unfold anonymize_json.
  destruct (collect_identifiers_total data W initial_tables g) as [T [g1 ->]].
  cbn [bind].
  destruct (replace_identifiers_total T data W g1) as [[out g'] ->]. eauto.
Qed.

(** On a document where every field that a rule inspects has a type the rule
    can handle, no rule raises: the run ends neither in [TypeError] nor in
    [AttributeError], whatever the random draws. *)
Theorem no_type_error_on_well_typed (data : json) (g : rng) :
  well_typed data = true ->
  anonymize_json data g <> Raise TypeError /\
  anonymize_json data g <> Raise AttributeError.
Proof.
  intros W. destruct (anonymize_json_total data g W) as [out [g' ->]].
  split; discriminate.
Qed.

Lemma no_type_error_on_well_typed_witness :
  anonymize_json roster_example counting <> Raise TypeError /\
  anonymize_json roster_example counting <> Raise AttributeError.
Proof.
  apply (no_type_error_on_well_typed roster_example counting). reflexivity.
Defined.

(** * Running the pipeline twice *)

(** ** The output is a well-formed document *)

Lemma wf_json_obj_iff (fields : dict string json) :
  wf_json (JObj fields) = true <->
  NoDup (dict_keys fields) /\ Forall (fun kv => wf_json (snd kv) = true) fields.
Proof.
  cbn [wf_json]. rewrite andb_true_iff, distinct_keys_NoDup.
  assert (A : (fix all (l : dict string json) : bool :=
                 match l with
                 | [] => true
                 | (_, x) :: l' => wf_json x && all l'
                 end) fields = true <->
              Forall (fun kv => wf_json (snd kv) = true) fields).
  { induction fields as [|[k x] l IH]; [split; [constructor | reflexivity]|].
    rewrite andb_true_iff, IH. split.
    - intros [Wx F]. constructor; auto.
    - intros F. inversion F; subst. auto. }
  now rewrite A.
Qed.

Lemma wf_json_arr_iff (items : list json) :
  wf_json (JArr items) = true <-> Forall (fun x => wf_json x = true) items.
Proof.
  cbn [wf_json]. induction items as [|x l IH]; [split; [constructor | reflexivity]|].
  rewrite andb_true_iff, IH. split.
  - intros [Wx F]. constructor; auto.
  - intros F. inversion F; subst. auto.
Qed.

Lemma wf_json_scalar (v : json) : is_container v = false -> wf_json v = true.
Proof. destruct v; try discriminate; reflexivity. Qed.

Lemma wf_dict_set (d : dict string json) (k : string) (v : json) :
  wf_json (JObj d) = true -> wf_json v = true ->
  wf_json (JObj (dict_set d k v)) = true.
Proof.
  rewrite !wf_json_obj_iff. intros [N F] Wv. split; [now apply dict_set_NoDup|].
  clear N. induction d as [|[k0 x0] l IH]; simpl.
  - constructor; [exact Wv | constructor].
  - inversion F as [|? ? W0 F']; subst.
    destruct (String.eqb k0 k); constructor; auto.
Qed.

Lemma wf_dict_default (d : dict string json) (k : string) (v : json) :
  wf_json (JObj d) = true -> wf_json v = true ->
  wf_json (JObj (dict_default d k v)) = true.
Proof.
  intros W Wv. unfold dict_default. destruct (dict_mem d k); [exact W|].
  now apply wf_dict_set.
Qed.

Lemma fix_quiz_data_wf (quiz : dict string json) (g g' : rng) (out : json) :
  wf_json (JObj quiz) = true ->
  fix_quiz_data quiz g = Ok (out, g') ->
  wf_json out = true.
Proof.
  intros W. unfold fix_quiz_data.
  destruct (negb (dict_mem quiz "formId"));
    [destruct (randint 100000 999999 g) as [n0 g1]|];
    (intros E; apply bind_Ok in E; destruct E as [q7 [E7 E]]; injection E as <- <-;
     assert (W7 : wf_json (JObj q7) = true);
     [ revert E7; destruct (negb _); intros E7;
       [ apply bind_Ok in E7; destruct E7 as [n [_ E7]]; injection E7 as <-;
         apply wf_dict_set; [|reflexivity]
       | injection E7 as <- ];
       repeat (apply wf_dict_default; [|reflexivity]);
       try (apply wf_dict_set; [|reflexivity]); exact W
     | repeat (apply wf_dict_default; [|reflexivity]); exact W7 ]).
Qed.

Lemma rewrite_value_wf (T : tables) (recur : json -> rng -> result (json * rng))
    (k : string) (v v0 : json) (g g' : rng) :
  wf_json v = true ->
  (forall h r, recur v h = Ok r -> wf_json (fst r) = true) ->
  rewrite_value T recur k v g = Ok (v0, g') ->
  wf_json v0 = true.
Proof.
  intros W Hr RV.
  destruct (rewrite_value_cases _ _ _ _ _ _ _ RV)
    as [C | [-> | [[-> [quiz [d [-> [-> X]]]]] | RX]]].
  - now apply wf_json_scalar.
  - exact W.
  - rewrite rewrite_value_quiz in RV. eapply fix_quiz_data_wf; eauto.
  - apply (Hr _ _ RX).
Qed.

Lemma rewrite_entries_wf (T : tables) (recur : json -> rng -> result (json * rng))
    (l : dict string json) :
  Forall (fun kv => wf_json (snd kv) = true /\
                    forall h r, recur (snd kv) h = Ok r -> wf_json (fst r) = true) l ->
  forall acc g out g',
    wf_json (JObj acc) = true ->
    rewrite_entries T recur l acc g = Ok (out, g') ->
    wf_json (JObj out) = true.
Proof.
  induction 1 as [|[k x] l [Wx Hx] _ IH]; intros acc g out g' Wa E; simpl in E.
  - now injection E as <- <-.
  - cbn [snd] in Wx, Hx. apply bind_Ok in E. destruct E as [[v g1] [RV E]].
    eapply IH; [|exact E]. apply wf_dict_set; [exact Wa|].
    exact (rewrite_value_wf T recur k x v g g1 Wx Hx RV).
Qed.

Lemma repair_submission_wf (obj : dict string json) :
  wf_json (JObj obj) = true -> wf_json (JObj (repair_submission obj)) = true.
Proof.
  intros W. unfold repair_submission.
  destruct (dict_mem obj "studentEmail" && dict_mem obj "studentName"); [|exact W].
  assert (Child : forall d k v, wf_json (JObj d) = true ->
                                dict_get d k = Some v -> wf_json v = true).
  { intros d k v Wd G. apply (proj2 (wf_json_obj _ Wd) k v G). }
  cbv zeta.
  match goal with
  | |- context [negb (dict_mem ?o "attachments")] =>
      assert (W1 : wf_json (JObj o) = true);
      [|revert W1; generalize o; intros o1 W1]
  end.
  { destruct (negb (dict_mem obj "updatedAt")); [|exact W].
    apply wf_dict_set; [exact W|].
    destruct (dict_get obj "submittedAt") as [v|] eqn:G; [|reflexivity].
    eapply Child; eauto. }
  match goal with
  | |- context [dict_get ?o "grade"] =>
      assert (W2 : wf_json (JObj o) = true);
      [|revert W2; generalize o; intros o2 W2]
  end.
  { destruct (negb (dict_mem o1 "attachments")); [|exact W1].
    now apply wf_dict_set. }
  destruct (dict_get o2 "grade") as [[| | | | |grade]|] eqn:Gg; try exact W2.
  destruct (dict_get grade "gradedBy") as [graded_by|]; [|exact W2].
  destruct (is_str graded_by "teacher"); [|exact W2].
  apply wf_dict_set; [exact W2|]. apply wf_dict_set; [|reflexivity].
  eapply Child; eauto.
Qed.

Lemma replace_identifiers_wf (T : tables) (d : json) :
  wf_json d = true ->
  forall g r, replace_identifiers T d g = Ok r -> wf_json (fst r) = true.
Proof.
  induction d as [| | | |items IH|fields IH] using json_ind; intros W g [o g'] E;
    try (simpl in E; injection E as <- <-; reflexivity).
  - destruct (replace_identifiers_arr _ _ _ _ _ E) as [new_items [RI ->]].
    cbn [fst]. apply wf_json_arr_iff. apply wf_json_arr_iff in W.
    clear E. revert new_items g g' RI.
    induction items as [|x l IHl]; intros new_items g g' RI; simpl in RI.
    + injection RI as <- <-. constructor.
    + apply bind_Ok in RI. destruct RI as [[v g1] [RX RI]].
      apply bind_Ok in RI. destruct RI as [[vs g2] [RL RI]]. injection RI as <- <-.
      inversion IH as [|? ? Hx IH']; subst. inversion W as [|? ? Wx W']; subst.
      constructor; [apply (Hx Wx _ _ RX) | eapply IHl; eauto].
  - destruct (replace_identifiers_obj _ _ _ _ _ E) as [new_obj [RE ->]].
    cbn [fst]. apply repair_submission_wf.
    refine (rewrite_entries_wf T (replace_identifiers T) fields _ [] g new_obj g'
              eq_refl RE).
    apply wf_json_obj_iff in W. destruct W as [_ F].
    rewrite Forall_forall in *. intros kv I. split; [apply (F _ I)|].
    intros h r. apply (IH _ I (F _ I)).
Qed.

(** ** A rebuilt path is rebuilt again *)

Lemma rebuilt_grade_fixed (p : list step) (v0 v' : json) (fields : dict string json) :
  grade_fixed v0 v' ->
  at_path p v0 = Some (JObj fields) ->
  rebuilt p v0 = true ->
  rebuilt p v' = true.
Proof.
  intros [-> | [grade [-> [Gb ->]]]] A R; [exact R|].
  destruct p as [|[k | i] p]; [reflexivity | | discriminate].
  simpl in *. destruct (String.eqb "gradedBy" k) eqn:E.
  - apply String.eqb_eq in E. subst k. rewrite Gb in A.
    destruct p as [|s p]; simpl in A; [discriminate | destruct s; discriminate].
  - apply String.eqb_neq in E. now rewrite dict_get_set_neq.
Qed.

Lemma replace_identifiers_rebuilt (T : tables) (p : list step) :
  forall (d o : json) (g g' : rng) (fields : dict string json),
    replace_identifiers T d g = Ok (o, g') ->
    wf_json d = true ->
    rebuilt p d = true ->
    at_path p d = Some (JObj fields) ->
    rebuilt p o = true.
Proof.
  induction p as [|s p IH]; intros d o g g' fields E W R A; [reflexivity|].
  simpl in A, R. destruct (child s d) as [x|] eqn:C; [|discriminate].
  apply andb_true_iff in R. destruct R as [NC R].
  pose proof (wf_json_child _ _ _ W C) as Wx.
  pose proof (at_path_container _ _ _ A) as Cx.
  destruct s as [k | i], d as [| | | |items|dfields]; simpl in C; try discriminate.
  - apply negb_true_iff in NC. destruct (wf_json_obj _ W) as [N _].
    destruct (replace_identifiers_get _ _ _ _ _ _ _ E N C)
      as [fields' [v0 [v' [g1 [g2 [-> [RV [G' [GF _]]]]]]]]].
    apply rewrite_value_container in RV; auto.
    destruct (replace_identifiers_at_path _ _ _ _ _ _ _ RV Wx R A)
      as [h1 [h2 [f0 [f' [_ [A0 _]]]]]].
    pose proof (IH _ _ _ _ _ RV Wx R A) as R0.
    simpl. rewrite G'. apply andb_true_iff. split.
    + apply negb_true_iff. unfold copied_entry in *.
      apply orb_false_iff in NC. destruct NC as [NU NQ]. rewrite NU. cbn [orb].
      destruct (String.eqb k "quizData"); [|reflexivity]. cbn [andb] in *.
      destruct x as [| | | |xs|xf]; try discriminate.
      destruct (replace_identifiers_arr _ _ _ _ _ RV) as [ys [_ ->]].
      destruct GF as [-> | [grade [[=] _]]]. reflexivity.
    + eapply rebuilt_grade_fixed; eauto.
  - destruct (replace_identifiers_arr _ _ _ _ _ E) as [new_items [RI ->]].
    destruct (rewrite_items_nth _ _ _ _ _ _ _ RI C) as [x' [g1 [g2 [RX N']]]].
    simpl. rewrite N'. cbn [andb]. eapply IH; eauto.
Qed.

(** ** Student emails come back *)

Lemma anonymize_student_email (data out : json) (g g' : rng) (p : list step)
    (fields : dict string json) (email_key local : string) :
  anonymize_json data g = Ok (out, g') ->
  wf_json data = true ->
  rebuilt p data = true ->
  at_path p data = Some (JObj fields) ->
  In email_key ["email"; "studentEmail"] ->
  dict_get fields email_key = Some (JStr (local ++ "@gapps.yrdsb.ca")) ->
  Str.isdigit local = true ->
  exists fields',
    at_path p out = Some (JObj fields') /\
    dict_get fields' email_key = Some (JStr (Str.rev local ++ "@gapps.yrdsb.ca")).
Proof.
  intros E W R A I G D.
  destruct (anonymize_json_entry _ _ _ _ _ _ _ _ E W R A G)
    as [T [g0 [fields' [v' [h1 [h2 [EC [A' [RV G']]]]]]]]];
    try (destruct I as [<- | [<- | []]]; discriminate).
  pose proof (collecting_ok _ (collect_identifiers_collecting _ _ _ _ EC)) as OK.
  rewrite (rewrite_value_student_email _ _ _ _ _ OK I D) in RV.
  injection RV as <- _. eauto.
Qed.

(** Running the pipeline on its own output undoes the reversal: at every
    map node that the rewriter rebuilds, a student email (digits before the
    student domain) under [email] or [studentEmail] comes out of the second
    run exactly as it went into the first. *)
Theorem second_run_restores_student_email (data out1 out2 : json)
    (g1 g1' g2 g2' : rng) (p : list step) (fields : dict string json)
    (email_key local : string) :
  anonymize_json data g1 = Ok (out1, g1') ->
  anonymize_json out1 g2 = Ok (out2, g2') ->
  wf_json data = true ->
  rebuilt p data = true ->
  at_path p data = Some (JObj fields) ->
  In email_key ["email"; "studentEmail"] ->
  dict_get fields email_key = Some (JStr (local ++ "@gapps.yrdsb.ca")) ->
  Str.isdigit local = true ->
  exists fields2,
    at_path p out2 = Some (JObj fields2) /\
    dict_get fields2 email_key = Some (JStr (local ++ "@gapps.yrdsb.ca")).
Proof.
  intros E1 E2 W R A I G D.
  destruct (anonymize_student_email _ _ _ _ _ _ _ _ E1 W R A I G D)
    as [fields1 [A1 G1]].
  destruct (anonymize_json_passes _ _ _ _ E1) as [T [g0 [_ ER]]].
  pose proof (replace_identifiers_wf _ _ W _ _ ER) as W1. cbn [fst] in W1.
  pose proof (replace_identifiers_rebuilt _ _ _ _ _ _ _ ER W R A) as R1.
  assert (D1 : Str.isdigit (Str.rev local) = true) by now rewrite rev_isdigit.
  destruct (anonymize_student_email _ _ _ _ _ _ _ _ E2 W1 R1 A1 I G1 D1)
    as [fields2 [A2 G2]].
  rewrite rev_involutive in G2. eauto.
Qed.

Lemma second_run_restores_student_email_witness :
  exists out1 out2 fields2,
    document (anonymize_json roster_example zeros) = Some out1 /\
    document (anonymize_json out1 counting) = Some out2 /\
    at_path [Key "students"; Idx 1] out2 = Some (JObj fields2) /\
    dict_get fields2 "email" = Some (JStr "200654321@gapps.yrdsb.ca").
Proof.
  eexists. eexists.
  destruct (second_run_restores_student_email roster_example _ _ zeros _ counting _
              [Key "students"; Idx 1] _ "email" "200654321"
              ltac:(vm_compute; reflexivity) ltac:(vm_compute; reflexivity)
              eq_refl eq_refl eq_refl (or_introl eq_refl) eq_refl eq_refl)
    as [fields2 [A2 G2]].
  exists fields2. split; [vm_compute; reflexivity|].
  split; [vm_compute; reflexivity|]. split; [exact A2 | exact G2].
Defined.

(** * Further properties of the repairs *)

(** ** [gradedBy] outside submissions *)

(** The [gradedBy] normalisation belongs to the submission repair only: in a
    map that lacks [studentEmail] or [studentName], a [grade] map whose
    [gradedBy] is ["teacher"] keeps that value. *)
Theorem graded_by_kept_outside_submissions (T : tables)
    (fields grade : dict string json) (g g' : rng) (out : json) :
  replace_identifiers T (JObj fields) g = Ok (out, g') ->
  wf_json (JObj fields) = true ->
  submission_shaped fields = false ->
  dict_get fields "grade" = Some (JObj grade) ->
  dict_get grade "gradedBy" = Some (JStr "teacher") ->
  exists fields' grade',
    out = JObj fields' /\
    dict_get fields' "grade" = Some (JObj grade') /\
    dict_get grade' "gradedBy" = Some (JStr "teacher").
Proof.
  intros E W NS G Gb. destruct (wf_json_obj _ W) as [N Wc].
  destruct (replace_identifiers_entries _ _ _ _ _ E N) as [new_obj [F ->]].
  assert (R : repair_submission new_obj = new_obj).
  { pose proof (submission_shaped_rewritten _ _ _ _ F) as S.
    unfold repair_submission. unfold submission_shaped in S, NS.
    now rewrite S, NS. }
  rewrite R.
  destruct (entries_rewritten_get _ _ _ _ _ _ F G) as [v0 [g1 [g2 [G0 RV]]]].
  apply rewrite_value_container in RV; [|reflexivity|reflexivity].
  pose proof (Wc _ _ G) as Wg. destruct (wf_json_obj _ Wg) as [Ng _].
  destruct (replace_identifiers_get _ _ _ _ _ _ _ RV Ng Gb)
    as [grade' [w0 [w' [h1 [h2 [-> [RW [G' [_ Same]]]]]]]]].
  rewrite rewrite_value_other in RW; [|reflexivity|reflexivity].
  injection RW as <- _. rewrite Same in G' by discriminate. eauto.
Qed.

Lemma graded_by_kept_outside_submissions_witness :
  exists fields' grade',
    document (replace_identifiers initial_tables
                (JObj [("studentName", JStr "Jordan Lee");
                       ("grade", JObj [("score", JNum 9);
                                       ("gradedBy", JStr "teacher")])])
                zeros) = Some (JObj fields') /\
    dict_get fields' "grade" = Some (JObj grade') /\
    dict_get grade' "gradedBy" = Some (JStr "teacher").
Proof.
  destruct (graded_by_kept_outside_submissions initial_tables
              [("studentName", JStr "Jordan Lee");
               ("grade", JObj [("score", JNum 9); ("gradedBy", JStr "teacher")])]
              [("score", JNum 9); ("gradedBy", JStr "teacher")]
              zeros _ _ ltac:(vm_compute; reflexivity) eq_refl eq_refl eq_refl eq_refl)
    as [fields' [grade' [Eo [G Gb]]]].
  exists fields', grade'. split; [|split; assumption].
  injection Eo as <-. vm_compute. reflexivity.
Defined.

(** ** The quiz repair applied to its own result *)

Lemma dict_mem_set_same (d : dict string json) (k : string) (v : json) :
  dict_mem (dict_set d k v) k = true.
Proof. unfold dict_mem. now rewrite dict_get_set_eq. Qed.

Lemma dict_mem_set_keep (d : dict string json) (k k' : string) (v : json) :
  dict_mem d k' = true -> dict_mem (dict_set d k v) k' = true.
Proof. intros M. rewrite dict_mem_set, M. apply orb_true_r. Qed.

Lemma dict_mem_default_same (d : dict string json) (k : string) (v : json) :
  dict_mem (dict_default d k v) k = true.
Proof.
  unfold dict_default. destruct (dict_mem d k) eqn:M; [exact M|].
  apply dict_mem_set_same.
Qed.

Lemma dict_mem_default_keep (d : dict string json) (k k' : string) (v : json) :
  dict_mem d k' = true -> dict_mem (dict_default d k v) k' = true.
Proof.
  intros M. unfold dict_default. destruct (dict_mem d k); [exact M|].
  now apply dict_mem_set_keep.
Qed.

Lemma dict_default_present (d : dict string json) (k : string) (v : json) :
  dict_mem d k = true -> dict_default d k v = d.
Proof. intros M. unfold dict_default. now rewrite M. Qed.

Ltac quiz_key_present :=
  repeat first
    [ assumption
    | apply dict_mem_default_same
    | apply dict_mem_set_same
    | apply dict_mem_default_keep
    | apply dict_mem_set_keep ].

Lemma fix_quiz_data_keys (quiz d : dict string json) (g g' : rng) :
  fix_quiz_data quiz g = Ok (JObj d, g') ->
  forall k, In k QUIZ_KEYS -> dict_mem d k = true.
Proof.
  unfold fix_quiz_data.
  destruct (negb (dict_mem quiz "formId")) eqn:M1;
    [destruct (randint 100000 999999 g) as [n0 g1] | apply negb_false_iff in M1];
    (intros E; apply bind_Ok in E; destruct E as [q7 [E7 E]]; injection E as <- <-;
     revert E7;
     destruct (negb (dict_mem _ "totalQuestions")) eqn:M7;
     [ intros E7; apply bind_Ok in E7; destruct E7 as [n [_ E7]]
     | intros E7; apply negb_false_iff in M7 ];
     injection E7 as <-; intros k I; unfold QUIZ_KEYS in I; simpl in I;
     repeat (destruct I as [<- | I]; [quiz_key_present|]); contradiction).
Qed.

Lemma fix_quiz_data_complete (q : dict string json) (h : rng) :
  (forall k, In k QUIZ_KEYS -> dict_mem q k = true) ->
  fix_quiz_data q h = Ok (JObj q, h).
Proof.
  intros M.
  assert (D : forall k v, In k QUIZ_KEYS -> dict_default q k v = q)
    by (intros k v I; apply dict_default_present, M, I).
  unfold fix_quiz_data.
  rewrite (M "formId") by (unfold QUIZ_KEYS; simpl; auto 20).
  cbv beta iota zeta. cbn [negb].
  rewrite !D by (unfold QUIZ_KEYS; simpl; auto 20).
  rewrite (M "totalQuestions") by (unfold QUIZ_KEYS; simpl; auto 20).
  cbn [negb bind].
  rewrite !D by (unfold QUIZ_KEYS; simpl; auto 20).
  reflexivity.
Qed.

(** The quiz repair is idempotent: its result has all eleven fields, so the
    repair applied to that result returns it unchanged and draws no random
    number. *)
Theorem fix_quiz_data_idempotent (quiz : dict string json) (g g' : rng) (out : json) :
  fix_quiz_data quiz g = Ok (out, g') ->
  exists d,
    out = JObj d /\
    (forall k, In k QUIZ_KEYS -> dict_mem d k = true) /\
    forall h, fix_quiz_data d h = Ok (JObj d, h).
Proof.
  intros E.
  assert (X : exists d, out = JObj d).
  { revert E. unfold fix_quiz_data.
    destruct (if negb (dict_mem quiz "formId") then _ else _) as [q1 g1].
    intros E. apply bind_Ok in E. destruct E as [q7 [_ E]].
    injection E as <- _. eauto. }
  destruct X as [d ->]. exists d. split; [reflexivity|].
  pose proof (fix_quiz_data_keys _ _ _ _ E) as M.
  split; [exact M|]. intros h. now apply fix_quiz_data_complete.
Qed.

Lemma fix_quiz_data_idempotent_witness :
  exists d,
    document (fix_quiz_data [("title", JStr "Unit test"); ("questions", JArr [JNull])]
                counting) = Some (JObj d) /\
    dict_mem d "formId" = true /\
    fix_quiz_data d zeros = Ok (JObj d, zeros).
Proof.
  destruct (fix_quiz_data_idempotent
              [("title", JStr "Unit test"); ("questions", JArr [JNull])]
              counting _ _ ltac:(vm_compute; reflexivity))
    as [d [Eo [M Fx]]].
  exists d. split; [|split; [apply M; left; reflexivity | apply Fx]].
  injection Eo as <-. vm_compute. reflexivity.
Defined.

(** ** The submission repair applied to its own result *)

Lemma repair_submission_fixed (o : dict string json) :
  dict_mem o "updatedAt" = true ->
  dict_mem o "attachments" = true ->
  (forall grade graded_by,
      dict_get o "grade" = Some (JObj grade) ->
      dict_get grade "gradedBy" = Some graded_by ->
      is_str graded_by "teacher" = false) ->
  repair_submission o = o.
Proof.
  intros M1 M2 Hg. unfold repair_submission.
  destruct (dict_mem o "studentEmail" && dict_mem o "studentName"); [|reflexivity].
  rewrite M1. cbn [negb]. cbv zeta. rewrite M2. cbn [negb].
  destruct (dict_get o "grade") as [[| | | | |grade]|] eqn:Gg; try reflexivity.
  destruct (dict_get grade "gradedBy") as [graded_by|] eqn:Gb; [|reflexivity].
  now rewrite (Hg _ _ eq_refl Gb).
Qed.

Lemma repair_submission_shape (obj : dict string json) :
  submission_shaped obj = true ->
  dict_mem (repair_submission obj) "updatedAt" = true /\
  dict_mem (repair_submission obj) "attachments" = true /\
  forall grade graded_by,
    dict_get (repair_submission obj) "grade" = Some (JObj grade) ->
    dict_get grade "gradedBy" = Some graded_by ->
    is_str graded_by "teacher" = false.
Proof.
  intros S. unfold submission_shaped in S. unfold repair_submission. rewrite S.
  cbv zeta.
  match goal with
  | |- context [negb (dict_mem ?o "attachments")] =>
      assert (U1 : dict_mem o "updatedAt" = true);
      [|revert U1; generalize o; intros o1 U1]
  end.
  { destruct (dict_mem obj "updatedAt") eqn:M; cbn [negb];
      [exact M | apply dict_mem_set_same]. }
  match goal with
  | |- context [dict_get ?o "grade"] =>
      assert (U2 : dict_mem o "updatedAt" = true /\ dict_mem o "attachments" = true);
      [|revert U2; generalize o; intros o2 [U2 A2]]
  end.
  { destruct (dict_mem o1 "attachments") eqn:M; cbn [negb].
    - now split.
    - split; [now apply dict_mem_set_keep | apply dict_mem_set_same]. }
  destruct (dict_get o2 "grade") as [[| | | | |grade]|] eqn:Gg;
    try (split; [exact U2 | split; [exact A2 | intros ? ? H0; rewrite Gg in H0; discriminate]]).
  destruct (dict_get grade "gradedBy") as [gb|] eqn:Gb;
    [destruct (is_str gb "teacher") eqn:Is|].
  - split; [now apply dict_mem_set_keep|]. split; [now apply dict_mem_set_keep|].
    intros grade0 gb0. rewrite dict_get_set_eq. intros [= <-].
    rewrite dict_get_set_eq. now intros [= <-].
  - split; [exact U2|]. split; [exact A2|].
    intros grade0 gb0. rewrite Gg. intros [= <-]. rewrite Gb. now intros [= <-].
  - split; [exact U2|]. split; [exact A2|].
    intros grade0 gb0. rewrite Gg. intros [= <-]. rewrite Gb. discriminate.
Qed.

(** The submission repair is idempotent: applied to a map that it has
    repaired it changes nothing more. *)
Theorem repair_submission_idempotent (obj : dict string json) :
  repair_submission (repair_submission obj) = repair_submission obj.
Proof.
  destruct (submission_shaped obj) eqn:S.
  - destruct (repair_submission_shape _ S) as [U [A Hg]].
    now apply repair_submission_fixed.
  - assert (R : repair_submission obj = obj).
    { unfold repair_submission. unfold submission_shaped in S. now rewrite S. }
    rewrite R. exact R.
Qed.

(** * The table of student numbers *)

Lemma rewrite_value_number_table (T T' : tables)
    (recur recur' : json -> rng -> result (json * rng))
    (k : string) (v : json) (g : rng) :
  name_mapping T = name_mapping T' ->
  student_id_mapping T = student_id_mapping T' ->
  (forall n r, dict_get (student_number_mapping T) n = Some r ->
               r = reverse_student_number n) ->
  (forall n r, dict_get (student_number_mapping T') n = Some r ->
               r = reverse_student_number n) ->
  (forall h, recur v h = recur' v h) ->
  rewrite_value T recur k v g = rewrite_value T' recur' k v g.
Proof.
  intros Hn Hi H1 H2 Hr. unfold rewrite_value, lookup_name, lookup_id.
  rewrite <- Hn, <- Hi, (Hr g).
  destruct (_ && is_str v TEACHER_EMAIL); [reflexivity|].
  destruct (_ && Str.contains STUDENT_DOMAIN (py_str v)); [|reflexivity].
  destruct (py_local_part v) as [student_number|e]; [|reflexivity].
  cbn [bind]. destruct (Str.isdigit student_number); [|reflexivity].
  destruct (dict_get (student_number_mapping T) student_number) as [r1|] eqn:A;
    destruct (dict_get (student_number_mapping T') student_number) as [r2|] eqn:B;
    try rewrite (H1 _ _ A); try rewrite (H2 _ _ B); reflexivity.
Qed.

Lemma rewrite_entries_number_table (T T' : tables)
    (recur recur' : json -> rng -> result (json * rng)) (l : dict string json) :
  name_mapping T = name_mapping T' ->
  student_id_mapping T = student_id_mapping T' ->
  (forall n r, dict_get (student_number_mapping T) n = Some r ->
               r = reverse_student_number n) ->
  (forall n r, dict_get (student_number_mapping T') n = Some r ->
               r = reverse_student_number n) ->
  Forall (fun kv => forall h, recur (snd kv) h = recur' (snd kv) h) l ->
  forall acc g,
    rewrite_entries T recur l acc g = rewrite_entries T' recur' l acc g.
Proof.
  intros Hn Hi H1 H2. induction 1 as [|[k x] l Hx _ IH]; intros acc g; simpl;
    [reflexivity|].
  cbn [snd] in Hx.
  rewrite (rewrite_value_number_table T T' recur recur' k x g Hn Hi H1 H2 Hx).
  destruct (rewrite_value T' recur' k x g) as [[v g1]|e]; [|reflexivity].
  cbn [bind]. apply IH.
Qed.

Lemma rewrite_items_ext (recur recur' : json -> rng -> result (json * rng))
    (l : list json) :
  Forall (fun x => forall h, recur x h = recur' x h) l ->
  forall g, rewrite_items recur l g = rewrite_items recur' l g.
Proof.
  induction 1 as [|x l Hx _ IH]; intros g; simpl; [reflexivity|].
  rewrite Hx. destruct (recur' x g) as [[v g1]|e]; [|reflexivity].
  cbn [bind]. now rewrite IH.
Qed.

Lemma replace_identifiers_number_table (T T' : tables) (d : json) :
  name_mapping T = name_mapping T' ->
  student_id_mapping T = student_id_mapping T' ->
  (forall n r, dict_get (student_number_mapping T) n = Some r ->
               r = reverse_student_number n) ->
  (forall n r, dict_get (student_number_mapping T') n = Some r ->
               r = reverse_student_number n) ->
  forall g, replace_identifiers T d g = replace_identifiers T' d g.
Proof.
  intros Hn Hi H1 H2.
  induction d as [| | | |items IH|fields IH] using json_ind; intros g;
    try reflexivity.
  - cbn [replace_identifiers].
    now rewrite (rewrite_items_ext _ _ _ IH g).
  - cbn [replace_identifiers].
    now rewrite (rewrite_entries_number_table T T' _ _ fields Hn Hi H1 H2 IH [] g).
Qed.

(** The table of student numbers that the first pass builds is redundant:
    the second pass returns the same result, and leaves the same random
    stream, when it is given an empty table instead, because an entry of the
    table is what the reversal on the fly computes. *)
Theorem number_table_redundant (data d : json) (g g0 h : rng) (T : tables) :
  collect_identifiers data initial_tables g = Ok (T, g0) ->
  replace_identifiers T d h =
  replace_identifiers
    {| name_mapping := name_mapping T;
       student_number_mapping := [];
       student_id_mapping := student_id_mapping T;
       used_names := [] |} d h.
Proof.
  intros EC.
  pose proof (collecting_ok _ (collect_identifiers_collecting _ _ _ _ EC)) as OK.
  apply replace_identifiers_number_table; try reflexivity.
  - intros n r G. apply (ok_numbers _ OK _ _ G).
  - intros n r G. discriminate.
Qed.

Lemma number_table_redundant_witness :
  exists T g0,
    collect_identifiers roster_example initial_tables zeros = Ok (T, g0) /\
    student_number_mapping T <> [] /\
    replace_identifiers T roster_example g0 =
    replace_identifiers
      {| name_mapping := name_mapping T;
         student_number_mapping := [];
         student_id_mapping := student_id_mapping T;
         used_names := [] |} roster_example g0.
Proof.
  destruct (collect_identifiers roster_example initial_tables zeros)
    as [[T g0]|e] eqn:EC; [|vm_compute in EC; discriminate].
  exists T, g0. split; [reflexivity|]. split.
  - vm_compute in EC. injection EC as <- _. discriminate.
  - apply (number_table_redundant roster_example roster_example zeros g0 g0 T EC).
Defined.

(** * Random draws *)

Lemma draw_free_obj (fields : dict string json) :
  draw_free (JObj fields) = true ->
  dict_mem fields "studentId" = false /\
  Forall (fun kv => quiz_has_form_id (fst kv) (snd kv) = true /\
                    draw_free (snd kv) = true) fields.
Proof.
  cbn [draw_free]. rewrite andb_true_iff, negb_true_iff. intros [M A].
  split; [exact M|]. clear M. induction fields as [|[k x] l IH]; [constructor|].
  rewrite !andb_true_iff in A. destruct A as [[Q D] A]. constructor; auto.
Qed.

Lemma draw_free_arr (items : list json) :
  draw_free (JArr items) = true -> Forall (fun x => draw_free x = true) items.
Proof.
  cbn [draw_free]. induction items as [|x l IH]; [constructor|].
  rewrite andb_true_iff. intros [D A]. constructor; auto.
Qed.

Ltac no_draw_done :=
  let E := fresh "E" in
  intros E; injection E as <- <-; split; [reflexivity | intros ?; reflexivity].

(** ** The collection pass *)

Lemma collect_node_no_draw (obj : dict string json) (T : tables) :
  dict_mem obj "studentId" = false -> draws_nothing (collect_node obj T).
Proof.
  intros M g T' g'. unfold collect_node. cbv zeta.
  destruct (collect_name_email "name" "email" obj _) as [T2|e]; cbn [bind];
    [|discriminate].
  destruct (collect_name_email "studentName" "studentEmail" obj T2) as [T3|e];
    cbn [bind]; [|discriminate].
  destruct (collect_email obj T3) as [T4|e]; cbn [bind]; [|discriminate].
  unfold collect_student_id. apply dict_mem_get_None in M. rewrite M.
  no_draw_done.
Qed.

Lemma collect_values_no_draw (visit : json -> tables -> rng -> result (tables * rng))
    (l : dict string json) :
  Forall (fun kv => forall T, draws_nothing (visit (snd kv) T)) l ->
  forall T, draws_nothing (collect_values visit l T).
Proof.
  induction 1 as [|[k x] l Hx _ IH]; intros T g T' g' E; simpl in E |- *.
  - revert E. no_draw_done.
  - cbn [snd] in Hx. apply bind_Ok in E. destruct E as [[T1 g1] [E1 E]].
    destruct (Hx T g T1 g1 E1) as [-> H1]. destruct (IH T1 g T' g' E) as [-> H2].
    split; [reflexivity|]. intros h. rewrite H1. cbn [bind]. apply H2.
Qed.

Lemma collect_items_no_draw (visit : json -> tables -> rng -> result (tables * rng))
    (l : list json) :
  Forall (fun x => forall T, draws_nothing (visit x T)) l ->
  forall T, draws_nothing (collect_items visit l T).
Proof.
  induction 1 as [|x l Hx _ IH]; intros T g T' g' E; simpl in E |- *.
  - revert E. no_draw_done.
  - apply bind_Ok in E. destruct E as [[T1 g1] [E1 E]].
    destruct (Hx T g T1 g1 E1) as [-> H1]. destruct (IH T1 g T' g' E) as [-> H2].
    split; [reflexivity|]. intros h. rewrite H1. cbn [bind]. apply H2.
Qed.

Lemma collect_identifiers_no_draw (d : json) :
  draw_free d = true -> forall T, draws_nothing (collect_identifiers d T).
Proof.
  induction d as [| | | |items IH|fields IH] using json_ind; intros D T;
    try (intros g T' g'; simpl; no_draw_done).
  - cbn [collect_identifiers]. apply collect_items_no_draw.
    pose proof (draw_free_arr _ D) as F. rewrite Forall_forall in *.
    intros x I. apply (IH _ I (F _ I)).
  - destruct (draw_free_obj _ D) as [M F]. intros g T' g' E.
    cbn [collect_identifiers] in E |- *.
    apply bind_Ok in E. destruct E as [[T1 g1] [E1 E]].
    destruct (collect_node_no_draw _ _ M _ _ _ E1) as [-> H1].
    assert (V : forall T0, draws_nothing (collect_values collect_identifiers fields T0)).
    { apply collect_values_no_draw. rewrite Forall_forall in *.
      intros kv I. apply (IH _ I (proj2 (F _ I))). }
    destruct (V _ _ _ _ E) as [-> H2]. split; [reflexivity|].
    intros h. rewrite H1. cbn [bind]. apply H2.
Qed.

(** ** The rewrite pass *)

Lemma fix_quiz_data_no_draw (quiz : dict string json) :
  dict_mem quiz "formId" = true -> draws_nothing (fix_quiz_data quiz).
Proof.
  intros M g x g'. unfold fix_quiz_data. rewrite M. cbn [negb]. cbv beta iota zeta.
  intros E. apply bind_Ok in E. destruct E as [q7 [E7 E]]. injection E as <- <-.
  split; [reflexivity|]. intros h. now rewrite E7.
Qed.

Lemma rewrite_value_no_draw (T : tables) (recur : json -> rng -> result (json * rng))
    (k : string) (v : json) :
  quiz_has_form_id k v = true ->
  draws_nothing (recur v) ->
  draws_nothing (rewrite_value T recur k v).
Proof.
  intros Q Hr g x g'. unfold rewrite_value.
  destruct (_ && is_str v TEACHER_EMAIL); [no_draw_done|].
  destruct (_ && Str.contains STUDENT_DOMAIN (py_str v)).
  { destruct (py_local_part v) as [student_number|e]; cbn [bind]; [|discriminate].
    destruct (Str.isdigit student_number);
      [destruct (dict_get (student_number_mapping T) student_number)|].
    all: no_draw_done. }
  destruct (if Str.mem k ["name"; "displayName"; "studentName"]
            then lookup_name T v else None); [no_draw_done|].
  destruct (if String.eqb k "studentId" then lookup_id T v else Ok None)
    as [[fake_id|]|e]; cbn [bind]; [no_draw_done| |discriminate].
  destruct (Str.mem k URL_KEYS); [no_draw_done|].
  unfold quiz_has_form_id in Q.
  destruct (String.eqb k "quizData");
    [destruct v as [|b|z|s| |quiz]|];
    try (cbn [negb orb] in Q; exact (fix_quiz_data_no_draw quiz Q g x g'));
    cbv beta iota;
    (destruct (String.eqb k "courseGroupEmail");
     [ try destruct v; first [ no_draw_done | intros E; discriminate E ]
     | destruct (is_container _); [exact (Hr g x g') | no_draw_done] ]).
Qed.

Lemma rewrite_entries_no_draw (T : tables)
    (recur : json -> rng -> result (json * rng)) (l : dict string json) :
  Forall (fun kv => quiz_has_form_id (fst kv) (snd kv) = true /\
                    draws_nothing (recur (snd kv))) l ->
  forall acc, draws_nothing (rewrite_entries T recur l acc).
Proof.
  induction 1 as [|[k x] l [Q Hx] _ IH]; intros acc g out g' E; simpl in E |- *.
  - revert E. no_draw_done.
  - cbn [fst snd] in Q, Hx. apply bind_Ok in E. destruct E as [[v g1] [E1 E]].
    destruct (rewrite_value_no_draw T recur k x Q Hx g v g1 E1) as [-> H1].
    destruct (IH _ g out g' E) as [-> H2].
    split; [reflexivity|]. intros h. rewrite H1. cbn [bind]. apply H2.
Qed.

Lemma rewrite_items_no_draw (recur : json -> rng -> result (json * rng))
    (l : list json) :
  Forall (fun x => draws_nothing (recur x)) l ->
  draws_nothing (rewrite_items recur l).
Proof.
  induction 1 as [|x l Hx _ IH]; intros g out g' E; simpl in E |- *.
  - revert E. no_draw_done.
  - apply bind_Ok in E. destruct E as [[v g1] [E1 E]].
    apply bind_Ok in E. destruct E as [[vs g2] [E2 E]]. injection E as <- <-.
    destruct (Hx g v g1 E1) as [-> H1]. destruct (IH g vs g2 E2) as [-> H2].
    split; [reflexivity|]. intros h. rewrite H1. cbn [bind]. rewrite H2.
    reflexivity.
Qed.

Lemma replace_identifiers_no_draw (T : tables) (d : json) :
  draw_free d = true -> draws_nothing (replace_identifiers T d).
Proof.
  induction d as [| | | |items IH|fields IH] using json_ind; intros D;
    try (intros g out g'; simpl; no_draw_done).
  - intros g out g' E. cbn [replace_identifiers] in E |- *.
    apply bind_Ok in E. destruct E as [[new_items g1] [E1 E]]. injection E as <- <-.
    assert (R : draws_nothing (rewrite_items (replace_identifiers T) items)).
    { apply rewrite_items_no_draw. pose proof (draw_free_arr _ D) as F.
      rewrite Forall_forall in *. intros x I. apply (IH _ I (F _ I)). }
    destruct (R _ _ _ E1) as [-> H1]. split; [reflexivity|].
    intros h. now rewrite H1.
  - intros g out g' E. cbn [replace_identifiers] in E |- *.
    apply bind_Ok in E. destruct E as [[new_obj g1] [E1 E]]. injection E as <- <-.
    assert (R : draws_nothing (rewrite_entries T (replace_identifiers T) fields [])).
    { apply rewrite_entries_no_draw. destruct (draw_free_obj _ D) as [_ F].
      rewrite Forall_forall in *. intros kv I. destruct (F _ I) as [Q Dx].
      split; [exact Q | apply (IH _ I Dx)]. }
    destruct (R _ _ _ E1) as [-> H1]. split; [reflexivity|].
    intros h. now rewrite H1.
Qed.

(** The source calls [random] in two places: for the replacement of a
    [studentId] and for the [formId] of a quiz that lacks one.  On a document
    in which no map has a [studentId] key and every [quizData] map has
    [formId], the run draws nothing: it returns the same document whatever
    the random stream, and leaves the stream as it was. *)
Theorem run_without_draws (data out : json) (g g' : rng) :
  draw_free data = true ->
  anonymize_json data g = Ok (out, g') ->
  g' = g /\ forall h, anonymize_json data h = Ok (out, h).
Proof.
  intros D E. unfold anonymize_json in E |- *.
  apply bind_Ok in E. destruct E as [[T g0] [EC ER]].
  destruct (collect_identifiers_no_draw _ D _ _ _ _ EC) as [-> H1].
  destruct (replace_identifiers_no_draw T _ D _ _ _ ER) as [-> H2].
  split; [reflexivity|]. intros h. rewrite H1. cbn [bind]. apply H2.
Qed.

Lemma run_without_draws_witness :
  exists out,
    anonymize_json anonymized_example counting = Ok (out, counting) /\
    anonymize_json anonymized_example zeros = Ok (out, zeros).
Proof.
  destruct (run_without_draws anonymized_example _ counting _ eq_refl
              ltac:(vm_compute; reflexivity)) as [_ H].
  eexists. split; apply H.
Defined.

(** * Synthetic names kept apart *)

Lemma generate_fake_name_cases (index : nat) (used used' : list string) (name : string) :
  generate_fake_name index used = (name, used') ->
  (~ In name used /\ used' = name :: used) \/
  (80 <= List.length used /\ used' = used).
Proof.
  unfold generate_fake_name.
  destruct (search_name 100 0 index used) as [n|] eqn:S; intros [= <- <-].
  - left. split; [eapply search_name_fresh; eauto | reflexivity].
  - right. split; [eapply all_last_names_tried; eauto | reflexivity].
Qed.

Lemma initial_names_apart : names_apart initial_tables.
Proof.
  assert (D : forall k v, dict_get (name_mapping initial_tables) k = Some v ->
                          v = DEV_NAME).
  { intros k v G. apply dict_get_In in G. rewrite initial_name_mapping in G.
    destruct G as [[= _ <-] | [[= _ <-] | []]]; reflexivity. }
  split.
  - intros k v G. left. eapply D; eauto.
  - intros k1 k2 v _ G _. left. eapply D; eauto.
Qed.

Lemma names_apart_same (T T' : tables) :
  name_mapping T' = name_mapping T ->
  used_names T' = used_names T ->
  names_apart T -> names_apart T'.
Proof. unfold names_apart. intros -> ->. auto. Qed.

Lemma record_student_number_apart (student_number : string) (T : tables) :
  names_apart T -> names_apart (record_student_number student_number T).
Proof.
  apply names_apart_same; unfold record_student_number; destruct (negb _);
    reflexivity.
Qed.

Lemma record_name_apart (name : json) (T T' : tables) :
  names_apart T -> record_name name T = Ok T' -> names_apart T'.
Proof.
  intros [Ho Hd] E. unfold record_name in E.
  apply bind_Ok in E. destruct E as [key [_ E]].
  destruct (negb (dict_mem (name_mapping T) key) && negb (is_str name TEACHER_NAME))
    eqn:C; [|injection E as <-; split; assumption].
  apply andb_true_iff in C. destruct C as [M _]. apply negb_true_iff in M.
  destruct (generate_fake_name _ _) as [fake used'] eqn:GF.
  injection E as <-. apply generate_fake_name_cases in GF.
  destruct GF as [[Fresh ->] | [Full ->]].
  - split; cbn [name_mapping used_names].
    + intros k v. rewrite dict_get_set. destruct (keqb key k).
      * intros [= <-]. right. left. now left.
      * intros G. destruct (Ho _ _ G) as [D | [I | L]]; auto.
        -- right. left. now right.
        -- right. right. simpl. lia.
    + assert (New : forall k, dict_get (name_mapping T) k = Some fake ->
                              fake = DEV_NAME \/ 80 <= List.length (fake :: used_names T)).
      { intros k G. destruct (Ho _ _ G) as [D | [I | L]]; auto; [contradiction|].
        right. simpl. lia. }
      intros k1 k2 v N. rewrite !dict_get_set.
      destruct (keqb key k1) eqn:E1, (keqb key k2) eqn:E2.
      * apply keqb_spec in E1, E2. congruence.
      * intros [= <-] G. eapply New; eauto.
      * intros G [= <-]. eapply New; eauto.
      * intros G1 G2. destruct (Hd _ _ _ N G1 G2) as [D | L]; auto.
        right. simpl. lia.
  - split; cbn [name_mapping used_names].
    + intros k v _. auto.
    + intros k1 k2 v _ _ _. auto.
Qed.

Lemma collect_step_apart (T T' : tables) :
  tables_ok T -> names_apart T -> collect_step T T' -> names_apart T'.
Proof.
  intros OK A S.
  destruct S as [obj T | nk ek obj T T' E | obj T T' E | obj T g T' g' E].
  - unfold collect_teacher. destruct (dict_get obj "email") as [e|]; [|exact A].
    destruct (is_str e TEACHER_EMAIL); [|exact A].
    pose proof (ok_teacher _ OK) as G. destruct A as [Ho Hd].
    split; cbn [name_mapping used_names].
    + intros k v. rewrite (dict_get_set_same _ _ _ _ G). apply Ho.
    + intros k1 k2 v. rewrite !(dict_get_set_same _ _ _ _ G). apply Hd.
  - unfold collect_name_email in E.
    destruct (dict_get obj nk) as [name|]; [|now injection E as <-].
    destruct (dict_get obj ek) as [email|]; [|now injection E as <-].
    unfold collect_student in E. apply bind_Ok in E. destruct E as [sn [_ E]].
    destruct sn as [sn|]; [|now injection E as <-].
    apply bind_Ok in E. destruct E as [T1 [E1 E]]. injection E as <-.
    apply record_student_number_apart. eapply record_name_apart; eauto.
  - unfold collect_email in E.
    destruct (dict_get obj "email") as [email|]; [|now injection E as <-].
    apply bind_Ok in E. destruct E as [sn [_ E]].
    destruct sn as [sn|]; injection E as <-;
      [now apply record_student_number_apart | exact A].
  - unfold collect_student_id in E.
    destruct (dict_get obj "studentId") as [sid|]; [|now injection E as <- <-].
    apply bind_Ok in E. destruct E as [key [_ E]].
    destruct key as [|z|s]; try (apply bind_Ok in E; destruct E as [m [_ E]];
      now injection E as <- <-).
    destruct (negb _); [|now injection E as <- <-].
    destruct (random_digits _ _). injection E as <- <-.
    revert A. now apply names_apart_same.
Qed.

Lemma collecting_apart (T : tables) : collecting T -> names_apart T.
Proof.
  intros C. unfold collecting, collect_steps in C. apply clos_rt_rtn1 in C.
  induction C as [|T1 T2 S C IH]; [apply initial_names_apart|].
  apply clos_rtn1_rt in C.
  eapply collect_step_apart; [apply collecting_ok; exact C | exact IH | exact S].
Qed.

(** While fewer than 80 synthetic names are in use after the first pass, the
    Name Mapping keeps students apart: a synthetic name other than the
    teacher placeholder stands under one real name only. *)
Theorem student_names_kept_apart (data : json) (g g0 : rng) (T : tables)
    (k1 k2 : pykey) (v1 v2 : string) :
  collect_identifiers data initial_tables g = Ok (T, g0) ->
  List.length (used_names T) < 80 ->
  k1 <> k2 ->
  dict_get (name_mapping T) k1 = Some v1 ->
  dict_get (name_mapping T) k2 = Some v2 ->
  v1 <> DEV_NAME ->
  v1 <> v2.
Proof.
  intros EC B N G1 G2 ND <-.
  destruct (collecting_apart _ (collect_identifiers_collecting _ _ _ _ EC)) as [_ Hd].
  destruct (Hd _ _ _ N G1 G2) as [D | L]; [contradiction | lia].
Qed.

Lemma student_names_kept_apart_witness :
  exists T v1 v2,
    document (collect_identifiers roster_example initial_tables zeros) = Some T /\
    dict_get (name_mapping T) (KStr "Jordan Lee") = Some v1 /\
    dict_get (name_mapping T) (KStr "Robin Park") = Some v2 /\
    v1 <> v2.
Proof.
  destruct (collect_identifiers roster_example initial_tables zeros)
    as [[T g0]|e] eqn:EC; [|vm_compute in EC; discriminate].
  pose proof (student_names_kept_apart roster_example zeros g0 T
                (KStr "Jordan Lee") (KStr "Robin Park")) as H.
  vm_compute in EC. injection EC as <- <-.
  eexists. eexists. eexists. split; [reflexivity|].
  split; [vm_compute; reflexivity|]. split; [vm_compute; reflexivity|].
  apply H; try (vm_compute; reflexivity); try discriminate.
  cbn. lia.
Defined.
